(** * Tiled and padded prediction (bioimageio.core.prediction)

    A shallow embedding of the tiling / padding / stitching engine of
    [bioimageio/core/prediction.py], and the properties its specification
    states about it.

    Python integers are [Z]; [//] and [%] are [Z.div] and [Z.modulo] (both
    round towards minus infinity, as Python's do), with the division by zero
    raised explicitly.  Dictionaries are stdpp's [gmap]; exceptions are an
    error monad. *)

From Stdlib Require Import ZArith QArith Lia.
From stdpp Require Import base gmap strings list pretty.

Local Close Scope Q_scope.
Local Open Scope Z_scope.

(** ** Exceptions *)

Inductive exn : Set :=
| AssertionError
| KeyError
| IndexError
| RuntimeError
| ValueError
| TypeError
| AttributeError
| ZeroDivisionError
| NotImplementedError.

#[global] Instance exn_eq_dec : EqDecision exn.
Proof. solve_decision. Defined.

Inductive result (A : Type) : Type :=
| Ok (a : A)
| Raise (e : exn).
Arguments Ok {A} a.
Arguments Raise {A} e.

#[global] Instance result_ret : MRet result := λ A a, Ok a.
#[global] Instance result_bind : MBind result := λ A B f m,
  match m with
  | Ok a => f a
  | Raise e => Raise e
  end.

(** [assert b] *)
Definition py_assert (b : bool) : result unit :=
  if b then Ok () else Raise AssertionError.

(** [d[k]] on a dictionary *)
Definition getitem {V : Type} (d : gmap string V) (k : string) : result V :=
  match d !! k with
  | Some v => Ok v
  | None => Raise KeyError
  end.

(** [l[0]] on a list *)
Definition head_item {A : Type} (l : list A) : result A :=
  match l with
  | a :: _ => Ok a
  | [] => Raise IndexError
  end.

(** [[f(x) for x in l]], stopping at the first exception *)
Fixpoint for_each {A B : Type} (f : A → result B) (l : list A) : result (list B) :=
  match l with
  | [] => Ok []
  | x :: l' => y ← f x; ys ← for_each f l'; Ok (y :: ys)
  end.

(** [{k: v for k, v in l}]: a later entry overrides an earlier one *)
Definition dict_of {V : Type} (l : list (string * V)) : gmap string V :=
  foldl (λ d kv, <[kv.1 := kv.2]> d) ∅ l.

(** [a % b] *)
Definition py_mod (a b : Z) : result Z :=
  if b =? 0 then Raise ZeroDivisionError else Ok (a `mod` b).

(** [a // b] *)
Definition py_floordiv (a b : Z) : result Z :=
  if b =? 0 then Raise ZeroDivisionError else Ok (a `div` b).

(** [sub in s] on two strings: the substring test *)
Fixpoint str_in (sub s : string) : bool :=
  String.prefix sub s ||
  match s with
  | EmptyString => false
  | String _ s' => str_in sub s'
  end.
Arguments str_in : simpl never.

(** ** Slices

    [slice(start, stop)] with step 1; [None] is an absent bound. *)

Record slice : Set := Slice { start : option Z; stop : option Z }.

#[global] Instance slice_eq_dec : EqDecision slice.
Proof. solve_decision. Defined.

(** [slice(None)] *)
Definition slice_all : slice := Slice None None.

(** A bound of a slice resolved against an axis of length [n]: a negative
    bound counts from the end, and the result is clipped to [0, n]. *)
Definition clip_bound (n i : Z) : Z :=
  if i <? 0 then Z.max (i + n) 0 else Z.min i n.

(** [s.indices(n)], without the step *)
Definition slice_indices (s : slice) (n : Z) : Z * Z :=
  (from_option (clip_bound n) 0 (start s), from_option (clip_bound n) n (stop s)).

Definition slice_len (s : slice) (n : Z) : Z :=
  Z.max ((slice_indices s n).2 - (slice_indices s n).1) 0.

(** ** Arrays

    A numpy array is its shape, the name of its element type and its
    elements, read by index vector.  Only the elements at index vectors
    inside the shape are meaningful. *)

Record ndarray : Type := NdArray { shape : list Z; dtype : string; item : list Z → Z }.

Definition ndim (a : ndarray) : nat := length (shape a).

Definition in_bounds (sh idx : list Z) : Prop :=
  Forall2 (λ i n, 0 ≤ i < n) idx sh.

(** Two arrays are the same array when they have the same shape and the same
    element at every index vector inside it. *)
Definition array_eq (a b : ndarray) : Prop :=
  shape a = shape b ∧ ∀ idx, in_bounds (shape a) idx → item a idx = item b idx.

(** [itertools.product] of the lists [ls]: the last component varies fastest *)
Fixpoint product {A : Type} (ls : list (list A)) : list (list A) :=
  match ls with
  | [] => [[]]
  | l :: ls' => x ← l; (x ::.) <$> product ls'
  end.

(** [range(n)] *)
Definition py_range (n : Z) : list Z := seqZ 0 n.

(** All index vectors of a shape, in row-major order *)
Definition indices (sh : list Z) : list (list Z) := product (py_range <$> sh).

Definition array_eqb (a b : ndarray) : bool :=
  bool_decide (shape a = shape b) &&
  forallb (λ idx, item a idx =? item b idx) (indices (shape a)).

(** [np.zeros(shape, dtype=dtype)]; a negative extent is refused *)
Definition np_zeros (sh : list Z) (dt : string) : result ndarray :=
  if forallb (λ n, 0 <=? n) sh then Ok (NdArray sh dt (λ _, 0)) else Raise ValueError.

(** [a[key]] for a tuple of slices, one per axis *)
Definition slice_values (a : ndarray) (key : list slice) : ndarray :=
  {| shape := zip_with (λ n s, slice_len s n) (shape a) key;
     dtype := dtype a;
     item := λ idx,
       item a (zip_with (λ i ns, (slice_indices ns.2 ns.1).1 + i) idx
                        (zip (shape a) key)) |}.

(** *** numpy.pad, mode "symmetric"

    numpy is not part of the repository; [np_pad] follows numpy's
    [numpy.pad(array, pad_width, mode="symmetric")]:
    - [pad_width] is broadcast to one (before, after) pair per axis: a single
      pair serves every axis, an empty list is refused for its type, any other
      length must be the number of axes;
    - a negative width is refused;
    - an axis of length 0 cannot be extended by reflection, numpy raises
      ValueError ("can't extend empty axis");
    - the result has [before + n + after] elements on an axis of length [n],
      the original data sits at offset [before], and what is added mirrors
      the data at the edge, the edge element included, with period [2 n]. *)

Definition as_pairs (pad_width : list (Z * Z)) (nd : nat) : result (list (Z * Z)) :=
  match pad_width with
  | [] => Raise TypeError
  | [p] => Ok (replicate nd p)
  | _ => if decide (length pad_width = nd) then Ok pad_width else Raise ValueError
  end.

Definition reflect_index (n i : Z) : Z :=
  let m := i `mod` (2 * n) in
  if m <? n then m else 2 * n - 1 - m.

Definition extends_empty_axis (nw : Z * (Z * Z)) : bool :=
  (nw.1 =? 0) && negb ((nw.2.1 =? 0) && (nw.2.2 =? 0)).

Definition np_pad (a : ndarray) (pad_width : list (Z * Z)) : result ndarray :=
  pw ← as_pairs pad_width (ndim a);
  _ ← (if forallb (λ w : Z * Z, (0 <=? w.1) && (0 <=? w.2)) pw
       then Ok () else Raise ValueError);
  _ ← (if existsb extends_empty_axis (zip (shape a) pw)
       then Raise ValueError else Ok ());
  Ok {| shape := zip_with (λ n (w : Z * Z), w.1 + n + w.2) (shape a) pw;
        dtype := dtype a;
        item := λ idx,
          item a (zip_with (λ i (nw : Z * (Z * Z)), reflect_index nw.1 (i - nw.2.1))
                           idx (zip (shape a) pw)) |}.

(** *** xarray.DataArray: an array with one label per axis *)

Record DataArray : Type := MkDataArray { dims : list string; values : ndarray }.

(** [xr.DataArray(data, dims=dims)] *)
Definition xr_DataArray (data : ndarray) (ds : list string) : result DataArray :=
  if decide (length ds = ndim data) then Ok (MkDataArray ds data) else Raise ValueError.

(** [len(a)]: the length of the first axis *)
Definition array_len (a : ndarray) : result Z :=
  match shape a with
  | n :: _ => Ok n
  | [] => Raise TypeError
  end.

(** [data[key]] for a tuple of slices *)
Definition getitem_tuple (data : DataArray) (key : list slice) : result DataArray :=
  if decide (length key ≤ ndim (values data))%nat
  then Ok (MkDataArray (dims data)
             (slice_values (values data)
                (key ++ replicate (ndim (values data) - length key) slice_all)))
  else Raise IndexError.

(** The positional key of a dictionary key: a dimension that the key does not
    name is taken whole; a name that is no dimension of the array is refused
    (ValueError, "dimensions do not exist"). *)
Definition dict_key (ds : list string) (key : gmap string slice) : result (list slice) :=
  if bool_decide (dom key ⊆ list_to_set ds)
  then Ok ((λ d, default slice_all (key !! d)) <$> ds)
  else Raise ValueError.

(** [data[key]] for a dictionary of slices *)
Definition getitem_dict (data : DataArray) (key : gmap string slice) : result DataArray :=
  k ← dict_key (dims data) key;
  Ok (MkDataArray (dims data) (slice_values (values data) k)).

(** [data[key] = value] on the elements: the value is broadcast to the
    window the key selects (missing leading axes and axes of length 1 are
    repeated), and an incompatible shape is refused. *)
Definition broadcastable (v w : list Z) : bool :=
  forallb (λ vw : Z * Z, (vw.1 =? vw.2) || (vw.1 =? 1)) (zip v w).

Definition in_window (sh : list Z) (key : list slice) (idx : list Z) : bool :=
  forallb (λ ins : Z * (Z * slice),
             ((slice_indices ins.2.2 ins.2.1).1 <=? ins.1) &&
             (ins.1 <? (slice_indices ins.2.2 ins.2.1).2))
          (zip idx (zip sh key)).

Definition setitem_values (a : ndarray) (key : list slice) (v : ndarray) : result ndarray :=
  if decide (ndim v ≤ ndim a)%nat then
    let lead := (ndim a - ndim v)%nat in
    let vshape := replicate lead 1 ++ shape v in
    if broadcastable vshape (shape (slice_values a key)) then
      Ok {| shape := shape a;
            dtype := dtype a;
            item := λ idx,
              if in_window (shape a) key idx
              then item v (drop lead
                     (zip_with (λ i (ns : Z * (Z * slice)),
                                  if ns.1 =? 1 then 0
                                  else i - (slice_indices ns.2.2 ns.2.1).1)
                               idx (zip vshape (zip (shape a) key))))
              else item a idx |}
    else Raise ValueError
  else Raise ValueError.

(** [data[key] = value] for a dictionary of slices *)
Definition setitem_dict (data : DataArray) (key : gmap string slice) (value : DataArray)
  : result DataArray :=
  k ← dict_key (dims data) key;
  a ← setitem_values (values data) k (values value);
  Ok (MkDataArray (dims data) a).

(** ** Model description and prediction pipeline

    The pipeline is the opaque backend: the tensor descriptions of the model
    and a [forward] function from labelled arrays to labelled arrays. *)

Inductive shape_spec : Type :=
| ExplicitShape (sh : list Z)
| ParametrizedInputShape (min step : list Z)
| ImplicitOutputShape (reference_tensor : string) (scale offset : list Q).

Record tensor_spec : Type := TensorSpec {
  name : string;
  axes : list string;
  spec_shape : shape_spec;
  halo : option (list Z);
  data_type : string
}.

Record PredictionPipeline : Type := Pipeline {
  input_specs : list tensor_spec;
  output_specs : list tensor_spec;
  forward : list DataArray → result (list DataArray)
}.

(** A padding setting: a dictionary with an optional ["mode"] entry and one
    target per axis label. *)
Record padding_dict : Type := PaddingDict {
  pad_mode : option string;
  pad_targets : gmap string Z
}.

(** [Optional[Union[bool, Dict[str, int]]]] *)
Inductive padding_arg : Type :=
| PaddingNone
| PaddingBool (b : bool)
| PaddingOf (d : padding_dict).

(** [Optional[Union[bool, Dict[str, Dict[str, int]]]]] *)
Inductive tiling_arg : Type :=
| TilingNone
| TilingBool (b : bool)
| TilingOf (d : gmap string (gmap string Z)).

(** Python's truth value of the two settings *)
Definition padding_truthy (p : padding_arg) : bool :=
  match p with
  | PaddingNone => false
  | PaddingBool b => b
  | PaddingOf d => bool_decide (is_Some (pad_mode d)) || negb (bool_decide (pad_targets d = ∅))
  end.

Definition tiling_truthy (t : tiling_arg) : bool :=
  match t with
  | TilingNone => false
  | TilingBool b => b
  | TilingOf d => negb (bool_decide (d = ∅))
  end.

(** [pad_right]: one flag for all axes, or one entry per axis ([None] on the
    axes that are not padded) *)
Inductive pad_right_arg : Type :=
| PadRightBool (b : bool)
| PadRightList (l : list (option bool)).

(** One or several inputs: [Union[xr.DataArray, List[xr.DataArray]]] *)
Inductive inputs_arg : Type :=
| OneInput (a : DataArray)
| ManyInputs (l : list DataArray).

(** [len(inputs)] *)
Definition inputs_len (i : inputs_arg) : result Z :=
  match i with
  | OneInput a => array_len (values a)
  | ManyInputs l => Ok (Z.of_nat (length l))
  end.

(** ** _pad *)

(** The body of the loop of [_pad] for one axis: the pair of widths given to
    numpy and the entry of the crop. *)
Definition pad_axis (mode : string) (padding_ : gmap string Z)
    (a : string * (Z * option bool)) : result ((Z * Z) * (string * slice)) :=
  let ax := a.1 in
  let dlen := a.2.1 in
  let pr := default false a.2.2 in
  if str_in ax "zyx" then
    pad_to ← getitem padding_ ax;
    pwidth ← (if decide (mode = "dynamic") then
                r ← py_mod dlen pad_to;
                Ok (if r =? 0 then 0 else pad_to - r)
              else
                if pad_to <? dlen then Raise RuntimeError
                else Ok (pad_to - dlen));
    Ok (if pr then (0, pwidth) else (pwidth, 0),
        (ax, if pr then Slice (Some 0) (Some dlen) else Slice (Some pwidth) None))
  else
    Ok ((0, 0), (ax, slice_all)).

Definition _pad (im : ndarray) (axes : list string) (padding : padding_dict)
    (pad_right : pad_right_arg) : result (ndarray * gmap string slice) :=
  _ ← py_assert (bool_decide (ndim im = length axes));
  let padding_ := pad_targets padding in
  let mode := default "dynamic" (pad_mode padding) in
  _ ← py_assert (bool_decide (mode = "dynamic" ∨ mode = "fixed"));
  let is_volume := bool_decide ("z" ∈ axes) in
  _ ← py_assert (bool_decide (size padding_ = if is_volume then 3%nat else 2%nat));
  let pad_right :=
    match pad_right with
    | PadRightBool b => replicate (length axes) (Some b)
    | PadRightList l => l
    end in
  entries ← for_each (pad_axis mode padding_) (zip axes (zip (shape im) pad_right));
  let pad_width := entries.*1 in
  let crop := dict_of entries.*2 in
  im' ← np_pad im pad_width;
  Ok (im', crop).

(** ** _apply_crop *)

Definition _apply_crop (data : DataArray) (crop : gmap string slice) : result DataArray :=
  key ← for_each (getitem crop) (dims data);
  getitem_tuple data key.

(** ** _get_tiling *)

(** A tile: the windows [(outer_tile, inner_tile, local_tile)], each a
    dictionary from axis label to slice. *)
Record tile : Type := Tile {
  outer_tile : gmap string slice;
  inner_tile : gmap string slice;
  local_tile : gmap string slice
}.

(** [sh // tsh if sh % tsh == 0 else sh // tsh + 1] *)
Definition n_tiles_along (sh tsh : Z) : result Z :=
  r ← py_mod sh tsh;
  q ← py_floordiv sh tsh;
  Ok (if r =? 0 then q else q + 1).

Definition outer_slice (pos tsh sh ha : Z) : slice :=
  Slice (Some (Z.max (pos - ha) 0)) (Some (Z.min (pos + tsh + ha) sh)).

Definition inner_slice (pos tsh sh : Z) : slice :=
  Slice (Some pos) (Some (Z.min (pos + tsh) sh)).

(** [a - b] on the bounds of slices, [None] is no number *)
Definition bound_sub (a b : option Z) : result Z :=
  match a, b with
  | Some x, Some y => Ok (x - y)
  | _, _ => Raise TypeError
  end.

Definition local_slice (o i : slice) : result slice :=
  lo ← bound_sub (start i) (start o);
  hi ← (if decide (stop o ≠ stop i)
        then d ← bound_sub (stop o) (stop i); Ok (Some (- d))
        else Ok None);
  Ok (Slice (Some lo) hi).

(** The batch and channel entries that every window gets *)
Definition with_bc (d : gmap string slice) : gmap string slice :=
  <["c" := slice_all]> (<["b" := slice_all]> d).

(** The body of the loop of [_get_tiling] for one start point *)
Definition make_tile (spatial_axes : list string) (tile_shape_ shape_ halo_ : list Z)
    (start_point : list Z) : result tile :=
  let positions := zip_with Z.mul start_point tile_shape_ in
  let outer := with_bc (dict_of
    (zip_with (λ ax (g : Z * (Z * (Z * Z))),
                 (ax, outer_slice g.1 g.2.1 g.2.2.1 g.2.2.2))
              spatial_axes (zip positions (zip tile_shape_ (zip shape_ halo_))))) in
  let inner := with_bc (dict_of
    (zip_with (λ ax (g : Z * (Z * Z)), (ax, inner_slice g.1 g.2.1 g.2.2))
              spatial_axes (zip positions (zip tile_shape_ shape_)))) in
  loc ← for_each (λ ax, o ← getitem outer ax;
                        i ← getitem inner ax;
                        s ← local_slice o i;
                        Ok (ax, s)) spatial_axes;
  Ok (Tile outer inner (with_bc (dict_of loc))).

Definition spatial (ax : string) : bool := str_in ax "xyz".

(** The number of tiles per spatial axis: [ranges], before the ranges are
    built *)
Definition tile_counts (shape_ tile_shape_ : list Z) : result (list Z) :=
  for_each (λ st : Z * Z, n_tiles_along st.1 st.2) (zip shape_ tile_shape_).

Definition _get_tiling (shape : list Z) (tile_shape halo : gmap string Z)
    (input_axes : list string) : result (list tile) :=
  _ ← py_assert (bool_decide (length shape = length input_axes));
  let shape_ := (filter (λ sa : Z * string, spatial sa.2) (zip shape input_axes)).*1 in
  let spatial_axes := filter (λ ax, spatial ax) input_axes in
  tile_shape_ ← for_each (getitem tile_shape) spatial_axes;
  halo_ ← for_each (getitem halo) spatial_axes;
  _ ← py_assert (bool_decide (length shape_ = length tile_shape_
                              ∧ length tile_shape_ = length spatial_axes
                              ∧ length spatial_axes = length halo_));
  counts ← tile_counts shape_ tile_shape_;
  let ranges := py_range <$> counts in
  let start_points := product ranges in
  for_each (make_tile spatial_axes tile_shape_ shape_ halo_) start_points.

(** ** predict *)

Definition predict (prediction_pipeline : PredictionPipeline) (inputs : list ndarray)
  : result (list DataArray) :=
  _ ← py_assert (bool_decide (length inputs = length (input_specs prediction_pipeline)));
  tagged_data ← for_each (λ it : ndarray * tensor_spec, xr_DataArray it.1 (axes it.2))
                         (zip inputs (input_specs prediction_pipeline));
  forward prediction_pipeline tagged_data.

(** ** _parse_padding *)

Definition check_padding (pad_keys : list string) (padding : padding_dict) : result unit :=
  py_assert (bool_decide (dom (pad_targets padding) ⊆ list_to_set pad_keys)).

Definition _parse_padding (padding : padding_arg) (input_specs : list tensor_spec)
  : result (option padding_dict) :=
  match padding with
  | PaddingNone => Ok None
  | _ =>
    if decide (1 < length input_specs)%nat then Raise NotImplementedError else
    input_spec ← head_item input_specs;
    let pad_keys := axes input_spec ++ ["mode"] in
    match padding with
    | PaddingOf d => _ ← check_padding pad_keys d; Ok (Some d)
    | PaddingBool true =>
      d ← match spec_shape input_spec with
          | ExplicitShape sh =>
            Ok (PaddingDict (Some "fixed")
                  (dict_of (filter (λ kv : string * Z, spatial kv.1)
                                   (zip (axes input_spec) sh))))
          | ParametrizedInputShape _ step =>
            Ok (PaddingDict (Some "dynamic")
                  (dict_of (filter (λ kv : string * Z, spatial kv.1)
                                   (zip (axes input_spec) step))))
          | ImplicitOutputShape _ _ _ => Raise AttributeError
          end;
      _ ← check_padding pad_keys d;
      Ok (Some d)
    | _ => Ok None
    end
  end.

(** ** predict_with_padding *)

Definition predict_with_padding (prediction_pipeline : PredictionPipeline)
    (inputs : inputs_arg) (padding : padding_arg) (pad_right : pad_right_arg)
  : result (list DataArray) :=
  if negb (padding_truthy padding) then Raise ValueError else
  n ← inputs_len inputs;
  _ ← py_assert (n =? Z.of_nat (length (input_specs prediction_pipeline)));
  padding ← _parse_padding padding (input_specs prediction_pipeline);
  let inputs := match inputs with OneInput a => [a] | ManyInputs l => l end in
  let padding := [padding] in
  _ ← py_assert (bool_decide (length padding = length (input_specs prediction_pipeline)));
  padded ← for_each (λ isp : DataArray * (tensor_spec * option padding_dict),
                       match isp.2.2 with
                       | Some p => _pad (values isp.1) (axes isp.2.1) p pad_right
                       | None => Raise AttributeError
                       end)
                    (zip inputs (zip (input_specs prediction_pipeline) padding));
  _ ← match padded with [] => Raise ValueError | _ => Ok () end;
  result ← predict prediction_pipeline padded.*1;
  for_each (λ rc : DataArray * gmap string slice, _apply_crop rc.1 rc.2)
           (zip result padded.*2).

(** ** _predict_with_tiling_impl

    The model covers [verbose=False]: the progress bar only wraps the tile
    sequence. *)

(** [load_tile]: the outer window of the input and, per axis, whether the
    tile is padded on the right ([None] on the axes that are not padded) *)
Definition load_tile (input_ : DataArray) (input_axes : list string)
    (tile : gmap string slice) : result (DataArray * list (option bool)) :=
  inp ← getitem_dict input_ tile;
  pad_right ← for_each (λ ax, if spatial ax
                              then s ← getitem tile ax;
                                   Ok (Some (bool_decide (start s = Some 0)))
                              else Ok None) input_axes;
  Ok (inp, pad_right).

(** The padding setting of the tiles:
    [{ax: tile_shape[ax] + 2 * halo[ax] for ax in input_axes if ax in "xyz"}]
    with mode "fixed" *)
Definition tile_padding (tile_shape halo : gmap string Z) (input_axes : list string)
  : result padding_dict :=
  targets ← for_each (λ ax, t ← getitem tile_shape ax;
                            h ← getitem halo ax;
                            Ok (ax, t + 2 * h))
                     (filter (λ ax, spatial ax) input_axes);
  Ok (PaddingDict (Some "fixed") (dict_of targets)).

(** What the loop does with the prediction of one tile *)
Definition stitch_tile (output : DataArray) (t : tile) (out : list DataArray)
  : result DataArray :=
  _ ← py_assert (bool_decide (length out = 1%nat));
  out0 ← head_item out;
  v ← getitem_dict out0 (local_tile t);
  setitem_dict output (inner_tile t) v.

(** The body of the loop over the tiles; the output buffer is threaded
    through. *)
Definition process_tile (prediction_pipeline : PredictionPipeline) (input_ : DataArray)
    (padding : padding_dict) (output : DataArray) (t : tile) : result DataArray :=
  ip ← load_tile input_ (dims input_) (outer_tile t);
  out ← predict_with_padding prediction_pipeline (OneInput ip.1) (PaddingOf padding)
                             (PadRightList ip.2);
  stitch_tile output t out.

Fixpoint for_tiles (body : DataArray → tile → result DataArray) (output : DataArray)
    (tiles : list tile) : result DataArray :=
  match tiles with
  | [] => Ok output
  | t :: tiles' => output' ← body output t; for_tiles body output' tiles'
  end.

(** Returns the output buffer after the last tile (the source mutates it in
    place). *)
Definition _predict_with_tiling_impl (prediction_pipeline : PredictionPipeline)
    (inputs outputs : list DataArray) (tile_shapes halos : list (gmap string Z))
  : result DataArray :=
  if decide (1 < length inputs)%nat then Raise NotImplementedError else
  if decide (1 < length outputs)%nat then Raise NotImplementedError else
  _ ← py_assert (bool_decide (length tile_shapes = length outputs));
  _ ← py_assert (bool_decide (length halos = length outputs));
  input_ ← head_item inputs;
  output ← head_item outputs;
  tile_shape ← head_item tile_shapes;
  halo ← head_item halos;
  padding ← tile_padding tile_shape halo (dims input_);
  tiles ← _get_tiling (shape (values input_)) tile_shape halo (dims input_);
  for_tiles (process_tile prediction_pipeline input_ padding) output tiles.

(** ** _determine_shape *)

(** [while len_ax < min_len: len_ax += step_ax]; the loop runs at most
    [min_len - len_ax] times for a positive step, which is the fuel
    [_determine_shape] gives it. *)
Fixpoint grow_to (fuel : nat) (min_len step_ax len_ax : Z) : Z :=
  if len_ax <? min_len then
    match fuel with
    | O => len_ax
    | S fuel' => grow_to fuel' min_len step_ax (len_ax + step_ax)
    end
  else len_ax.

Definition _determine_shape (min_shape step : list Z) (axes : list string) : list Z :=
  let is3d := bool_decide ("z" ∈ axes) in
  let min_len := if is3d then 64 else 256 in
  (λ a : string * (Z * Z),
     if str_in a.1 "zyx" && (0 <? a.2.2)
     then grow_to (Z.to_nat (min_len - a.2.1)) min_len a.2.2 a.2.1
     else a.2.1) <$> zip axes (zip min_shape step).

(** ** _parse_tiling *)

Definition check_tiling (axes : list string) (tiling : gmap string (gmap string Z))
  : result unit :=
  _ ← py_assert (bool_decide (is_Some (tiling !! "halo")) &&
                 bool_decide (is_Some (tiling !! "tile")));
  let spatial_axes := filter (λ ax, spatial ax) axes in
  halo ← getitem tiling "halo";
  tile ← getitem tiling "tile";
  _ ← py_assert (forallb (λ ax, 0 <? default 0 (halo !! ax)) spatial_axes);
  py_assert (forallb (λ ax, 0 <? default 0 (tile !! ax)) spatial_axes).

Definition _parse_tiling (tiling : tiling_arg) (input_specs output_specs : list tensor_spec)
  : result (option (gmap string (gmap string Z))) :=
  match tiling with
  | TilingNone => Ok None
  | _ =>
    if decide (1 < length input_specs)%nat then Raise NotImplementedError else
    if decide (1 < length output_specs)%nat then Raise NotImplementedError else
    input_spec ← head_item input_specs;
    output_spec ← head_item output_specs;
    let axes_ := axes input_spec in
    match tiling with
    | TilingOf d => _ ← check_tiling axes_ d; Ok (Some d)
    | TilingBool true =>
      shape ← match spec_shape input_spec with
              | ExplicitShape sh => Ok sh
              | ParametrizedInputShape min step => Ok (_determine_shape min step axes_)
              | ImplicitOutputShape _ _ _ => Raise AttributeError
              end;
      _ ← py_assert (bool_decide (length shape = length axes_));
      match halo output_spec with
      | None => Raise ValueError
      | Some halo =>
        let d : gmap string (gmap string Z) :=
          <["tile" := dict_of (filter (λ kv : string * Z, spatial kv.1) (zip axes_ shape))]>
            (<["halo" := dict_of (filter (λ kv : string * Z, spatial kv.1) (zip axes_ halo))]> ∅) in
        _ ← check_tiling axes_ d;
        Ok (Some d)
      end
    | _ => Ok None
    end
  end.

(** ** predict_with_tiling *)

(** [int(q)]: towards zero *)
Definition py_int (q : Q) : Z := Z.quot (Qnum q) (Z.pos (Qden q)).

Definition output_shape_of (named_inputs : list (string * DataArray))
    (output_spec : tensor_spec) : result (list Z) :=
  match spec_shape output_spec with
  | ImplicitOutputShape reference_tensor scale_ offset_ =>
    let scale := dict_of (zip (axes output_spec) scale_) in
    let offset := dict_of (zip (axes output_spec) offset_) in
    if existsb (λ kv : string * Q, spatial kv.1 && negb (Qeq_bool kv.2 1)) (map_to_list scale)
       || existsb (λ kv : string * Q, spatial kv.1 && negb (Qeq_bool kv.2 0)) (map_to_list offset)
    then Raise NotImplementedError else
    ref_input ← getitem (dict_of named_inputs) reference_tensor;
    let ref_input_shape := dict_of (zip (dims ref_input) (shape (values ref_input))) in
    for_each (λ ax, sc ← getitem scale ax;
                    n ← getitem ref_input_shape ax;
                    off ← getitem offset ax;
                    Ok (py_int (Qplus (Qmult sc (inject_Z n)) (Qmult 2 off))))
             (axes output_spec)
  | ExplicitShape sh => Ok sh
  | ParametrizedInputShape _ _ => Raise TypeError
  end.

(** The buffers that [predict_with_tiling] makes when it is given none *)
Definition allocate_outputs (named_inputs : list (string * DataArray))
    (output_specs : list tensor_spec) : result (list DataArray) :=
  for_each (λ output_spec,
              output_shape ← output_shape_of named_inputs output_spec;
              zeros ← np_zeros output_shape (data_type output_spec);
              xr_DataArray zeros (axes output_spec))
           output_specs.

(** Returns the list [outputs]; its buffer is the one the tiles were written
    to. *)
Definition predict_with_tiling (prediction_pipeline : PredictionPipeline)
    (inputs : inputs_arg) (tiling : tiling_arg) (outputs : option (list DataArray))
  : result (list DataArray) :=
  if negb (tiling_truthy tiling) then Raise ValueError else
  n ← inputs_len inputs;
  _ ← py_assert (n =? Z.of_nat (length (input_specs prediction_pipeline)));
  tiling ← _parse_tiling tiling (input_specs prediction_pipeline)
                         (output_specs prediction_pipeline);
  let inputs := match inputs with OneInput a => [a] | ManyInputs l => l end in
  named_inputs ← for_each (λ it : DataArray * tensor_spec,
                             a ← xr_DataArray (values it.1) (axes it.2);
                             Ok (name it.2, a))
                          (zip inputs (input_specs prediction_pipeline));
  outputs ← match outputs with
            | None => allocate_outputs named_inputs (output_specs prediction_pipeline)
            | Some outputs =>
              if decide (length outputs ≠ length (output_specs prediction_pipeline))
              then Raise ValueError else
              if decide (length outputs ≠ length inputs) then Raise NotImplementedError else
              in0 ← head_item inputs;
              out0 ← head_item outputs;
              ispec ← head_item (input_specs prediction_pipeline);
              ospec ← head_item (output_specs prediction_pipeline);
              let spatial_in_shape := (zip (axes ispec) (shape (values in0))).*2 in
              let spatial_out_shape := (zip (axes ospec) (shape (values out0))).*2 in
              if decide (spatial_in_shape ≠ spatial_out_shape)
              then Raise NotImplementedError else Ok outputs
            end;
  tiling ← match tiling with Some d => Ok d | None => Raise TypeError end;
  tile ← getitem tiling "tile";
  halo ← getitem tiling "halo";
  output ← _predict_with_tiling_impl prediction_pipeline named_inputs.*2 outputs [tile] [halo];
  Ok (output :: tail outputs).

(** ** _predict_sample

    Reading and writing image files is the environment's: [read_image path
    axes] is what [_load_image] delivers for a path, [write_image] what
    [_save_image] does.  The calls are recorded, in order. *)

Record io_env : Type := IoEnv {
  read_image : string → list string → result DataArray;
  write_image : string → DataArray → result unit
}.

Inductive event : Type :=
| LoadImage (path : string)
| SaveImage (path : string) (image : DataArray).

Fixpoint _load_tensors (env : io_env) (sources : list string) (tensor_specs : list tensor_spec)
  : list event * result (list DataArray) :=
  match sources, tensor_specs with
  | s :: sources', sspec :: tensor_specs' =>
    match read_image env s (axes sspec) with
    | Raise e => ([LoadImage s], Raise e)
    | Ok im =>
      let rest := _load_tensors env sources' tensor_specs' in
      (LoadImage s :: rest.1, ims ← rest.2; Ok (im :: ims))
    end
  | _, _ => ([], Ok [])
  end.

Fixpoint save_images (env : io_env) (l : list (DataArray * string)) : list event * result unit :=
  match l with
  | [] => ([], Ok ())
  | (res, out) :: l' =>
    match write_image env out res with
    | Raise e => ([SaveImage out res], Raise e)
    | Ok _ => let rest := save_images env l' in (SaveImage out res :: rest.1, rest.2)
    end
  end.

Definition _predict_sample (env : io_env) (prediction_pipeline : PredictionPipeline)
    (inputs outputs : list string) (padding : padding_arg) (tiling : tiling_arg)
  : list event * result unit :=
  if padding_truthy padding && tiling_truthy tiling then ([], Raise ValueError) else
  let loaded := _load_tensors env inputs (input_specs prediction_pipeline) in
  match loaded.2 with
  | Raise e => (loaded.1, Raise e)
  | Ok input_data =>
    let result :=
      match padding, tiling with
      | PaddingNone, TilingNone => predict prediction_pipeline (values <$> input_data)
      | PaddingNone, _ => predict_with_tiling prediction_pipeline (ManyInputs input_data) tiling None
      | _, _ => predict_with_padding prediction_pipeline (ManyInputs input_data) padding
                                     (PadRightBool true)
      end in
    match result with
    | Raise e => (loaded.1, Raise e)
    | Ok result =>
      if decide (length result = length outputs)
      then let saved := save_images env (zip result outputs) in
           (loaded.1 ++ saved.1, saved.2)
      else (loaded.1, Raise AssertionError)
    end
  end.

(** ** Reading and writing image files

    [_load_image] and [_save_image] bring the arrays of image files to the
    labelled arrays of the model and back. *)

(** *** Axes of numpy and xarray arrays *)

(** The position of the first [x] in [l] *)
Fixpoint index_of {A : Type} `{EqDecision A} (x : A) (l : list A) : option nat :=
  match l with
  | [] => None
  | y :: l' => if decide (y = x) then Some 0%nat else S <$> index_of x l'
  end.

(** [l.index(x)] on a tuple *)
Definition py_index {A : Type} `{EqDecision A} (l : list A) (x : A) : result nat :=
  match index_of x l with
  | Some i => Ok i
  | None => Raise ValueError
  end.

(** [l[-1]] on a tuple *)
Definition last_item {A : Type} (l : list A) : result A :=
  match last l with
  | Some a => Ok a
  | None => Raise IndexError
  end.

(** [a[..., None]]: a new last axis of length 1 *)
Definition expand_last (a : ndarray) : ndarray :=
  {| shape := shape a ++ [1];
     dtype := dtype a;
     item := λ idx, item a (take (ndim a) idx) |}.

(** [a[None]]: a new first axis of length 1 *)
Definition expand_first (a : ndarray) : ndarray :=
  {| shape := 1 :: shape a;
     dtype := dtype a;
     item := λ idx, item a (tail idx) |}.

(** [a.transpose(axes)]: axis [k] of the result is axis [axes[k]] of [a].
    numpy takes a permutation of the axes and refuses anything else: a wrong
    number of axes, an axis out of range, a repeated axis (ValueError). *)
Definition np_transpose (a : ndarray) (perm : list nat) : result ndarray :=
  if bool_decide (length perm = ndim a ∧ NoDup perm ∧
                  Forall (λ p, (p < ndim a)%nat) perm)
  then Ok {| shape := (λ p, default 0 (shape a !! p)) <$> perm;
             dtype := dtype a;
             item := λ idx,
               item a ((λ j, default 0 (index_of j perm ≫= (idx !!.)))
                         <$> seq 0 (ndim a)) |}
  else Raise ValueError.

(** [data.transpose] with the labels [target], on a labelled array: they must be the
    labels of the array (ValueError otherwise); an array of fewer than two
    labels is returned as it is. *)
Definition xr_transpose (data : DataArray) (target : list string) : result DataArray :=
  if bool_decide (list_to_set target =@{gset string} list_to_set (dims data)) then
    if decide (length target < 2)%nat then Ok data else
    perm ← for_each (py_index (dims data)) target;
    a ← np_transpose (values data) perm;
    Ok (MkDataArray target a)
  else Raise ValueError.

(** An entry of an indexing dictionary: a position or a slice *)
Inductive indexer : Set :=
| IdxInt (i : Z)
| IdxSlice (s : slice).

Definition is_slice (i : indexer) : bool :=
  match i with
  | IdxInt _ => false
  | IdxSlice _ => true
  end.

(** The position in the array that an index vector of the selection has:
    an axis indexed by a position has no component in the selection. *)
Fixpoint place (sel : list (Z * indexer)) (idx : list Z) : list Z :=
  match sel with
  | [] => []
  | (n, IdxInt i) :: sel' => (if i <? 0 then i + n else i) :: place sel' idx
  | (n, IdxSlice s) :: sel' =>
    ((slice_indices s n).1 + default 0 (head idx)) :: place sel' (tail idx)
  end.

(** [data[key]] for a dictionary of positions and slices: an axis indexed by
    a position is dropped, an axis that the key does not name is taken
    whole.  A name that is no dimension is refused (ValueError), a position
    outside the axis too (IndexError). *)
Definition getitem_indexers (data : DataArray) (key : gmap string indexer)
  : result DataArray :=
  if bool_decide (dom key ⊆ list_to_set (dims data)) then
    let sel := (λ dn : string * Z, (dn.1, (dn.2, default (IdxSlice slice_all) (key !! dn.1))))
                 <$> zip (dims data) (shape (values data)) in
    if forallb (λ s : string * (Z * indexer),
                  match s.2.2 with
                  | IdxInt i => (- s.2.1 <=? i) && (i <? s.2.1)
                  | IdxSlice _ => true
                  end) sel
    then
      let kept := filter (λ s : string * (Z * indexer), is_slice s.2.2) sel in
      Ok (MkDataArray kept.*1
            {| shape := (λ s : string * (Z * indexer),
                           match s.2.2 with
                           | IdxInt _ => 0
                           | IdxSlice sl => slice_len sl s.2.1
                           end) <$> kept;
               dtype := dtype (values data);
               item := λ idx, item (values data) (place sel.*2 idx) |})
    else Raise IndexError
  else Raise ValueError.

(** [data[..., c]]: position [c] of the last axis *)
Definition select_last (data : DataArray) (c : Z) : result DataArray :=
  n ← last_item (shape (values data));
  if (- n <=? c) && (c <? n) then
    Ok (MkDataArray (removelast (dims data))
          {| shape := removelast (shape (values data));
             dtype := dtype (values data);
             item := λ idx, item (values data)
                              (take (pred (ndim (values data))) idx
                               ++ [if c <? 0 then c + n else c]) |})
  else Raise IndexError.

(** ** _require_axes *)

Definition _require_axes (im : ndarray) (axes : list string) : result ndarray :=
  let is_volume := bool_decide ("z" ∈ axes) in
  im_axes ← match ndim im with
            | 2%nat => Ok ["y"; "x"]
            | 3%nat => Ok (if is_volume then ["z"; "y"; "x"] else ["y"; "x"; "c"])
            | 4%nat => Raise NotImplementedError
            | _ => Raise RuntimeError
            end;
  let '(im, im_axes) :=
    if bool_decide ("c" ∉ im_axes)
    then (expand_last im, im_axes ++ ["c"])
    else (im, im_axes) in
  let im := expand_first im in
  let im_axes := "b" :: im_axes in
  _ ← py_assert (bool_decide (list_to_set axes =@{gset string} list_to_set im_axes));
  axes_permutation ← for_each (py_index im_axes) axes;
  np_transpose im axes_permutation.

(** ** _load_image, _to_channel_last, _save_image

    The file system, [os.path.splitext] and the readers and writers of numpy
    and imageio are the environment's; the calls of the writers are
    recorded, in order. *)

Record file_env : Type := FileEnv {
  splitext : string → string * string;
  np_load : string → result ndarray;
  imread : string → result ndarray;
  volread : string → result ndarray;
  np_save : string → DataArray → result unit;
  imsave : string → DataArray → result unit;
  volsave : string → DataArray → result unit
}.

Inductive writer : Set := NpSave | ImSave | VolSave.

#[global] Instance writer_eq_dec : EqDecision writer.
Proof. solve_decision. Defined.

Record file_event : Type := Saved {
  saved_by : writer;
  saved_path : string;
  saved_image : DataArray
}.

Definition _load_image (env : file_env) (in_path : string) (axes : list string)
  : result DataArray :=
  let ext := (splitext env in_path).2 in
  im ← (if decide (ext = ".npy") then np_load env in_path
        else
          let is_volume := bool_decide ("z" ∈ axes) in
          im ← (if is_volume then volread env in_path else imread env in_path);
          _require_axes im axes);
  xr_DataArray im axes.

Definition _to_channel_last (image : DataArray) : result DataArray :=
  chan_id ← py_index (dims image) "c";
  if decide (Z.of_nat chan_id ≠ Z.of_nat (ndim (values image)) - 1) then
    let target_axes := filter (λ ax, ax ≠ "c") (dims image) ++ ["c"] in
    xr_transpose image target_axes
  else Ok image.

(** The loop over the channels: one file per channel, until a channel
    cannot be selected or written. *)
Fixpoint save_channels (save_function : string → DataArray → result unit) (w : writer)
    (out_prefix ext : string) (image : DataArray) (cs : list Z)
  : list file_event * result unit :=
  match cs with
  | [] => ([], Ok ())
  | c :: cs' =>
    let chan_out_path := out_prefix +:+ "-c" +:+ pretty c +:+ ext in
    match select_last image c with
    | Raise e => ([], Raise e)
    | Ok chan =>
      match save_function chan_out_path chan with
      | Raise e => ([Saved w chan_out_path chan], Raise e)
      | Ok _ =>
        let rest := save_channels save_function w out_prefix ext image cs' in
        (Saved w chan_out_path chan :: rest.1, rest.2)
      end
    end
  end.

Definition _save_image (env : file_env) (out_path : string) (image : DataArray)
  : list file_event * result unit :=
  let ext := (splitext env out_path).2 in
  if decide (ext = ".npy") then
    ([Saved NpSave out_path image], np_save env out_path image)
  else
    let is_volume := bool_decide ("z" ∈ dims image) in
    let squeeze : gmap string indexer :=
      dict_of ((λ axsh : string * Z,
                  (axsh.1, if str_in axsh.1 "bc" && (axsh.2 =? 1)
                           then IdxInt 0 else IdxSlice slice_all))
               <$> zip (dims image) (shape (values image))) in
    match
      image ← getitem_indexers image squeeze;
      _ ← (if bool_decide ("b" ∈ dims image) then Raise RuntimeError else Ok ());
      image ← (if bool_decide ("c" ∈ dims image) then _to_channel_last image else Ok image);
      let ndim_ := if is_volume then 3%nat else 2%nat in
      save_as_single_image ←
        (if decide (ndim (values image) = ndim_) then Ok true
         else n ← last_item (shape (values image)); Ok (bool_decide (n = 3 ∨ n = 4)));
      Ok (image, save_as_single_image)
    with
    | Raise e => ([], Raise e)
    | Ok (image, save_as_single_image) =>
      let save_function := if is_volume then volsave env else imsave env in
      let w := if is_volume then VolSave else ImSave in
      if save_as_single_image : bool
      then ([Saved w out_path image], save_function out_path image)
      else
        let '(out_prefix, ext) := splitext env out_path in
        match last_item (shape (values image)) with
        | Raise e => ([], Raise e)
        | Ok n => save_channels save_function w out_prefix ext image (py_range n)
        end
    end.

(** ** predict_image, predict_images

    Loading the description of the model and building the pipeline are the
    environment's, which may deliver a resource that is no model. *)

(** [Union[Tuple[Path, ...], List[Path], Path]] *)
Inductive paths_arg : Type :=
| OnePath (p : string)
| ManyPaths (l : list string).

(** [if not isinstance(paths, (tuple, list)): paths = [paths]] *)
Definition path_list (paths : paths_arg) : list string :=
  match paths with
  | OnePath p => [p]
  | ManyPaths l => l
  end.

Record Model : Type := MkModel {
  model_inputs : list tensor_spec;
  model_outputs : list tensor_spec
}.

Inductive resource : Type :=
| IsModel (model : Model)
| OtherResource.

Record model_env (R : Type) : Type := ModelEnv {
  load_resource_description : R → result resource;
  create_prediction_pipeline :
    Model → option string → option (list string) → result PredictionPipeline
}.
Arguments load_resource_description {R} _ _.
Arguments create_prediction_pipeline {R} _ _ _ _.

Definition predict_image {R : Type} (menv : model_env R) (env : io_env) (model_rdf : R)
    (inputs outputs : paths_arg) (padding : padding_arg) (tiling : tiling_arg)
    (weight_format : option string) (devices : option (list string))
  : list event * result unit :=
  let inputs := path_list inputs in
  let outputs := path_list outputs in
  match load_resource_description menv model_rdf with
  | Raise e => ([], Raise e)
  | Ok OtherResource => ([], Raise AssertionError)
  | Ok (IsModel model) =>
    if decide (length (model_inputs model) ≠ length inputs) then ([], Raise ValueError) else
    if decide (length (model_outputs model) ≠ length outputs) then ([], Raise ValueError) else
    match create_prediction_pipeline menv model weight_format devices with
    | Raise e => ([], Raise e)
    | Ok prediction_pipeline =>
      _predict_sample env prediction_pipeline inputs outputs padding tiling
    end
  end.

(** The loop of [predict_images] over the pairs of inputs and outputs *)
Fixpoint predict_samples (env : io_env) (prediction_pipeline : PredictionPipeline)
    (prog : list (paths_arg * paths_arg)) (padding : padding_arg) (tiling : tiling_arg)
  : list event * result unit :=
  match prog with
  | [] => ([], Ok ())
  | (inp, outp) :: prog' =>
    let sample := _predict_sample env prediction_pipeline (path_list inp) (path_list outp)
                                  padding tiling in
    match sample.2 with
    | Raise e => (sample.1, Raise e)
    | Ok _ =>
      let rest := predict_samples env prediction_pipeline prog' padding tiling in
      (sample.1 ++ rest.1, rest.2)
    end
  end.

Definition predict_images {R : Type} (menv : model_env R) (env : io_env) (model_rdf : R)
    (inputs outputs : list paths_arg) (padding : padding_arg) (tiling : tiling_arg)
    (weight_format : option string) (devices : option (list string))
  : list event * result unit :=
  match load_resource_description menv model_rdf with
  | Raise e => ([], Raise e)
  | Ok OtherResource => ([], Raise AssertionError)
  | Ok (IsModel model) =>
    match create_prediction_pipeline menv model weight_format devices with
    | Raise e => ([], Raise e)
    | Ok prediction_pipeline =>
      let prog := zip inputs outputs in
      predict_samples env prediction_pipeline prog padding tiling
    end
  end.

(** * Properties *)

(** ** The error monad and the comprehensions *)

Lemma bind_Ok {A B : Type} (m : result A) (f : A → result B) (b : B) :
  m ≫= f = Ok b ↔ ∃ a, m = Ok a ∧ f a = Ok b.
Proof.
  destruct m as [a|e]; simpl; split.
  - intros H. exists a. done.
  - intros (a' & [= <-] & H). done.
  - done.
  - intros (a' & [=] & _).
Qed.

Lemma py_assert_Ok (b : bool) : py_assert b = Ok () ↔ b = true.
Proof. destruct b; simpl; split; done. Qed.

Lemma for_each_Forall2 {A B : Type} (f : A → result B) (l : list A) (ys : list B) :
  for_each f l = Ok ys ↔ Forall2 (λ x y, f x = Ok y) l ys.
Proof.
  revert ys. induction l as [|x l IH]; intros ys; simpl.
  - split.
    + intros [= <-]. constructor.
    + intros H. inversion H. done.
  - rewrite bind_Ok. split.
    + intros (y & Hy & H). apply bind_Ok in H as (ys' & Hys & [= <-]).
      constructor; [done|]. by apply IH.
    + intros H. inversion H as [|? y ? ys' Hy Hys]; subst.
      exists y. split; [done|]. apply bind_Ok. exists ys'. split; [|done].
      by apply IH.
Qed.

Lemma for_each_total {A B : Type} (f : A → result B) (g : A → B) (l : list A) :
  (∀ x, x ∈ l → f x = Ok (g x)) → for_each f l = Ok (g <$> l).
Proof.
  intros H. apply for_each_Forall2. induction l as [|x l IH]; simpl.
  - constructor.
  - constructor.
    + apply H. left.
    + apply IH. intros y Hy. apply H. by right.
Qed.

Lemma for_each_length {A B : Type} (f : A → result B) (l : list A) (ys : list B) :
  for_each f l = Ok ys → length ys = length l.
Proof.
  intros H. apply for_each_Forall2 in H. symmetry. by eapply Forall2_length.
Qed.

Lemma for_each_lookup {A B : Type} (f : A → result B) (l : list A) (ys : list B)
    (k : nat) (x : A) :
  for_each f l = Ok ys → l !! k = Some x → ∃ y, ys !! k = Some y ∧ f x = Ok y.
Proof.
  intros H Hx. apply for_each_Forall2 in H.
  destruct (Forall2_lookup_l _ _ _ _ _ H Hx) as (y & Hy & Hf). eauto.
Qed.

(** The first exception of a comprehension is the exception of its first
    failing element. *)
Lemma for_each_Raise {A B : Type} (f : A → result B) (l : list A) (e : exn) :
  for_each f l = Raise e ↔
  ∃ k x, l !! k = Some x ∧ f x = Raise e ∧
         ∀ j y, (j < k)%nat → l !! j = Some y → ∃ z, f y = Ok z.
Proof.
  induction l as [|x l IH]; simpl.
  - split; [done|]. intros (k & y & Hk & _). done.
  - destruct (f x) as [y|e'] eqn:Hfx; simpl.
    + assert (for_each f l ≫= (λ ys, Ok (y :: ys)) = Raise e ↔ for_each f l = Raise e)
        as ->.
      { destruct (for_each f l); simpl; split; congruence. }
      rewrite IH. split.
      * intros (k & z & Hk & Hz & Hlt). exists (S k), z. repeat split; [done..|].
        intros [|j] w Hj Hw; simpl in Hw.
        { injection Hw as <-. eauto. }
        apply (Hlt j w); [lia|done].
      * intros (k & z & Hk & Hz & Hlt). destruct k as [|k]; simpl in Hk.
        { injection Hk as ->. congruence. }
        exists k, z. repeat split; [done..|].
        intros j w Hj Hw. apply (Hlt (S j) w); [lia|done].
    + split.
      * intros [= ->]. exists 0%nat, x. repeat split; [done..|]. intros; lia.
      * intros (k & z & Hk & Hz & Hlt). destruct k as [|k]; simpl in Hk.
        { injection Hk as ->. congruence. }
        destruct (Hlt 0%nat x) as [w Hw]; [lia|done|congruence].
Qed.

Lemma dict_of_list_to_map {V : Type} (l : list (string * V)) :
  dict_of l = list_to_map (reverse l).
Proof.
  unfold dict_of. rewrite <- (reverse_involutive l) at 1.
  generalize (reverse l). intros r. induction r as [|[k v] r IH]; [done|].
  rewrite reverse_cons, foldl_app. simpl. by rewrite IH.
Qed.

Lemma dict_of_lookup_Some {V : Type} (l : list (string * V)) (k : string) (v : V) :
  NoDup l.*1 → (k, v) ∈ l → dict_of l !! k = Some v.
Proof.
  intros Hnd Hin. rewrite dict_of_list_to_map.
  apply elem_of_list_to_map_1.
  - rewrite fmap_reverse. by rewrite reverse_Permutation.
  - by apply elem_of_reverse.
Qed.

Lemma dict_of_lookup_None {V : Type} (l : list (string * V)) (k : string) :
  k ∉ l.*1 → dict_of l !! k = None.
Proof.
  intros Hin. rewrite dict_of_list_to_map.
  apply not_elem_of_list_to_map_1. rewrite fmap_reverse. by rewrite elem_of_reverse.
Qed.

Lemma dict_of_lookup_is_Some {V : Type} (l : list (string * V)) (k : string) :
  is_Some (dict_of l !! k) → k ∈ l.*1.
Proof.
  intros [v Hv]. destruct (decide (k ∈ l.*1)) as [|Hn]; [done|].
  rewrite dict_of_lookup_None in Hv; done.
Qed.

(** ** Configuration conflict *)

(** C9.  When both a padding setting and a tiling setting are requested
    (both are true in Python's sense, which is what [_predict_sample]
    tests), [_predict_sample] raises ValueError (the configuration error) at
    once: no input was loaded, nothing was predicted and no image was
    written, whatever the environment, the pipeline and the paths are. *)
Theorem config_conflict_fails_fast (env : io_env) (pp : PredictionPipeline)
    (inputs outputs : list string) (padding : padding_arg) (tiling : tiling_arg) :
  padding_truthy padding = true →
  tiling_truthy tiling = true →
  _predict_sample env pp inputs outputs padding tiling = ([], Raise ValueError).
Proof.
  intros Hp Ht. unfold _predict_sample. by rewrite Hp, Ht.
Qed.

(** ** The padder *)

(** The side selection has one entry per axis, or is a single flag. *)
Definition side_sized (pad_right : pad_right_arg) (axes : list string) : Prop :=
  match pad_right with
  | PadRightBool _ => True
  | PadRightList l => length l = length axes
  end.

Definition expand_sides (pad_right : pad_right_arg) (axes : list string)
  : list (option bool) :=
  match pad_right with
  | PadRightBool b => replicate (length axes) (Some b)
  | PadRightList l => l
  end.

Lemma expand_sides_length pad_right axes :
  side_sized pad_right axes → length (expand_sides pad_right axes) = length axes.
Proof.
  destruct pad_right as [b|l]; simpl; [|done]. intros _. apply length_replicate.
Qed.

(** The width that [_pad] adds on an axis *)
Definition width_on (mode : string) (padding_ : gmap string Z) (ax : string) (dlen : Z) : Z :=
  if str_in ax "zyx" then
    let pad_to := default 0 (padding_ !! ax) in
    if decide (mode = "dynamic")
    then (if dlen `mod` pad_to =? 0 then 0 else pad_to - dlen `mod` pad_to)
    else pad_to - dlen
  else 0.

Definition entry_on (mode : string) (padding_ : gmap string Z)
    (a : string * (Z * option bool)) : (Z * Z) * (string * slice) :=
  let w := width_on mode padding_ a.1 a.2.1 in
  if str_in a.1 "zyx" then
    (if default false a.2.2 then (0, w) else (w, 0),
     (a.1, if default false a.2.2 then Slice (Some 0) (Some a.2.1) else Slice (Some w) None))
  else ((0, 0), (a.1, slice_all)).

(** What a padding setting must offer for an axis of length [dlen] *)
Definition target_fits (mode : string) (padding_ : gmap string Z) (ax : string) (dlen : Z)
  : Prop :=
  str_in ax "zyx" = true →
  ∃ t, padding_ !! ax = Some t ∧
       (mode = "dynamic" → 0 < t) ∧ (mode ≠ "dynamic" → dlen ≤ t).

Lemma pad_axis_Ok mode padding_ (a : string * (Z * option bool)) :
  target_fits mode padding_ a.1 a.2.1 →
  pad_axis mode padding_ a = Ok (entry_on mode padding_ a).
Proof.
  unfold target_fits, pad_axis, entry_on, width_on.
  destruct (str_in a.1 "zyx") eqn:Hs; [|done].
  intros H. destruct (H eq_refl) as (t & Ht & Hdyn & Hfix).
  unfold getitem. rewrite Ht. simpl.
  destruct (decide (mode = "dynamic")) as [Hm|Hm]; simpl.
  - unfold py_mod. specialize (Hdyn Hm). destruct (Z.eqb_spec t 0); [lia|]. done.
  - specialize (Hfix Hm). destruct (Z.ltb_spec t a.2.1); [lia|]. done.
Qed.

Lemma width_on_nonneg mode padding_ ax dlen :
  target_fits mode padding_ ax dlen →
  0 ≤ width_on mode padding_ ax dlen.
Proof.
  unfold target_fits, width_on. destruct (str_in ax "zyx"); [|done].
  intros H. destruct (H eq_refl) as (t & Ht & Hdyn & Hfix). rewrite Ht. simpl.
  destruct (decide (mode = "dynamic")) as [Hm|Hm].
  - pose proof (Hdyn Hm) as Hpos.
    pose proof (Z.mod_pos_bound dlen t Hpos).
    destruct (Z.eqb_spec (dlen `mod` t) 0); lia.
  - specialize (Hfix Hm). lia.
Qed.

Lemma lookup_zip3 {A B C : Type} (l1 : list A) (l2 : list B) (l3 : list C) k a b c :
  zip l1 (zip l2 l3) !! k = Some (a, (b, c)) ↔
  l1 !! k = Some a ∧ l2 !! k = Some b ∧ l3 !! k = Some c.
Proof.
  rewrite lookup_zip_with_Some. split.
  - intros (x & y & [= -> <-] & H1 & H2).
    apply lookup_zip_with_Some in H2 as (y1 & y2 & [= -> ->] & H2 & H3). done.
  - intros (H1 & H2 & H3). exists a, (b, c). repeat split; [done|].
    apply lookup_zip_with_Some. eauto.
Qed.

(** The array that numpy returns for widths [pw], one pair per axis *)
Definition pad_result (a : ndarray) (pw : list (Z * Z)) : ndarray :=
  {| shape := zip_with (λ n (w : Z * Z), w.1 + n + w.2) (shape a) pw;
     dtype := dtype a;
     item := λ idx,
       item a (zip_with (λ i (nw : Z * (Z * Z)), reflect_index nw.1 (i - nw.2.1))
                        idx (zip (shape a) pw)) |}.

Lemma as_pairs_full (pw : list (Z * Z)) (nd : nat) :
  length pw = nd → pw ≠ [] → as_pairs pw nd = Ok pw.
Proof.
  intros Hl Hne. unfold as_pairs. destruct pw as [|p [|q pw]]; [done| |].
  - simpl in Hl. by subst nd.
  - by rewrite decide_True.
Qed.

Lemma np_pad_Ok (a : ndarray) (pw : list (Z * Z)) :
  length pw = ndim a → pw ≠ [] →
  Forall (λ w : Z * Z, 0 ≤ w.1 ∧ 0 ≤ w.2) pw →
  (∀ k n w, shape a !! k = Some n → pw !! k = Some w → n = 0 → w = (0, 0)) →
  np_pad a pw = Ok (pad_result a pw).
Proof.
  intros Hl Hne Hnn Hem. unfold np_pad. rewrite as_pairs_full by done. simpl.
  assert (forallb (λ w : Z * Z, (0 <=? w.1) && (0 <=? w.2)) pw = true) as ->.
  { apply Is_true_eq_true, forallb_True. eapply Forall_impl; [exact Hnn|].
    intros w [? ?]. simpl. apply andb_True.
    split; apply Is_true_eq_left, Z.leb_le; done. }
  simpl.
  destruct (existsb extends_empty_axis (zip (shape a) pw)) eqn:Hex; [|done].
  exfalso. apply Is_true_eq_left, existb_True, Exists_exists in Hex as ([n w] & Hin & Hx).
  apply list_elem_of_lookup in Hin as [k Hk].
  apply lookup_zip_with_Some in Hk as (n' & w' & [= <- <-] & Hn & Hw).
  unfold extends_empty_axis in Hx. simpl in Hx.
  apply andb_True in Hx as [Hx1 Hx2].
  apply Is_true_eq_true, Z.eqb_eq in Hx1.
  rewrite (Hem k n w Hn Hw Hx1) in Hx2. done.
Qed.

Section pad.
Context (im : ndarray) (axes : list string) (padding : padding_dict)
        (pad_right : pad_right_arg).

Let mode := default "dynamic" (pad_mode padding).
Let padding_ := pad_targets padding.

(** The assertions of [_pad] and the side selection it expects *)
Definition pad_call_ok : Prop :=
  ndim im = length axes ∧
  (mode = "dynamic" ∨ mode = "fixed") ∧
  size padding_ = (if bool_decide ("z" ∈ axes) then 3%nat else 2%nat) ∧
  side_sized pad_right axes.

Definition pad_entries : list ((Z * Z) * (string * slice)) :=
  entry_on mode padding_ <$> zip axes (zip (shape im) (expand_sides pad_right axes)).

Lemma pad_entries_length : pad_call_ok → length pad_entries = length axes.
Proof.
  intros (Hn & _ & _ & Hs). unfold pad_entries.
  rewrite length_fmap, !length_zip_with, expand_sides_length by done.
  unfold ndim in Hn. lia.
Qed.

Lemma pad_entries_lookup k ax n :
  pad_call_ok → axes !! k = Some ax → shape im !! k = Some n →
  ∃ pr, expand_sides pad_right axes !! k = Some pr ∧
        pad_entries !! k = Some (entry_on mode padding_ (ax, (n, pr))).
Proof.
  intros (Hn & _ & _ & Hs) Hax Hsh.
  destruct (lookup_lt_is_Some_2 (expand_sides pad_right axes) k) as [pr Hpr].
  { rewrite expand_sides_length by done. by eapply lookup_lt_Some. }
  exists pr. split; [done|]. unfold pad_entries. rewrite list_lookup_fmap.
  by rewrite (proj2 (lookup_zip3 _ _ _ k ax n pr)).
Qed.

(** [_pad] after its assertions *)
Lemma pad_after_assertions :
  pad_call_ok →
  _pad im axes padding pad_right
  = (entries ← for_each (pad_axis mode padding_)
                 (zip axes (zip (shape im) (expand_sides pad_right axes)));
     im' ← np_pad im entries.*1;
     Ok (im', dict_of entries.*2)).
Proof.
  intros (Hn & Hm & Hsz & Hs). unfold _pad. fold mode padding_.
  rewrite (bool_decide_eq_true_2 (ndim im = length axes)) by done.
  rewrite (bool_decide_eq_true_2 (mode = "dynamic" ∨ mode = "fixed")) by done.
  rewrite (bool_decide_eq_true_2 (size padding_ = _)) by done.
  done.
Qed.

(** [_pad] returns when every spatial axis has a fitting target and no
    axis of length 0 is to be extended. *)
Lemma pad_returns :
  pad_call_ok → axes ≠ [] →
  (∀ k ax n, axes !! k = Some ax → shape im !! k = Some n →
     target_fits mode padding_ ax n ∧
     (n = 0 → width_on mode padding_ ax n = 0)) →
  _pad im axes padding pad_right
  = Ok (pad_result im pad_entries.*1, dict_of pad_entries.*2).
Proof.
  intros Hok Hne Hax. pose proof (pad_entries_length Hok) as Hlen.
  pose proof Hok as (Hn & Hm & Hsz & Hs).
  rewrite pad_after_assertions by done.
  rewrite (for_each_total _ (entry_on mode padding_)).
  2:{ intros [ax [n pr]] Hin. apply list_elem_of_lookup in Hin as [k Hk].
      apply lookup_zip3 in Hk as (H1 & H2 & H3).
      apply pad_axis_Ok. simpl. by apply (Hax k). }
  simpl. fold pad_entries.
  rewrite np_pad_Ok; [done| | | |].
  - rewrite length_fmap. unfold ndim in *. lia.
  - intros Hnil. apply (f_equal length) in Hnil. rewrite length_fmap, Hlen in Hnil.
    destruct axes; [done|]. done.
  - apply Forall_fmap, Forall_forall. intros e He.
    apply list_elem_of_lookup in He as [k Hk]. unfold pad_entries in Hk.
    rewrite list_lookup_fmap in Hk.
    destruct (zip axes (zip (shape im) (expand_sides pad_right axes)) !! k)
      as [[ax [n pr]]|] eqn:Hz; [|done].
    injection Hk as <-. apply lookup_zip3 in Hz as (H1 & H2 & H3).
    destruct (Hax k ax n H1 H2) as (Hfit & _).
    pose proof (width_on_nonneg _ _ _ _ Hfit) as Hw.
    unfold entry_on, compose. cbn [fst snd].
    destruct (str_in ax "zyx"); cbn [fst snd]; [|lia].
    destruct (default false pr); cbn [fst snd]; lia.
  - intros k n w Hsh Hw Hn0. rewrite list_lookup_fmap in Hw.
    destruct (lookup_lt_is_Some_2 axes k) as [ax Hk].
    { rewrite <- Hn. by eapply lookup_lt_Some. }
    destruct (pad_entries_lookup k ax n Hok Hk Hsh) as (pr & Hpr & He).
    rewrite He in Hw. injection Hw as <-.
    destruct (Hax k ax n Hk Hsh) as (_ & H0). specialize (H0 Hn0).
    unfold entry_on. cbn [fst snd]. rewrite H0.
    destruct (str_in ax "zyx"); [|done]. by destruct (default false pr).
Qed.
End pad.

Lemma pad_result_shape im axes padding pad_right k ax n :
  pad_call_ok im axes padding pad_right →
  axes !! k = Some ax → shape im !! k = Some n →
  shape (pad_result im (pad_entries im axes padding pad_right).*1) !! k
  = Some (n + width_on (default "dynamic" (pad_mode padding)) (pad_targets padding) ax n).
Proof.
  intros Hok Hax Hsh.
  destruct (pad_entries_lookup im axes padding pad_right k ax n Hok Hax Hsh)
    as (pr & Hpr & He).
  unfold pad_result. cbn [shape]. rewrite lookup_zip_with, Hsh. cbn [mbind option_bind].
  rewrite list_lookup_fmap, He. cbn [fmap option_fmap option_map mbind option_bind].
  f_equal. unfold entry_on, width_on. cbn [fst snd].
  destruct (str_in ax "zyx"); cbn [fst snd]; [|lia].
  destruct (default false pr); cbn [fst snd]; lia.
Qed.

Lemma dynamic_fits padding_ ax n :
  (str_in ax "zyx" = true → ∃ t, padding_ !! ax = Some t ∧ 0 < t) →
  target_fits "dynamic" padding_ ax n ∧ (n = 0 → width_on "dynamic" padding_ ax n = 0).
Proof.
  intros H. split.
  - intros Hs. destruct (H Hs) as (t & Ht & Hpos). exists t. done.
  - intros ->. unfold width_on. destruct (str_in ax "zyx"); [|done].
    rewrite decide_True by done. by rewrite Zmod_0_l.
Qed.

(** ** Dynamic padding *)

(** C5 (as amended).  In dynamic mode, for an array whose axis [k] is
    labelled [ax] and has length [n], and a padding setting that passes the
    assertions of [_pad] (one label per axis; 2 targets, or 3 when the array
    has a z axis) and gives a positive target to every spatial axis, [_pad]
    returns a padded array; on a spatial axis its length is [n] plus the
    width [0 if n % t == 0 else t - n % t], a multiple of the target [t]; on
    any other axis its length is still [n]. *)
Theorem dynamic_padding_law (im : ndarray) (axes : list string) (padding : padding_dict)
    (pad_right : pad_right_arg) (k : nat) (ax : string) (n : Z) :
  pad_call_ok im axes padding pad_right →
  default "dynamic" (pad_mode padding) = "dynamic" →
  (∀ a, a ∈ axes → str_in a "zyx" = true →
        ∃ t, pad_targets padding !! a = Some t ∧ 0 < t) →
  axes !! k = Some ax →
  shape im !! k = Some n →
  ∃ padded crop,
    _pad im axes padding pad_right = Ok (padded, crop) ∧
    if str_in ax "zyx" then
      ∃ t, pad_targets padding !! ax = Some t ∧
           shape padded !! k
           = Some (n + (if n `mod` t =? 0 then 0 else t - n `mod` t)) ∧
           (n + (if n `mod` t =? 0 then 0 else t - n `mod` t)) `mod` t = 0
    else shape padded !! k = Some n.
Proof.
  intros Hok Hdyn Hkeys Hax Hsh.
  eexists _, _. split.
  { apply pad_returns; [done| |].
    - intros ->. done.
    - intros j a m Ha Hm. rewrite Hdyn. apply dynamic_fits.
      intros Hs. apply Hkeys; [|done]. by eapply list_elem_of_lookup_2. }
  rewrite (pad_result_shape _ _ _ _ _ _ _ Hok Hax Hsh), Hdyn.
  unfold width_on. destruct (str_in ax "zyx") eqn:Hs.
  - destruct (Hkeys ax) as (t & Ht & Hpos); [by eapply list_elem_of_lookup_2|done|].
    exists t. rewrite Ht. cbn [default]. rewrite decide_True by done.
    split; [done|]. split; [done|].
    destruct (Z.eqb_spec (n `mod` t) 0) as [H0|H0].
    + by rewrite Z.add_0_r.
    + replace (n + (t - n `mod` t)) with (n - n `mod` t + 1 * t) by lia.
      rewrite Z.mod_add by lia. rewrite Zminus_mod_idemp_r.
      by rewrite Z.sub_diag, Zmod_0_l.
  - f_equal. lia.
Qed.

(** ** Fixed padding *)

Lemma np_pad_Raise (a : ndarray) (pw : list (Z * Z)) (e : exn) :
  np_pad a pw = Raise e → e = TypeError ∨ e = ValueError.
Proof.
  unfold np_pad. intros H.
  destruct (as_pairs pw (ndim a)) as [pw'|e'] eqn:Hp.
  - cbn [mbind result_bind] in H.
    destruct (forallb _ pw'); cbn [mbind result_bind] in H; [|injection H as <-; by right].
    destruct (existsb _ _); cbn [mbind result_bind] in H; [injection H as <-; by right|done].
  - cbn [mbind result_bind] in H. injection H as ->.
    unfold as_pairs in Hp. destruct pw as [|p [|q pw]].
    + injection Hp as <-. by left.
    + done.
    + destruct (decide _); [done|]. injection Hp as <-. by right.
Qed.

(** In a mode other than dynamic and with a target for every spatial axis,
    the loop body of [_pad] returns, or the target is below the length of a
    spatial axis and it raises RuntimeError. *)
Lemma pad_axis_fixed mode padding_ (a : string * (Z * option bool)) :
  mode ≠ "dynamic" →
  (str_in a.1 "zyx" = true → is_Some (padding_ !! a.1)) →
  (pad_axis mode padding_ a = Ok (entry_on mode padding_ a) ∧
   (str_in a.1 "zyx" = true → ∃ t, padding_ !! a.1 = Some t ∧ a.2.1 ≤ t)) ∨
  (pad_axis mode padding_ a = Raise RuntimeError ∧ str_in a.1 "zyx" = true ∧
   ∃ t, padding_ !! a.1 = Some t ∧ t < a.2.1).
Proof.
  intros Hm Hkey. unfold pad_axis, entry_on, width_on.
  destruct (str_in a.1 "zyx") eqn:Hs.
  - destruct (Hkey eq_refl) as [t Ht]. unfold getitem. rewrite Ht.
    cbn [mbind result_bind default].
    destruct (decide (mode = "dynamic")); [done|].
    destruct (Z.ltb_spec t a.2.1); cbn [mbind result_bind].
    + right. split; [done|]. split; [done|]. by exists t.
    + left. split; [done|]. intros _. by exists t.
  - by left.
Qed.

(** C4 (as amended).  In fixed mode, for a call that passes the assertions
    of [_pad] with a target for every spatial axis: [_pad] raises
    RuntimeError (the padding error) exactly when the target of some spatial
    axis is below the length of that axis.  Otherwise, and when no spatial
    axis of length 0 has a positive target, [_pad] returns a padded array
    whose length on every spatial axis is the target of that axis: the
    width added is the target minus the length. *)
Theorem fixed_padding_law (im : ndarray) (axes : list string) (padding : padding_dict)
    (pad_right : pad_right_arg) :
  pad_call_ok im axes padding pad_right →
  pad_mode padding = Some "fixed" →
  (∀ a, a ∈ axes → str_in a "zyx" = true → is_Some (pad_targets padding !! a)) →
  (_pad im axes padding pad_right = Raise RuntimeError ↔
   ∃ k ax n t, axes !! k = Some ax ∧ str_in ax "zyx" = true ∧
               shape im !! k = Some n ∧ pad_targets padding !! ax = Some t ∧ t < n) ∧
  (∀ k ax n t,
     axes !! k = Some ax → str_in ax "zyx" = true →
     shape im !! k = Some n → pad_targets padding !! ax = Some t →
     (∀ j a m u, axes !! j = Some a → str_in a "zyx" = true →
                 shape im !! j = Some m → pad_targets padding !! a = Some u →
                 m ≤ u ∧ (m = 0 → u = 0)) →
     ∃ padded crop,
       _pad im axes padding pad_right = Ok (padded, crop) ∧
       shape padded !! k = Some (n + (t - n)) ∧ n + (t - n) = t).
Proof.
  intros Hok Hmode Hkeys.
  assert (default "dynamic" (pad_mode padding) = "fixed") as Hm by (by rewrite Hmode).
  split.
  - pose proof Hok as (Hn & _ & Hsz & Hs).
    rewrite pad_after_assertions by done. rewrite Hm.
    set (l := zip axes (zip (shape im) (expand_sides pad_right axes))).
    assert (∀ x, x ∈ l → str_in x.1 "zyx" = true → is_Some (pad_targets padding !! x.1))
      as Hkl.
    { intros [ax [n pr]] Hin Hsp. apply list_elem_of_lookup in Hin as [k Hk].
      apply lookup_zip3 in Hk as (H1 & _ & _). apply Hkeys; [|done].
      by eapply list_elem_of_lookup_2. }
    destruct (for_each (pad_axis "fixed" (pad_targets padding)) l) as [entries|e] eqn:Hfe;
      simpl.
    + split.
      * intros H. destruct (np_pad im entries.*1) as [?|e] eqn:Hp; simpl in H; [done|].
        injection H as ->. by destruct (np_pad_Raise _ _ _ Hp).
      * intros (k & ax & n & t & Hax & Hsp & Hsh & Ht & Hlt). exfalso.
        destruct (lookup_lt_is_Some_2 (expand_sides pad_right axes) k) as [pr Hpr].
        { rewrite expand_sides_length by done. by eapply lookup_lt_Some. }
        assert (l !! k = Some (ax, (n, pr))) as Hl by (by apply lookup_zip3).
        destruct (for_each_lookup _ _ _ _ _ Hfe Hl) as (y & _ & Hy).
        destruct (pad_axis_fixed "fixed" (pad_targets padding) (ax, (n, pr)))
          as [[_ Hle]|[Hr _]]; [done| |..].
        { intros Hsp'. apply (Hkl (ax, (n, pr))); [|done]. by eapply list_elem_of_lookup_2. }
        -- destruct (Hle Hsp) as (t' & Ht' & Hle'). simpl in *. simplify_eq. lia.
        -- congruence.
    + apply for_each_Raise in Hfe as (k & [ax [n pr]] & Hk & Hx & _).
      assert (e = RuntimeError ∧ str_in ax "zyx" = true ∧
              ∃ t, pad_targets padding !! ax = Some t ∧ t < n) as (-> & Hsp & t & Ht & Hlt).
      { destruct (pad_axis_fixed "fixed" (pad_targets padding) (ax, (n, pr)))
          as [[Hy _]|(Hr & Hsp & Ht)]; [done| |congruence|].
        { intros Hsp'. apply (Hkl (ax, (n, pr))); [|done]. by eapply list_elem_of_lookup_2. }
        split; [congruence|]. done. }
      split; [|done]. intros _.
      apply lookup_zip3 in Hk as (H1 & H2 & _). by exists k, ax, n, t.
  - intros k ax n t Hax Hsp Hsh Ht Hall.
    eexists _, _. split.
    { apply pad_returns; [done| |].
      - intros ->. done.
      - intros j a m Ha Hmm. rewrite Hm. split.
        + intros Hsa. destruct (Hkeys a) as [u Hu]; [by eapply list_elem_of_lookup_2|done|].
          exists u. split; [done|]. split; [done|]. intros _.
          by apply (Hall j a m u).
        + intros ->. unfold width_on. destruct (str_in a "zyx") eqn:Hsa; [|done].
          destruct (Hkeys a) as [u Hu]; [by eapply list_elem_of_lookup_2|done|].
          rewrite Hu. simpl. destruct (Hall j a 0 u) as [_ H0]; [done..|]. 
          rewrite (H0 eq_refl). done. }
    rewrite (pad_result_shape _ _ _ _ _ _ _ Hok Hax Hsh), Hm.
    unfold width_on. rewrite Hsp, Ht. simpl. split; [done|lia].
Qed.

(** ** Concrete arrays and settings *)

Definition bcyx : list string := ["b"; "c"; "y"; "x"].

(** An array whose elements encode their own index vector *)
Definition ramp (sh : list Z) : ndarray :=
  NdArray sh "float32" (λ idx, foldl (λ acc i, acc * 100 + i + 1) 0 idx).

Definition yx_setting (mode : string) (y x : Z) : padding_dict :=
  PaddingDict (Some mode) (dict_of [("y", y); ("x", x)]).

Ltac each_axis H :=
  repeat (apply elem_of_cons in H as [->|H]); [..|by apply elem_of_nil in H].

Lemma dynamic_padding_law_witness :
  ∃ padded crop,
    _pad (ramp [1; 1; 5; 7]) bcyx (yx_setting "dynamic" 4 4) (PadRightBool true)
    = Ok (padded, crop) ∧
    ∃ t, pad_targets (yx_setting "dynamic" 4 4) !! "y" = Some t ∧
         shape padded !! 2%nat = Some (5 + (if 5 `mod` t =? 0 then 0 else t - 5 `mod` t)) ∧
         (5 + (if 5 `mod` t =? 0 then 0 else t - 5 `mod` t)) `mod` t = 0.
Proof.
  apply (dynamic_padding_law (ramp [1; 1; 5; 7]) bcyx (yx_setting "dynamic" 4 4)
           (PadRightBool true) 2 "y" 5).
  - repeat split. by left.
  - reflexivity.
  - intros a Ha Hs.
    each_axis Ha; try (by vm_compute in Hs); exists 4; (split; [reflexivity|lia]).
  - reflexivity.
  - reflexivity.
Defined.

(** The dynamic padding law does not reach an array with a single spatial
    axis: [_pad] asserts that the setting has 2 targets (3 with a z axis),
    so with the one positive target that such an array can have it returns no
    padded array. *)
Lemma dynamic_padding_one_spatial_axis :
  _pad (ramp [1; 1; 5]) ["b"; "c"; "x"] (PaddingDict (Some "dynamic") (dict_of [("x", 4)]))
       (PadRightBool true) = Raise AssertionError ∧
  ¬ ∃ padded crop,
      _pad (ramp [1; 1; 5]) ["b"; "c"; "x"]
           (PaddingDict (Some "dynamic") (dict_of [("x", 4)])) (PadRightBool true)
      = Ok (padded, crop) ∧ shape padded !! 2%nat = Some 8.
Proof.
  assert (_pad (ramp [1; 1; 5]) ["b"; "c"; "x"]
               (PaddingDict (Some "dynamic") (dict_of [("x", 4)])) (PadRightBool true)
          = Raise AssertionError) as H by (vm_compute; reflexivity).
  split; [exact H|]. intros (padded & crop & H' & _). congruence.
Qed.

Lemma fixed_padding_law_witness :
  ∃ padded crop,
    _pad (ramp [1; 1; 5; 7]) bcyx (yx_setting "fixed" 8 8) (PadRightBool false)
    = Ok (padded, crop) ∧
    shape padded !! 3%nat = Some (7 + (8 - 7)) ∧ 7 + (8 - 7) = 8.
Proof.
  apply (proj2 (fixed_padding_law (ramp [1; 1; 5; 7]) bcyx (yx_setting "fixed" 8 8)
                  (PadRightBool false)
                  ltac:(repeat split; by right) eq_refl
                  ltac:(intros a Ha Hs; each_axis Ha; try (by vm_compute in Hs); by eexists))
               3%nat "x" 7 8 eq_refl eq_refl eq_refl eq_refl).
  intros j a m u Ha Hs Hm Hu.
  destruct j as [|[|[|[|j]]]]; simpl in Ha, Hm; simplify_eq; try (by vm_compute in Hs).
  - vm_compute in Hu. simplify_eq. lia.
  - vm_compute in Hu. simplify_eq. lia.
Defined.

(** The fixed padding law without its provisos fails on an image with no
    rows: the target 3 is not below the length 0 of axis y, yet [_pad] gives
    no padded array, numpy cannot mirror an empty axis.  It also fails on an
    array with a single spatial axis: the target 8 is not below the length
    5, yet [_pad] asserts that the setting has 2 targets and gives no padded
    array either. *)
Lemma fixed_padding_empty_axis :
  (¬ (3 < 0) ∧ ¬ (4 < 4) ∧
   _pad (ramp [0; 4]) ["y"; "x"] (yx_setting "fixed" 3 4) (PadRightBool true)
   = Raise ValueError ∧
   ¬ ∃ padded crop,
       _pad (ramp [0; 4]) ["y"; "x"] (yx_setting "fixed" 3 4) (PadRightBool true)
       = Ok (padded, crop) ∧ shape padded !! 0%nat = Some 3) ∧
  (¬ (8 < 5) ∧
   _pad (ramp [1; 1; 5]) ["b"; "c"; "x"] (PaddingDict (Some "fixed") (dict_of [("x", 8)]))
        (PadRightBool true) = Raise AssertionError ∧
   ¬ ∃ padded crop,
       _pad (ramp [1; 1; 5]) ["b"; "c"; "x"]
            (PaddingDict (Some "fixed") (dict_of [("x", 8)])) (PadRightBool true)
       = Ok (padded, crop) ∧ shape padded !! 2%nat = Some 8).
Proof.
  assert (_pad (ramp [0; 4]) ["y"; "x"] (yx_setting "fixed" 3 4) (PadRightBool true)
          = Raise ValueError) as H by (vm_compute; reflexivity).
  assert (_pad (ramp [1; 1; 5]) ["b"; "c"; "x"]
               (PaddingDict (Some "fixed") (dict_of [("x", 8)])) (PadRightBool true)
          = Raise AssertionError) as G by (vm_compute; reflexivity).
  split.
  - split; [lia|]. split; [lia|]. split; [exact H|].
    intros (padded & crop & H' & _). congruence.
  - split; [lia|]. split; [exact G|].
    intros (padded & crop & G' & _). congruence.
Qed.

(** ** Padding round trip *)

Lemma entry_on_key mode padding_ a : (entry_on mode padding_ a).2.1 = a.1.
Proof. unfold entry_on. by destruct (str_in a.1 "zyx"). Qed.

Lemma pad_entries_keys im axes padding pad_right :
  pad_call_ok im axes padding pad_right →
  (pad_entries im axes padding pad_right).*2.*1 = axes.
Proof.
  intros Hok. pose proof Hok as (Hn & _ & _ & Hs). unfold pad_entries.
  rewrite <- !list_fmap_compose.
  erewrite list_fmap_ext; [|intros i a _; apply entry_on_key].
  apply fst_zip. rewrite length_zip_with, expand_sides_length by done.
  unfold ndim in Hn. lia.
Qed.

(** The crop entry of an axis selects, in the padded axis, exactly the
    window where the original data sits. *)
Lemma entry_on_window mode padding_ ax n pr :
  0 ≤ n → 0 ≤ width_on mode padding_ ax n →
  let e := entry_on mode padding_ (ax, (n, pr)) in
  0 ≤ e.1.1 ∧ 0 ≤ e.1.2 ∧
  slice_indices e.2.2 (e.1.1 + n + e.1.2) = (e.1.1, e.1.1 + n).
Proof.
  intros Hn Hw. unfold entry_on. cbn [fst snd].
  destruct (str_in ax "zyx"); cbn [fst snd].
  - destruct (default false pr); cbn [fst snd]; unfold slice_indices, clip_bound;
      cbn [start stop from_option].
    + repeat split; [lia..|].
      destruct (Z.ltb_spec 0 0); [lia|]. destruct (Z.ltb_spec n 0); [lia|].
      f_equal; lia.
    + repeat split; [lia..|].
      destruct (Z.ltb_spec (width_on mode padding_ ax n) 0); [lia|]. f_equal; lia.
  - repeat split; [lia..|]. unfold slice_indices. cbn. f_equal; lia.
Qed.

Lemma reflect_index_inside (n i : Z) : 0 ≤ i < n → reflect_index n i = i.
Proof.
  intros H. unfold reflect_index. rewrite Z.mod_small by lia.
  destruct (Z.ltb_spec i n); [done|lia].
Qed.

(** What the round trip asks of the targets: a positive divisor in dynamic
    mode; in fixed mode a target not below the length of the axis, and no
    extension of an axis of length 0. *)
Definition targets_allow (im : ndarray) (axes : list string) (padding : padding_dict)
  : Prop :=
  ∀ k ax n, axes !! k = Some ax → str_in ax "zyx" = true → shape im !! k = Some n →
    ∃ t, pad_targets padding !! ax = Some t ∧
         (default "dynamic" (pad_mode padding) = "dynamic" → 0 < t) ∧
         (default "dynamic" (pad_mode padding) = "fixed" → n ≤ t ∧ (n = 0 → t = 0)).

Lemma targets_allow_fits im axes padding pad_right k ax n :
  pad_call_ok im axes padding pad_right → targets_allow im axes padding →
  axes !! k = Some ax → shape im !! k = Some n →
  target_fits (default "dynamic" (pad_mode padding)) (pad_targets padding) ax n ∧
  (n = 0 → width_on (default "dynamic" (pad_mode padding)) (pad_targets padding) ax n = 0).
Proof.
  intros (_ & Hm & _) Hall Hax Hsh. split.
  - intros Hs. destruct (Hall k ax n Hax Hs Hsh) as (t & Ht & Hd & Hf).
    exists t. split; [done|]. split; [done|]. intros Hnd. apply Hf. by destruct Hm.
  - intros ->. unfold width_on. destruct (str_in ax "zyx") eqn:Hs; [|done].
    destruct (Hall k ax 0 Hax Hs Hsh) as (t & Ht & Hd & Hf). rewrite Ht. cbn [default].
    destruct (decide _) as [Hdyn|Hdyn].
    + by rewrite Zmod_0_l.
    + destruct Hm as [Hm|Hm]; [done|]. destruct (Hf Hm) as [_ H0]. rewrite (H0 eq_refl). done.
Qed.

(** Padding, labelling the padded array with the same axes, and applying
    the crop gives back the array. *)
Lemma pad_then_crop (im : ndarray) (axes : list string) (padding : padding_dict)
    (pad_right : pad_right_arg) :
  pad_call_ok im axes padding pad_right →
  axes ≠ [] →
  NoDup axes →
  Forall (λ n, 0 ≤ n) (shape im) →
  targets_allow im axes padding →
  ∃ padded crop data cropped,
    _pad im axes padding pad_right = Ok (padded, crop) ∧
    xr_DataArray padded axes = Ok data ∧
    _apply_crop data crop = Ok cropped ∧
    dims cropped = axes ∧
    array_eq (values cropped) im.
Proof.
  intros Hok Hne Hnd Hpos Hall.
  pose proof Hok as (Hn & Hm & _ & Hs). unfold ndim in Hn.
  set (mode := default "dynamic" (pad_mode padding)) in *.
  set (E := pad_entries im axes padding pad_right).
  pose proof (pad_entries_length _ _ _ _ Hok) as HlenE. fold E in HlenE.
  pose proof (pad_entries_keys _ _ _ _ Hok) as Hkeys. fold E in Hkeys.
  set (crop := dict_of E.*2).
  set (key := (λ ax, default slice_all (crop !! ax)) <$> axes).
  (* per axis: the entry, its widths and its window *)
  assert (∀ k ax n, axes !! k = Some ax → shape im !! k = Some n →
            ∃ e, E !! k = Some e ∧ crop !! ax = Some e.2.2 ∧
                 0 ≤ n ∧ 0 ≤ e.1.1 ∧ 0 ≤ e.1.2 ∧
                 slice_indices e.2.2 (e.1.1 + n + e.1.2) = (e.1.1, e.1.1 + n)) as Hat.
  { intros k ax n Hax Hsh.
    destruct (pad_entries_lookup _ _ _ _ k ax n Hok Hax Hsh) as (pr & Hpr & He).
    fold E mode in He.
    assert (0 ≤ n) as Hn0.
    { eapply (proj1 (Forall_lookup _ _) Hpos); done. }
    destruct (targets_allow_fits _ _ _ _ k ax n Hok Hall Hax Hsh) as [Hfit _].
    pose proof (width_on_nonneg _ _ _ _ Hfit) as Hw.
    destruct (entry_on_window mode (pad_targets padding) ax n pr Hn0 Hw) as (H1 & H2 & H3).
    eexists. split; [exact He|]. split; [|done].
    apply dict_of_lookup_Some; [by rewrite Hkeys|].
    apply list_elem_of_lookup. exists k. rewrite list_lookup_fmap, He. cbn.
    f_equal. rewrite (surjective_pairing (entry_on _ _ _).2) at 1.
    by rewrite entry_on_key. }
  exists (pad_result im E.*1), crop, (MkDataArray axes (pad_result im E.*1)),
         (MkDataArray axes (slice_values (pad_result im E.*1) key)).
  assert (length (shape (pad_result im E.*1)) = length axes) as Hlenp.
  { cbn [pad_result shape]. rewrite length_zip_with, length_fmap. lia. }
  split; [|split; [|split; [|split]]].
  - apply pad_returns; [done..|]. intros k ax n Hax Hsh.
    by apply (targets_allow_fits im axes padding pad_right k).
  - unfold xr_DataArray, ndim. by rewrite decide_True.
  - unfold _apply_crop. cbn [dims].
    rewrite (for_each_total _ (λ ax, default slice_all (crop !! ax))).
    2:{ intros ax Hin. apply list_elem_of_lookup in Hin as [k Hk].
        destruct (lookup_lt_is_Some_2 (shape im) k) as [n Hsh].
        { rewrite Hn. by eapply lookup_lt_Some. }
        destruct (Hat k ax n Hk Hsh) as (e & _ & Hc & _).
        unfold getitem. by rewrite Hc. }
    cbn [mbind result_bind]. fold key. unfold getitem_tuple, ndim. cbn [values dims].
    assert (length key = length axes) as Hlk by (unfold key; by rewrite length_fmap).
    rewrite decide_True by lia.
    replace (length (shape (pad_result im E.*1)) - length key)%nat with 0%nat by lia.
    cbn [replicate]. by rewrite app_nil_r.
  - done.
  - cbn [values].
    assert (shape (slice_values (pad_result im E.*1) key) = shape im) as Hshape.
    { apply list_eq. intros k. cbn [slice_values pad_result shape].
      destruct (shape im !! k) as [n|] eqn:Hsh.
      - destruct (lookup_lt_is_Some_2 axes k) as [ax Hax].
        { rewrite <- Hn. by eapply lookup_lt_Some. }
        destruct (Hat k ax n Hax Hsh) as (e & He & Hc & Hn0 & H1 & H2 & H3).
        rewrite !lookup_zip_with, Hsh. cbn [mbind option_bind].
        rewrite list_lookup_fmap, He. cbn [fmap option_fmap option_map mbind option_bind].
        unfold key. rewrite list_lookup_fmap, Hax. cbn. rewrite Hc. cbn.
        unfold slice_len. rewrite H3. cbn [fst snd]. f_equal. lia.
      - rewrite !lookup_zip_with, Hsh. done. }
    split; [done|].
    intros idx Hin. rewrite Hshape in Hin.
    cbn [slice_values pad_result item]. f_equal.
    apply list_eq. intros k.
    pose proof (Forall2_length _ _ _ Hin) as Hli.
    destruct (idx !! k) as [i|] eqn:Hi.
    + destruct (lookup_lt_is_Some_2 (shape im) k) as [n Hsh].
      { rewrite <- Hli. by eapply lookup_lt_Some. }
      destruct (lookup_lt_is_Some_2 axes k) as [ax Hax].
      { rewrite <- Hn. by eapply lookup_lt_Some. }
      destruct (Hat k ax n Hax Hsh) as (e & He & Hc & Hn0 & H1 & H2 & H3).
      pose proof (Forall2_lookup_lr _ _ _ _ _ _ Hin Hi Hsh) as Hb. cbn beta in Hb.
      assert (shape (pad_result im E.*1) !! k = Some (e.1.1 + n + e.1.2)) as Hpk.
      { cbn [pad_result shape]. rewrite lookup_zip_with, Hsh. cbn [mbind option_bind].
        rewrite list_lookup_fmap, He. done. }
      assert (key !! k = Some e.2.2) as Hkk.
      { unfold key. rewrite list_lookup_fmap, Hax. cbn. by rewrite Hc. }
      rewrite !lookup_zip_with, Hi, Hsh, Hpk, Hkk. cbn [mbind option_bind fst snd].
      rewrite list_lookup_fmap, He. cbn [fmap option_fmap option_map mbind option_bind fst snd].
      rewrite H3. cbn [fst snd]. f_equal.
      replace (e.1.1 + i - e.1.1) with i by lia. by apply reflect_index_inside.
    + rewrite !lookup_zip_with, Hi. done.
Qed.

(** C3 (as amended).  For an array with at least one axis, distinct axis
    labels and a call that passes the assertions of [_pad] (dynamic or fixed
    mode, 2 targets or 3 with a z axis, per-axis or broadcast side
    selection, pad-right or pad-left), with positive divisors in dynamic
    mode and, in fixed mode, targets not below the lengths and no axis of
    length 0 to extend: [_pad] returns, and applying the crop it returns to
    the padded array, labelled with the same axes, gives back the original
    array. *)
Theorem pad_crop_round_trip (im : ndarray) (axes : list string) (padding : padding_dict)
    (pad_right : pad_right_arg) :
  pad_call_ok im axes padding pad_right →
  axes ≠ [] →
  NoDup axes →
  Forall (λ n, 0 ≤ n) (shape im) →
  targets_allow im axes padding →
  ∃ padded crop data cropped,
    _pad im axes padding pad_right = Ok (padded, crop) ∧
    xr_DataArray padded axes = Ok data ∧
    _apply_crop data crop = Ok cropped ∧
    dims cropped = axes ∧
    array_eq (values cropped) im.
Proof. apply pad_then_crop. Qed.

Lemma pad_crop_round_trip_witness :
  ∃ padded crop data cropped,
    _pad (ramp [1; 1; 5; 7]) bcyx (yx_setting "fixed" 8 8)
         (PadRightList [None; None; Some false; Some true]) = Ok (padded, crop) ∧
    xr_DataArray padded bcyx = Ok data ∧
    _apply_crop data crop = Ok cropped ∧
    dims cropped = bcyx ∧
    array_eq (values cropped) (ramp [1; 1; 5; 7]).
Proof.
  apply pad_crop_round_trip.
  - repeat split. by right.
  - done.
  - apply (bool_decide_unpack _). by vm_compute.
  - repeat constructor; lia.
  - intros k ax n Hax Hs Hsh.
    destruct k as [|[|[|[|k]]]]; simpl in Hax, Hsh; simplify_eq; try (by vm_compute in Hs);
      exists 8; (split; [reflexivity|]); (split; [done|]); intros _; lia.
Defined.

(** The round trip without its provisos fails on an image with no rows and
    a fixed target of 3 rows, and on an array with a single spatial axis
    (in either mode): [_pad] gives nothing to crop. *)
Lemma round_trip_empty_axis :
  (¬ (3 < 0) ∧ ¬ (4 < 4) ∧
   ¬ ∃ padded crop data cropped,
       _pad (ramp [0; 4]) ["y"; "x"] (yx_setting "fixed" 3 4) (PadRightBool true)
       = Ok (padded, crop) ∧
       xr_DataArray padded ["y"; "x"] = Ok data ∧
       _apply_crop data crop = Ok cropped ∧
       array_eq (values cropped) (ramp [0; 4])) ∧
  (∀ mode, mode = "dynamic" ∨ mode = "fixed" →
     ¬ (8 < 5) ∧
     ¬ ∃ padded crop data cropped,
         _pad (ramp [1; 1; 5]) ["b"; "c"; "x"] (PaddingDict (Some mode) (dict_of [("x", 8)]))
              (PadRightBool true) = Ok (padded, crop) ∧
         xr_DataArray padded ["b"; "c"; "x"] = Ok data ∧
         _apply_crop data crop = Ok cropped ∧
         array_eq (values cropped) (ramp [1; 1; 5])).
Proof.
  split.
  - split; [lia|]. split; [lia|].
    intros (padded & crop & data & cropped & H & _).
    assert (_pad (ramp [0; 4]) ["y"; "x"] (yx_setting "fixed" 3 4) (PadRightBool true)
            = Raise ValueError) as H' by (vm_compute; reflexivity).
    congruence.
  - intros mode Hm. split; [lia|].
    intros (padded & crop & data & cropped & H & _).
    assert (_pad (ramp [1; 1; 5]) ["b"; "c"; "x"]
                 (PaddingDict (Some mode) (dict_of [("x", 8)])) (PadRightBool true)
            = Raise AssertionError) as H'.
    { destruct Hm as [-> | ->]; vm_compute; reflexivity. }
    congruence.
Qed.

(** ** The tile plan *)

Lemma zip_with_keys {B V : Type} (f : string → B → string * V) (ks : list string)
    (vs : list B) :
  (∀ k v, (f k v).1 = k) → (zip_with f ks vs).*1 = take (length vs) ks.
Proof.
  intros Hf. revert vs. induction ks as [|k ks IH]; intros [|v vs]; simpl; try done.
  by rewrite Hf, IH.
Qed.

Lemma dict_of_zip_lookup {B V : Type} (f : string → B → string * V) (ks : list string)
    (vs : list B) (j : nat) (k : string) (v : B) :
  (∀ k v, (f k v).1 = k) → NoDup ks →
  ks !! j = Some k → vs !! j = Some v →
  dict_of (zip_with f ks vs) !! k = Some (f k v).2.
Proof.
  intros Hf Hnd Hk Hv. apply dict_of_lookup_Some.
  - rewrite zip_with_keys by done. eapply sublist_NoDup; [done|apply sublist_take].
  - apply list_elem_of_lookup. exists j. rewrite lookup_zip_with, Hk, Hv. simpl.
    f_equal. rewrite (surjective_pairing (f k v)) at 1. by rewrite Hf.
Qed.

Lemma dict_of_zip_lookup_None {B V : Type} (f : string → B → string * V)
    (ks : list string) (vs : list B) (k : string) :
  (∀ k v, (f k v).1 = k) → k ∉ ks → dict_of (zip_with f ks vs) !! k = None.
Proof.
  intros Hf Hk. apply dict_of_lookup_None. rewrite zip_with_keys by done.
  intros Hin. apply Hk. apply elem_of_take in Hin as (i & Hi & _).
  by eapply list_elem_of_lookup_2.
Qed.

Lemma spatial_not_bc (ax : string) : spatial ax = true → ax ≠ "b" ∧ ax ≠ "c".
Proof. intros H. split; intros ->; by vm_compute in H. Qed.

Lemma with_bc_lookup (d : gmap string slice) (ax : string) :
  ax ≠ "b" → ax ≠ "c" → with_bc d !! ax = d !! ax.
Proof. intros Hb Hc. unfold with_bc. by rewrite !lookup_insert_ne. Qed.

Lemma with_bc_lookup_b (d : gmap string slice) : with_bc d !! "b" = Some slice_all.
Proof. unfold with_bc. rewrite lookup_insert_ne by done. by rewrite lookup_insert_eq. Qed.

Lemma with_bc_lookup_c (d : gmap string slice) : with_bc d !! "c" = Some slice_all.
Proof. unfold with_bc. by rewrite lookup_insert_eq. Qed.

(** The local window: the inner window in the coordinates of the outer one;
    open-ended exactly when both windows stop at the same place. *)
Definition local_window (pos tsh sh ha : Z) : slice :=
  Slice (Some (pos - Z.max (pos - ha) 0))
        (if decide (Z.min (pos + tsh + ha) sh = Z.min (pos + tsh) sh) then None
         else Some (- (Z.min (pos + tsh + ha) sh - Z.min (pos + tsh) sh))).

Lemma local_slice_windows (pos tsh sh ha : Z) :
  local_slice (outer_slice pos tsh sh ha) (inner_slice pos tsh sh)
  = Ok (local_window pos tsh sh ha).
Proof.
  unfold local_slice, outer_slice, inner_slice, local_window. cbn [start stop bound_sub].
  cbn [mbind result_bind].
  destruct (decide (Some _ ≠ Some _)) as [Hne|Heq];
    destruct (decide (Z.min _ _ = Z.min _ _)) as [He|He]; cbn [mbind result_bind bound_sub].
  - by rewrite He in Hne.
  - done.
  - done.
  - exfalso. apply Heq. intros [= H]. done.
Qed.

Lemma lookup_zip_pair {A B : Type} (l1 : list A) (l2 : list B) k a b :
  l1 !! k = Some a → l2 !! k = Some b → zip l1 l2 !! k = Some (a, b).
Proof. intros H1 H2. by rewrite lookup_zip_with, H1, H2. Qed.

Section tiles.
Context (spatial_axes : list string) (tile_shape_ shape_ halo_ : list Z).
Hypothesis axes_distinct : NoDup spatial_axes.
Hypothesis axes_spatial : Forall (λ ax, spatial ax = true) spatial_axes.

(** What the three dictionaries of the tile of start point [sp] hold *)
Definition tile_windows (t : tile) (sp : list Z) : Prop :=
  (∀ j ax i tsh sh ha,
     spatial_axes !! j = Some ax → sp !! j = Some i → tile_shape_ !! j = Some tsh →
     shape_ !! j = Some sh → halo_ !! j = Some ha →
     outer_tile t !! ax = Some (outer_slice (i * tsh) tsh sh ha) ∧
     inner_tile t !! ax = Some (inner_slice (i * tsh) tsh sh) ∧
     local_tile t !! ax = Some (local_window (i * tsh) tsh sh ha)) ∧
  (∀ ax, ax ∉ spatial_axes →
     let other := if decide (ax = "b" ∨ ax = "c") then Some slice_all else None in
     outer_tile t !! ax = other ∧ inner_tile t !! ax = other ∧
     local_tile t !! ax = other).

Lemma with_bc_other (d : gmap string slice) (ax : string) :
  d !! ax = None →
  with_bc d !! ax = if decide (ax = "b" ∨ ax = "c") then Some slice_all else None.
Proof.
  intros Hd. destruct (decide (ax = "b" ∨ ax = "c")) as [[->| ->]|Hn].
  - apply with_bc_lookup_b.
  - apply with_bc_lookup_c.
  - rewrite with_bc_lookup; [done|..]; intros ->; apply Hn; [by left|by right].
Qed.

Lemma make_tile_spec (sp : list Z) :
  length sp = length spatial_axes →
  length tile_shape_ = length spatial_axes →
  length shape_ = length spatial_axes →
  length halo_ = length spatial_axes →
  ∃ t, make_tile spatial_axes tile_shape_ shape_ halo_ sp = Ok t ∧ tile_windows t sp.
Proof.
  intros Hlsp Hlt Hls Hlh. unfold make_tile.
  set (positions := zip_with Z.mul sp tile_shape_).
  set (fo := λ (ax : string) (g : Z * (Z * (Z * Z))),
               (ax, outer_slice g.1 g.2.1 g.2.2.1 g.2.2.2)).
  set (fi := λ (ax : string) (g : Z * (Z * Z)), (ax, inner_slice g.1 g.2.1 g.2.2)).
  set (douter := dict_of (zip_with fo spatial_axes
                            (zip positions (zip tile_shape_ (zip shape_ halo_))))).
  set (dinner := dict_of (zip_with fi spatial_axes
                            (zip positions (zip tile_shape_ shape_)))).
  assert (∀ j ax, spatial_axes !! j = Some ax →
            ∃ i tsh sh ha, sp !! j = Some i ∧ tile_shape_ !! j = Some tsh ∧
                           shape_ !! j = Some sh ∧ halo_ !! j = Some ha ∧
                           with_bc douter !! ax = Some (outer_slice (i * tsh) tsh sh ha) ∧
                           with_bc dinner !! ax = Some (inner_slice (i * tsh) tsh sh))
    as Hat.
  { intros j ax Hax. pose proof (lookup_lt_Some _ _ _ Hax) as Hj.
    destruct (lookup_lt_is_Some_2 sp j) as [i Hi]; [lia|].
    destruct (lookup_lt_is_Some_2 tile_shape_ j) as [tsh Ht]; [lia|].
    destruct (lookup_lt_is_Some_2 shape_ j) as [sh Hs]; [lia|].
    destruct (lookup_lt_is_Some_2 halo_ j) as [ha Hh]; [lia|].
    exists i, tsh, sh, ha. repeat (split; [done|]).
    assert (positions !! j = Some (i * tsh)) as Hp.
    { unfold positions. by rewrite lookup_zip_with, Hi, Ht. }
    destruct (spatial_not_bc ax) as [Hb Hc].
    { by eapply (proj1 (Forall_lookup _ _) axes_spatial). }
    rewrite !with_bc_lookup by done. split.
    - unfold douter.
      rewrite (dict_of_zip_lookup fo _ _ j ax (i * tsh, (tsh, (sh, ha)))); try done.
      repeat (apply lookup_zip_pair; [done|]). done.
    - unfold dinner.
      rewrite (dict_of_zip_lookup fi _ _ j ax (i * tsh, (tsh, sh))); try done.
      repeat (apply lookup_zip_pair; [done|]). done. }
  set (g := λ ax : string,
         (ax, match with_bc douter !! ax, with_bc dinner !! ax with
              | Some o, Some i =>
                match local_slice o i with Ok s => s | Raise _ => slice_all end
              | _, _ => slice_all
              end)).
  rewrite (for_each_total _ g).
  2:{ intros ax Hin. apply list_elem_of_lookup in Hin as [j Hj].
      destruct (Hat j ax Hj) as (i & tsh & sh & ha & _ & _ & _ & _ & Ho & Hi).
      unfold g, getitem. rewrite Ho, Hi. cbn [mbind result_bind].
      by rewrite local_slice_windows. }
  cbn [mbind result_bind]. eexists. split; [done|]. split.
  - intros j ax i tsh sh ha Hax Hi Ht Hs Hh. cbn [outer_tile inner_tile local_tile].
    destruct (Hat j ax Hax) as (i' & tsh' & sh' & ha' & ? & ? & ? & ? & Ho & Hin).
    simplify_eq. split; [done|]. split; [done|].
    destruct (spatial_not_bc ax) as [Hb Hc].
    { by eapply (proj1 (Forall_lookup _ _) axes_spatial). }
    rewrite with_bc_lookup by done.
    rewrite (dict_of_lookup_Some _ ax (g ax).2).
    + unfold g. cbn [snd]. rewrite Ho, Hin. by rewrite local_slice_windows.
    + rewrite <- list_fmap_compose. by rewrite list_fmap_id.
    + apply list_elem_of_lookup. exists j. by rewrite list_lookup_fmap, Hax.
  - intros ax Hax. cbn [outer_tile inner_tile local_tile].
    split; [|split]; apply with_bc_other.
    + by apply dict_of_zip_lookup_None.
    + by apply dict_of_zip_lookup_None.
    + apply dict_of_lookup_None. rewrite <- list_fmap_compose. by rewrite list_fmap_id.
Qed.
End tiles.

Lemma for_each_related {A B : Type} (f : A → result B) (R : A → B → Prop) (l : list A) :
  (∀ x, x ∈ l → ∃ y, f x = Ok y ∧ R x y) →
  ∃ ys, for_each f l = Ok ys ∧ Forall2 R l ys.
Proof.
  induction l as [|x l IH]; intros H; simpl.
  - exists []. split; [done|constructor].
  - destruct (H x) as (y & Hy & HR); [left|].
    destruct IH as (ys & Hys & HF). { intros z Hz. apply H. by right. }
    exists (y :: ys). rewrite Hy, Hys. split; [done|]. by constructor.
Qed.

Lemma elem_of_product {A : Type} (ls : list (list A)) (sp : list A) :
  sp ∈ product ls ↔ Forall2 (λ x l, x ∈ l) sp ls.
Proof.
  revert sp. induction ls as [|l ls IH]; intros sp; simpl.
  - rewrite list_elem_of_singleton. split.
    + intros ->. constructor.
    + intros H. by inversion H.
  - rewrite list_elem_of_bind. split.
    + intros (x & Hsp & Hx). apply list_elem_of_fmap in Hsp as (sp' & -> & Hsp').
      constructor; [done|]. by apply IH.
    + intros H. inversion H as [|x ? sp' ? Hx Hsp']; subst.
      exists x. split; [|done]. apply list_elem_of_fmap. exists sp'. split; [done|].
      by apply IH.
Qed.

(** The number of tiles along an axis, as [_get_tiling] computes it *)
Definition n_tiles (sh tsh : Z) : Z :=
  if sh `mod` tsh =? 0 then sh `div` tsh else sh `div` tsh + 1.

Lemma n_tiles_along_Ok (sh tsh : Z) : tsh ≠ 0 → n_tiles_along sh tsh = Ok (n_tiles sh tsh).
Proof.
  intros H. unfold n_tiles_along, py_mod, py_floordiv, n_tiles.
  destruct (Z.eqb_spec tsh 0); [done|]. done.
Qed.

(** The spatial axes of an array with their lengths, in the order of the
    axes *)
Definition spatial_part (shape : list Z) (axes : list string) : list (Z * string) :=
  filter (λ sa : Z * string, spatial sa.2) (zip shape axes).

Lemma spatial_part_axes (shape : list Z) (axes : list string) :
  length shape = length axes →
  (spatial_part shape axes).*2 = filter (λ ax, spatial ax) axes.
Proof.
  unfold spatial_part. revert shape.
  induction axes as [|ax axes IH]; intros [|sh shape] Hl; simpl in *; try done.
  rewrite !filter_cons. simpl. destruct (decide (spatial ax)); simpl; rewrite IH by lia; done.
Qed.

Lemma spatial_part_lookup (shape : list Z) (axes : list string) j sh ax :
  spatial_part shape axes !! j = Some (sh, ax) →
  spatial ax = true ∧ ∃ k, axes !! k = Some ax ∧ shape !! k = Some sh.
Proof.
  intros H. apply list_elem_of_lookup_2, list_elem_of_filter in H as [Hs Hin].
  split; [by apply Is_true_eq_true|].
  apply list_elem_of_lookup in Hin as [k Hk].
  apply lookup_zip_with_Some in Hk as (x & y & [= <- <-] & H1 & H2). eauto.
Qed.

Lemma spatial_part_elem (shape : list Z) (axes : list string) k sh ax :
  axes !! k = Some ax → shape !! k = Some sh → spatial ax = true →
  ∃ j, spatial_part shape axes !! j = Some (sh, ax).
Proof.
  intros Hax Hsh Hs. apply list_elem_of_lookup, list_elem_of_filter. split.
  - by apply Is_true_eq_left.
  - apply list_elem_of_lookup. exists k. by apply lookup_zip_pair.
Qed.

Section plan.
Context (shp : list Z) (tile_shape halo : gmap string Z) (input_axes : list string).

(** A call of [_get_tiling] on a labelled shape: one label per axis, the
    labels distinct, and for every spatial axis a positive tile extent and
    a halo. *)
Definition tiling_ok : Prop :=
  length shp = length input_axes ∧ NoDup input_axes ∧
  ∀ ax, ax ∈ input_axes → spatial ax = true →
    (∃ tsh, tile_shape !! ax = Some tsh ∧ 0 < tsh) ∧ is_Some (halo !! ax).

Definition spatial_axes_ : list string := (spatial_part shp input_axes).*2.
Definition shape_ : list Z := (spatial_part shp input_axes).*1.
Definition tile_shape_ : list Z := (λ ax, default 0 (tile_shape !! ax)) <$> spatial_axes_.
Definition halo_ : list Z := (λ ax, default 0 (halo !! ax)) <$> spatial_axes_.
Definition counts_ : list Z := (λ st : Z * Z, n_tiles st.1 st.2) <$> zip shape_ tile_shape_.

(** The index vectors of the tiles, in the order of the tile sequence *)
Definition start_points : list (list Z) := product (py_range <$> counts_).

Lemma spatial_axes_spec ax :
  ax ∈ spatial_axes_ → ax ∈ input_axes ∧ spatial ax = true.
Proof.
  intros Hin. apply list_elem_of_fmap in Hin as ([sh ax'] & -> & Hin).
  apply list_elem_of_lookup in Hin as [j Hj].
  apply spatial_part_lookup in Hj as (Hs & k & Hk & _).
  split; [|done]. by eapply list_elem_of_lookup_2.
Qed.

Lemma plan_lengths :
  length shape_ = length spatial_axes_ ∧ length tile_shape_ = length spatial_axes_ ∧
  length halo_ = length spatial_axes_ ∧ length counts_ = length spatial_axes_.
Proof.
  unfold counts_, tile_shape_, halo_, shape_, spatial_axes_.
  rewrite !length_fmap, length_zip_with, !length_fmap. lia.
Qed.

Lemma start_point_spec sp :
  sp ∈ start_points →
  length sp = length spatial_axes_ ∧
  ∀ j i, sp !! j = Some i → ∃ n, counts_ !! j = Some n ∧ 0 ≤ i < n.
Proof.
  intros Hsp. apply elem_of_product in Hsp. split.
  - rewrite (Forall2_length _ _ _ Hsp), length_fmap. apply plan_lengths.
  - intros j i Hi. destruct (Forall2_lookup_l _ _ _ _ _ Hsp Hi) as (r & Hr & Hin).
    rewrite list_lookup_fmap in Hr.
    destruct (counts_ !! j) as [n|]; [|done]. injection Hr as <-.
    exists n. split; [done|]. unfold py_range in Hin. apply elem_of_seqZ in Hin. lia.
Qed.

Lemma get_tiling_spec :
  tiling_ok →
  ∃ tiles, _get_tiling shp tile_shape halo input_axes = Ok tiles ∧
           Forall2 (λ sp t, tile_windows spatial_axes_ tile_shape_ shape_ halo_ t sp)
                   start_points tiles.
Proof.
  intros (Hlen & Hnd & Hkeys).
  destruct plan_lengths as (Hl1 & Hl2 & Hl3 & Hl4).
  unfold _get_tiling.
  rewrite (bool_decide_eq_true_2 (length shp = length input_axes)) by done.
  cbn [py_assert mbind result_bind].
  rewrite <- (spatial_part_axes shp input_axes) by done.
  change (filter (λ sa : Z * string, spatial sa.2) (zip shp input_axes))
    with (spatial_part shp input_axes).
  fold spatial_axes_ shape_.
  rewrite (for_each_total (getitem tile_shape) (λ ax, default 0 (tile_shape !! ax))).
  2:{ intros ax Hin. destruct (spatial_axes_spec ax Hin) as [Ha Hs].
      destruct (Hkeys ax Ha Hs) as [(tsh & Ht & _) _]. unfold getitem. by rewrite Ht. }
  cbn [mbind result_bind].
  rewrite (for_each_total (getitem halo) (λ ax, default 0 (halo !! ax))).
  2:{ intros ax Hin. destruct (spatial_axes_spec ax Hin) as [Ha Hs].
      destruct (Hkeys ax Ha Hs) as [_ [ha Hh]]. unfold getitem. by rewrite Hh. }
  cbn [mbind result_bind]. fold tile_shape_ halo_.
  rewrite bool_decide_eq_true_2 by (split; [|split]; congruence).
  cbn [py_assert mbind result_bind].
  unfold tile_counts. rewrite (for_each_total _ (λ st : Z * Z, n_tiles st.1 st.2)).
  2:{ intros [sh tsh] Hin. apply n_tiles_along_Ok. cbn [snd].
      apply list_elem_of_lookup in Hin as [j Hj].
      apply lookup_zip_with_Some in Hj as (x & y & [= <- <-] & _ & Hy).
      unfold tile_shape_ in Hy. rewrite list_lookup_fmap in Hy.
      destruct (spatial_axes_ !! j) as [ax|] eqn:Hax; [|done]. injection Hy as <-.
      destruct (spatial_axes_spec ax) as [Ha Hs]; [by eapply list_elem_of_lookup_2|].
      destruct (Hkeys ax Ha Hs) as [(tsh & Ht & Hpos) _]. rewrite Ht. simpl. lia. }
  cbn [mbind result_bind]. fold counts_ start_points.
  apply for_each_related. intros sp Hsp.
  destruct (start_point_spec sp Hsp) as [Hlsp _].
  apply make_tile_spec; try done.
  - unfold spatial_axes_. rewrite spatial_part_axes by done. by apply NoDup_filter.
  - apply Forall_forall. intros ax Hin. by apply spatial_axes_spec.
Qed.
End plan.

Section plan_facts.
Context (shp : list Z) (tile_shape halo : gmap string Z) (input_axes : list string).
Hypothesis call_ok : tiling_ok shp tile_shape halo input_axes.

(** A spatial axis of the array is one of the axes of the plan. *)
Lemma plan_axis k ax sh tsh ha :
  input_axes !! k = Some ax → spatial ax = true → shp !! k = Some sh →
  tile_shape !! ax = Some tsh → halo !! ax = Some ha →
  ∃ j, spatial_axes_ shp input_axes !! j = Some ax ∧
       shape_ shp input_axes !! j = Some sh ∧
       tile_shape_ shp tile_shape input_axes !! j = Some tsh ∧
       halo_ shp halo input_axes !! j = Some ha ∧
       counts_ shp tile_shape input_axes !! j = Some (n_tiles sh tsh).
Proof.
  intros Hax Hs Hsh Ht Hh.
  destruct (spatial_part_elem shp input_axes k sh ax Hax Hsh Hs) as [j Hj].
  exists j.
  assert (spatial_axes_ shp input_axes !! j = Some ax) as H1.
  { unfold spatial_axes_. by rewrite list_lookup_fmap, Hj. }
  assert (shape_ shp input_axes !! j = Some sh) as H2.
  { unfold shape_. by rewrite list_lookup_fmap, Hj. }
  assert (tile_shape_ shp tile_shape input_axes !! j = Some tsh) as H3.
  { unfold tile_shape_. by rewrite list_lookup_fmap, H1; simpl; rewrite Ht. }
  repeat (split; [done|]). split.
  - unfold halo_. by rewrite list_lookup_fmap, H1; simpl; rewrite Hh.
  - unfold counts_. by rewrite list_lookup_fmap, lookup_zip_with, H2, H3.
Qed.

(** Conversely, an axis of the plan is a spatial axis of the array. *)
Lemma plan_axis_inv j ax :
  spatial_axes_ shp input_axes !! j = Some ax →
  ∃ k sh tsh ha,
    input_axes !! k = Some ax ∧ spatial ax = true ∧ shp !! k = Some sh ∧
    tile_shape !! ax = Some tsh ∧ 0 < tsh ∧ halo !! ax = Some ha ∧
    shape_ shp input_axes !! j = Some sh ∧
    tile_shape_ shp tile_shape input_axes !! j = Some tsh ∧
    halo_ shp halo input_axes !! j = Some ha ∧
    counts_ shp tile_shape input_axes !! j = Some (n_tiles sh tsh).
Proof.
  intros Hj. unfold spatial_axes_ in Hj. rewrite list_lookup_fmap in Hj.
  destruct (spatial_part shp input_axes !! j) as [[sh ax']|] eqn:HF; [|done].
  injection Hj as ->.
  destruct (spatial_part_lookup _ _ _ _ _ HF) as (Hs & k & Hk & Hsh).
  destruct call_ok as (_ & _ & Hkeys).
  destruct (Hkeys ax) as [(tsh & Ht & Hpos) [ha Hh]]; [by eapply list_elem_of_lookup_2|done|].
  exists k, sh, tsh, ha. repeat (split; [done|]).
  assert (spatial_axes_ shp input_axes !! j = Some ax) as H1.
  { unfold spatial_axes_. by rewrite list_lookup_fmap, HF. }
  assert (shape_ shp input_axes !! j = Some sh) as H2.
  { unfold shape_. by rewrite list_lookup_fmap, HF. }
  assert (tile_shape_ shp tile_shape input_axes !! j = Some tsh) as H3.
  { unfold tile_shape_. by rewrite list_lookup_fmap, H1; simpl; rewrite Ht. }
  repeat (split; [done|]). split.
  - unfold halo_. by rewrite list_lookup_fmap, H1; simpl; rewrite Hh.
  - unfold counts_. by rewrite list_lookup_fmap, lookup_zip_with, H2, H3.
Qed.

Lemma spatial_axes_distinct : NoDup (spatial_axes_ shp input_axes).
Proof.
  destruct call_ok as (Hlen & Hnd & _). unfold spatial_axes_.
  rewrite spatial_part_axes by done. by apply NoDup_filter.
Qed.

(** The windows of one tile of the plan, axis by axis *)
Lemma tile_axis_windows t sp k ax sh tsh ha :
  tile_windows (spatial_axes_ shp input_axes) (tile_shape_ shp tile_shape input_axes)
               (shape_ shp input_axes) (halo_ shp halo input_axes) t sp →
  sp ∈ start_points shp tile_shape input_axes →
  input_axes !! k = Some ax → spatial ax = true → shp !! k = Some sh →
  tile_shape !! ax = Some tsh → halo !! ax = Some ha →
  ∃ j i, spatial_axes_ shp input_axes !! j = Some ax ∧ sp !! j = Some i ∧
         0 ≤ i < n_tiles sh tsh ∧
         outer_tile t !! ax = Some (outer_slice (i * tsh) tsh sh ha) ∧
         inner_tile t !! ax = Some (inner_slice (i * tsh) tsh sh) ∧
         local_tile t !! ax = Some (local_window (i * tsh) tsh sh ha).
Proof.
  intros [Hw _] Hsp Hax Hs Hsh Ht Hh.
  destruct (plan_axis k ax sh tsh ha Hax Hs Hsh Ht Hh) as (j & H1 & H2 & H3 & H4 & H5).
  destruct (start_point_spec shp tile_shape halo input_axes sp Hsp) as [Hl Hr].
  destruct (lookup_lt_is_Some_2 sp j) as [i Hi].
  { rewrite Hl. by eapply lookup_lt_Some. }
  destruct (Hr j i Hi) as (n & Hn & Hin). rewrite H5 in Hn. injection Hn as <-.
  exists j, i. repeat (split; [done|]). by apply (Hw j ax i tsh sh ha).
Qed.
End plan_facts.

Lemma get_tiling_tile shp tile_shape halo input_axes tiles n t :
  tiling_ok shp tile_shape halo input_axes →
  _get_tiling shp tile_shape halo input_axes = Ok tiles →
  tiles !! n = Some t →
  ∃ sp, start_points shp tile_shape input_axes !! n = Some sp ∧
        sp ∈ start_points shp tile_shape input_axes ∧
        tile_windows (spatial_axes_ shp input_axes) (tile_shape_ shp tile_shape input_axes)
                     (shape_ shp input_axes) (halo_ shp halo input_axes) t sp.
Proof.
  intros Hok Hget Ht.
  destruct (get_tiling_spec shp tile_shape halo input_axes Hok) as (tiles' & Hget' & HF).
  rewrite Hget in Hget'. injection Hget' as <-.
  destruct (Forall2_lookup_r _ _ _ _ _ HF Ht) as (sp & Hsp & Hw).
  exists sp. split; [done|]. split; [|done]. by eapply list_elem_of_lookup_2.
Qed.

(** ** Tile windows *)

(** C6.  For a labelled shape with distinct labels, a positive tile extent
    and a halo for every spatial axis, [_get_tiling] yields one tile per
    index vector, in the order of the index vectors; on a spatial axis of
    length [sh], tile extent [tsh] and halo [ha], for the index [i] of the
    tile on that axis and [pos = i * tsh]:
    outer = [max(pos - ha, 0), min(pos + tsh + ha, sh)),
    inner = [pos, min(pos + tsh, sh)), and local starts at
    inner.start - outer.start and is open-ended exactly when outer.stop =
    inner.stop, ending at -(outer.stop - inner.stop) otherwise.  For the
    spatial shape (10,), tile extent 4 and halo 2 there are 3 tiles, with
    inner windows [0,4), [4,8), [8,10), the first outer window [0,6) and the
    last [6,10). *)
Theorem tile_window_formulas :
  (∀ shp tile_shape halo input_axes,
     tiling_ok shp tile_shape halo input_axes →
     ∃ tiles,
       _get_tiling shp tile_shape halo input_axes = Ok tiles ∧
       length tiles = length (start_points shp tile_shape input_axes) ∧
       ∀ n t, tiles !! n = Some t →
         ∃ sp, start_points shp tile_shape input_axes !! n = Some sp ∧
           ∀ k ax sh tsh ha,
             input_axes !! k = Some ax → spatial ax = true → shp !! k = Some sh →
             tile_shape !! ax = Some tsh → halo !! ax = Some ha →
             ∃ j i, spatial_axes_ shp input_axes !! j = Some ax ∧ sp !! j = Some i ∧
               0 ≤ i < n_tiles sh tsh ∧
               outer_tile t !! ax
               = Some (Slice (Some (Z.max (i * tsh - ha) 0))
                             (Some (Z.min (i * tsh + tsh + ha) sh))) ∧
               inner_tile t !! ax
               = Some (Slice (Some (i * tsh)) (Some (Z.min (i * tsh + tsh) sh))) ∧
               local_tile t !! ax
               = Some (Slice (Some (i * tsh - Z.max (i * tsh - ha) 0))
                             (if decide (Z.min (i * tsh + tsh + ha) sh
                                         = Z.min (i * tsh + tsh) sh)
                              then None
                              else Some (- (Z.min (i * tsh + tsh + ha) sh
                                            - Z.min (i * tsh + tsh) sh))))) ∧
  (∃ t1 t2 t3,
     _get_tiling [1; 1; 10] (dict_of [("x", 4)]) (dict_of [("x", 2)]) ["b"; "c"; "x"]
     = Ok [t1; t2; t3] ∧
     inner_tile t1 !! "x" = Some (Slice (Some 0) (Some 4)) ∧
     inner_tile t2 !! "x" = Some (Slice (Some 4) (Some 8)) ∧
     inner_tile t3 !! "x" = Some (Slice (Some 8) (Some 10)) ∧
     outer_tile t1 !! "x" = Some (Slice (Some 0) (Some 6)) ∧
     outer_tile t3 !! "x" = Some (Slice (Some 6) (Some 10))).
Proof.
  split.
  - intros shp tile_shape halo input_axes Hok.
    destruct (get_tiling_spec shp tile_shape halo input_axes Hok) as (tiles & Hget & HF).
    exists tiles. split; [done|]. split; [symmetry; by eapply Forall2_length|].
    intros n t Ht.
    destruct (get_tiling_tile _ _ _ _ _ _ _ Hok Hget Ht) as (sp & Hsp & Hin & Hw).
    exists sp. split; [done|]. intros k ax sh tsh ha Hax Hs Hsh Htsh Hha.
    destruct (tile_axis_windows shp tile_shape halo input_axes t sp k ax sh tsh ha
                Hw Hin Hax Hs Hsh Htsh Hha)
      as (j & i & H1 & H2 & H3 & Ho & Hi & Hl).
    exists j, i. repeat (split; [done|]). done.
  - eexists _, _, _. split; [vm_compute; reflexivity|]. repeat split.
Qed.

Lemma tiling_example_ok :
  tiling_ok [1; 1; 10] (dict_of [("x", 4)]) (dict_of [("x", 2)]) ["b"; "c"; "x"].
Proof.
  split; [done|]. split; [apply (bool_decide_unpack _); by vm_compute|].
  intros ax Ha Hs. each_axis Ha; try (by vm_compute in Hs).
  split; [exists 4; split; [reflexivity|lia]|by eexists].
Qed.

Lemma tile_window_formulas_witness :
  ∃ tiles,
    _get_tiling [1; 1; 10] (dict_of [("x", 4)]) (dict_of [("x", 2)]) ["b"; "c"; "x"]
    = Ok tiles ∧
    length tiles
    = length (start_points [1; 1; 10] (dict_of [("x", 4)]) ["b"; "c"; "x"]) ∧
    ∀ n t, tiles !! n = Some t →
      ∃ sp, start_points [1; 1; 10] (dict_of [("x", 4)]) ["b"; "c"; "x"] !! n = Some sp ∧
        ∀ k ax sh tsh ha,
          ["b"; "c"; "x"] !! k = Some ax → spatial ax = true →
          [1; 1; 10] !! k = Some sh →
          (dict_of [("x", 4)] : gmap string Z) !! ax = Some tsh →
          (dict_of [("x", 2)] : gmap string Z) !! ax = Some ha →
          ∃ j i, spatial_axes_ [1; 1; 10] ["b"; "c"; "x"] !! j = Some ax ∧
            sp !! j = Some i ∧ 0 ≤ i < n_tiles sh tsh ∧
            outer_tile t !! ax
            = Some (Slice (Some (Z.max (i * tsh - ha) 0))
                          (Some (Z.min (i * tsh + tsh + ha) sh))) ∧
            inner_tile t !! ax
            = Some (Slice (Some (i * tsh)) (Some (Z.min (i * tsh + tsh) sh))) ∧
            local_tile t !! ax
            = Some (Slice (Some (i * tsh - Z.max (i * tsh - ha) 0))
                          (if decide (Z.min (i * tsh + tsh + ha) sh
                                      = Z.min (i * tsh + tsh) sh)
                           then None
                           else Some (- (Z.min (i * tsh + tsh + ha) sh
                                         - Z.min (i * tsh + tsh) sh)))).
Proof.
  apply (proj1 tile_window_formulas). exact tiling_example_ok.
Defined.

(** ** Partition *)

(** A spatial position gives a coordinate to every axis label; it lies in
    the inner window of a tile on an axis when the window has it between its
    bounds. *)
Definition in_inner (p : string → Z) (t : tile) (ax : string) : Prop :=
  match inner_tile t !! ax with
  | Some (Slice (Some lo) (Some hi)) => lo ≤ p ax < hi
  | _ => False
  end.

#[global] Instance in_inner_dec p t ax : Decision (in_inner p t ax).
Proof.
  unfold in_inner. destruct (inner_tile t !! ax) as [[[lo|] [hi|]]|]; apply _.
Defined.

(** The tile covers the position: on every spatial axis of the array the
    position lies in the inner window. *)
Definition covers (p : string → Z) (input_axes : list string) (t : tile) : Prop :=
  Forall (in_inner p t) (filter (λ ax, spatial ax) input_axes).

#[global] Instance covers_dec p input_axes t : Decision (covers p input_axes t).
Proof. unfold covers. apply _. Defined.

Lemma filter_none {A : Type} (P : A → Prop) `{!∀ x, Decision (P x)} (l : list A) :
  (∀ x, x ∈ l → ¬ P x) → filter P l = [].
Proof.
  induction l as [|x l IH]; intros Hno; [done|].
  rewrite filter_cons_False by (apply Hno; left). apply IH. intros y Hy. apply Hno. by right.
Qed.

Lemma filter_unique {A : Type} (P : A → Prop) `{!∀ x, Decision (P x)} (l : list A) (q : A) :
  NoDup l → q ∈ l → (∀ x, x ∈ l → P x ↔ x = q) → length (filter P l) = 1%nat.
Proof.
  induction l as [|x l IH]; intros Hnd Hq HP; [by apply elem_of_nil in Hq|].
  apply NoDup_cons in Hnd as [Hx Hnd]. rewrite filter_cons.
  destruct (decide (P x)) as [HPx|HPx].
  - apply HP in HPx as ->; [|left]. simpl. f_equal.
    rewrite filter_none; [done|]. intros y Hy HPy.
    apply HP in HPy as ->; [done|by right].
  - apply elem_of_cons in Hq as [->|Hq].
    + exfalso. apply HPx. apply HP; [left|done].
    + apply IH; [done..|]. intros y Hy. apply HP. by right.
Qed.

Lemma filter_Forall2_length {A B : Type} (R : A → B → Prop) (P : B → Prop) (Q : A → Prop)
    `{!∀ y, Decision (P y)} `{!∀ x, Decision (Q x)} (xs : list A) (ys : list B) :
  Forall2 R xs ys → (∀ x y, x ∈ xs → R x y → (P y ↔ Q x)) →
  length (filter P ys) = length (filter Q xs).
Proof.
  induction 1 as [|x y xs ys HR HF IH]; intros HPQ; [done|].
  rewrite !filter_cons.
  assert (length (filter P ys) = length (filter Q xs)) as Hl.
  { apply IH. intros x' y' Hx'. apply HPQ. by right. }
  destruct (decide (P y)) as [HP|HP]; destruct (decide (Q x)) as [HQ|HQ]; simpl.
  - by rewrite Hl.
  - exfalso. apply HQ. apply (HPQ x y); [left|done..].
  - exfalso. apply HP. apply (HPQ x y); [left|done..].
  - done.
Qed.

Lemma length_product {A : Type} (ls : list (list A)) :
  length (product ls) = foldr (λ l n, (length l * n)%nat) 1%nat ls.
Proof.
  induction ls as [|l ls IH]; [done|]. simpl. rewrite <- IH.
  generalize (product ls). intros L. induction l as [|x l IHl]; [done|].
  rewrite bind_cons, length_app, length_fmap, IHl. simpl. lia.
Qed.

(** [n_tiles sh tsh] is the ceiling of [sh / tsh]. *)
Lemma n_tiles_ceil (sh tsh : Z) :
  0 < tsh → (n_tiles sh tsh - 1) * tsh < sh ≤ n_tiles sh tsh * tsh.
Proof.
  intros Ht. unfold n_tiles.
  pose proof (Z.div_mod sh tsh ltac:(lia)) as Hdm.
  pose proof (Z.mod_pos_bound sh tsh Ht) as Hm.
  destruct (Z.eqb_spec (sh `mod` tsh) 0) as [H0|H0]; nia.
Qed.

Lemma n_tiles_nonneg (sh tsh : Z) : 0 < tsh → 0 ≤ sh → 0 ≤ n_tiles sh tsh.
Proof.
  intros Ht Hs. unfold n_tiles. pose proof (Z.div_pos sh tsh Hs Ht).
  destruct (_ =? _); lia.
Qed.

(** The index [i] along the axis [g = (ax, (sh, tsh))] whose inner window
    holds the position *)
Definition in_range (p : string → Z) (g : string * (Z * Z)) (i : Z) : Prop :=
  i * g.2.2 ≤ p g.1 < Z.min (i * g.2.2 + g.2.2) g.2.1.

#[global] Instance in_range_dec p g i : Decision (in_range p g i).
Proof. unfold in_range. apply _. Defined.

Lemma one_tile_along (p : string → Z) (ax : string) (sh tsh : Z) :
  0 < tsh → 0 ≤ p ax < sh →
  length (filter (in_range p (ax, (sh, tsh))) (py_range (n_tiles sh tsh))) = 1%nat.
Proof.
  intros Ht Hp. pose proof (n_tiles_ceil sh tsh Ht) as Hc.
  pose proof (Z.div_mod (p ax) tsh ltac:(lia)) as Hdm.
  pose proof (Z.mod_pos_bound (p ax) tsh Ht) as Hm.
  apply (filter_unique _ _ (p ax `div` tsh)).
  - apply NoDup_seqZ.
  - unfold py_range. apply elem_of_seqZ. split; [apply Z.div_pos; lia|]. nia.
  - intros x _. unfold in_range. cbn [fst snd]. split.
    + intros [H1 H2]. nia.
    + intros ->. nia.
Qed.

Lemma count_with_head (p : string → Z) (g : string * (Z * Z))
    (gs : list (string * (Z * Z))) (x : Z) (L : list (list Z)) :
  length (filter (λ sp, Forall2 (λ i g0, in_range p g0 i) sp (g :: gs)) (cons x <$> L))
  = if decide (in_range p g x)
    then length (filter (λ sp, Forall2 (λ i g0, in_range p g0 i) sp gs) L)
    else 0%nat.
Proof.
  destruct (decide (in_range p g x)) as [Hx|Hx].
  - induction L as [|sp L IHL]; [done|].
    rewrite fmap_cons, !filter_cons.
    destruct (decide (Forall2 _ (x :: sp) (g :: gs))) as [H1|H1];
      destruct (decide (Forall2 _ sp gs)) as [H2|H2]; simpl; rewrite IHL; try done.
    + exfalso. apply H2. by inversion H1.
    + exfalso. apply H1. by constructor.
  - rewrite filter_none; [done|]. intros sp' Hsp' HF'.
    apply list_elem_of_fmap in Hsp' as (sp & -> & _). inversion HF'. done.
Qed.

Lemma one_tile_in_product (p : string → Z) (gs : list (string * (Z * Z)))
    (rs : list (list Z)) :
  Forall2 (λ g r, length (filter (in_range p g) r) = 1%nat) gs rs →
  length (filter (λ sp, Forall2 (λ i g, in_range p g i) sp gs) (product rs)) = 1%nat.
Proof.
  induction 1 as [|g r gs rs Hr HF IH]; simpl.
  - done.
  - rewrite <- Hr. clear Hr.
    induction r as [|x r IHr]; [done|].
    rewrite bind_cons, filter_app, length_app, IHr, (filter_cons _ x r).
    rewrite count_with_head, IH.
    destruct (decide (in_range p g x)); simpl; lia.
Qed.

Section partition.
Context (shp : list Z) (tile_shape halo : gmap string Z) (input_axes : list string).
Hypothesis call_ok : tiling_ok shp tile_shape halo input_axes.

(** The spatial axes of the plan with their length and tile extent *)
Definition plan_axes : list (string * (Z * Z)) :=
  zip (spatial_axes_ shp input_axes)
      (zip (shape_ shp input_axes) (tile_shape_ shp tile_shape input_axes)).

Lemma plan_axes_length : length plan_axes = length (spatial_axes_ shp input_axes).
Proof.
  destruct (plan_lengths shp tile_shape halo input_axes) as (H1 & H2 & _).
  unfold plan_axes. rewrite !length_zip_with. lia.
Qed.

Lemma plan_axes_lookup j ax sh tsh :
  plan_axes !! j = Some (ax, (sh, tsh)) →
  spatial_axes_ shp input_axes !! j = Some ax ∧
  shape_ shp input_axes !! j = Some sh ∧
  tile_shape_ shp tile_shape input_axes !! j = Some tsh.
Proof. intros H. by apply lookup_zip3 in H. Qed.

Lemma covers_iff (p : string → Z) (t : tile) (sp : list Z) :
  tile_windows (spatial_axes_ shp input_axes) (tile_shape_ shp tile_shape input_axes)
               (shape_ shp input_axes) (halo_ shp halo input_axes) t sp →
  sp ∈ start_points shp tile_shape input_axes →
  covers p input_axes t ↔ Forall2 (λ i g, in_range p g i) sp plan_axes.
Proof.
  intros [Hw _] Hsp.
  destruct (start_point_spec shp tile_shape halo input_axes sp Hsp) as [Hlsp _].
  destruct (plan_lengths shp tile_shape halo input_axes) as (Hl1 & Hl2 & Hl3 & _).
  destruct call_ok as (Hlen & _ & _).
  unfold covers. rewrite <- (spatial_part_axes shp input_axes) by done.
  fold (spatial_axes_ shp input_axes).
  assert (∀ j ax i sh tsh,
            spatial_axes_ shp input_axes !! j = Some ax → sp !! j = Some i →
            shape_ shp input_axes !! j = Some sh →
            tile_shape_ shp tile_shape input_axes !! j = Some tsh →
            in_inner p t ax ↔ in_range p (ax, (sh, tsh)) i) as Hiff.
  { intros j ax i sh tsh Hax Hi Hsh Ht.
    destruct (lookup_lt_is_Some_2 (halo_ shp halo input_axes) j) as [ha Hh].
    { rewrite Hl3. by eapply lookup_lt_Some. }
    destruct (Hw j ax i tsh sh ha Hax Hi Ht Hsh Hh) as (_ & Hin & _).
    unfold in_inner, in_range. rewrite Hin. done. }
  split.
  - intros HF. apply Forall2_same_length_lookup_2.
    { rewrite plan_axes_length. done. }
    intros j i [ax [sh tsh]] Hi Hg.
    apply plan_axes_lookup in Hg as (H1 & H2 & H3).
    apply (Hiff j ax i sh tsh); [done..|].
    by eapply (proj1 (Forall_lookup _ _) HF).
  - intros HF. apply Forall_lookup. intros j ax Hax.
    pose proof (lookup_lt_Some _ _ _ Hax) as Hj.
    destruct (lookup_lt_is_Some_2 sp j) as [i Hi]; [lia|].
    destruct (lookup_lt_is_Some_2 (shape_ shp input_axes) j) as [sh Hsh]; [lia|].
    destruct (lookup_lt_is_Some_2 (tile_shape_ shp tile_shape input_axes) j)
      as [tsh Ht]; [lia|].
    apply (Hiff j ax i sh tsh); [done..|].
    assert (plan_axes !! j = Some (ax, (sh, tsh))) as Hg by (by apply lookup_zip3).
    apply (Forall2_lookup_lr _ _ _ _ _ _ HF Hi Hg).
Qed.

(** Every position inside the spatial extent lies in the inner window of
    exactly one tile of the sequence. *)
Lemma covered_once (tiles : list tile) (p : string → Z) :
  _get_tiling shp tile_shape halo input_axes = Ok tiles →
  (∀ k ax sh, input_axes !! k = Some ax → spatial ax = true → shp !! k = Some sh →
              0 ≤ p ax < sh) →
  length (filter (covers p input_axes) tiles) = 1%nat.
Proof.
  intros Hget Hp.
  destruct (get_tiling_spec shp tile_shape halo input_axes call_ok) as (tiles' & Hget' & HF).
  rewrite Hget in Hget'. injection Hget' as <-.
  rewrite (filter_Forall2_length
             (λ sp t, sp ∈ start_points shp tile_shape input_axes ∧
                      tile_windows (spatial_axes_ shp input_axes)
                        (tile_shape_ shp tile_shape input_axes)
                        (shape_ shp input_axes) (halo_ shp halo input_axes) t sp)
             _ (λ sp, Forall2 (λ i g, in_range p g i) sp plan_axes)
             (start_points shp tile_shape input_axes) tiles).
  - apply one_tile_in_product. apply Forall2_same_length_lookup_2.
    { rewrite plan_axes_length, length_fmap.
      symmetry. apply (plan_lengths shp tile_shape halo input_axes). }
    intros j [ax [sh tsh]] r Hg Hr.
    apply plan_axes_lookup in Hg as (H1 & H2 & H3).
    destruct (plan_axis_inv shp tile_shape halo input_axes call_ok j ax H1)
      as (k & sh' & tsh' & ha & Hk & Hs & Hsh & Ht & Hpos & Hh & H2' & H3' & _ & Hc).
    simplify_eq. rewrite list_lookup_fmap, Hc in Hr. injection Hr as <-.
    apply one_tile_along; [done|]. by apply (Hp k).
  - apply Forall2_same_length_lookup_2; [by eapply Forall2_length|].
    intros n sp t Hsp Ht. split; [by eapply list_elem_of_lookup_2|].
    by apply (Forall2_lookup_lr _ _ _ _ _ _ HF Hsp Ht).
  - intros sp t _ [Hsp Hw]. by apply covers_iff.
Qed.
End partition.

Lemma product_of_counts (ns : list Z) :
  Forall (λ n, 0 ≤ n) ns →
  Z.of_nat (length (product (py_range <$> ns))) = foldr Z.mul 1 ns.
Proof.
  intros H. rewrite length_product. induction H as [|n ns Hn HF IH]; [done|].
  rewrite fmap_cons. cbn [foldr]. rewrite Nat2Z.inj_mul, IH.
  unfold py_range. rewrite length_seqZ. lia.
Qed.

(** The extent of the inner window of a tile on an axis, and the number of
    spatial positions that the inner windows of a tile hold *)
Definition inner_extent (t : tile) (ax : string) : Z :=
  match inner_tile t !! ax with
  | Some (Slice (Some lo) (Some hi)) => hi - lo
  | _ => 0
  end.

Definition inner_area (input_axes : list string) (t : tile) : Z :=
  foldr Z.mul 1 (inner_extent t <$> filter (λ ax, spatial ax) input_axes).

(** The position (y, x) of an image *)
Definition at_yx (y x : Z) : string → Z := λ ax, if decide (ax = "y") then y else x.

(** C2.  For a labelled shape with distinct labels and non-negative
    extents, a positive tile extent and a halo for every spatial axis: the
    tile sequence of [_get_tiling] has, along every spatial axis, as many
    tile indices as the ceiling of extent / tile extent (their product is
    the number of tiles), and every spatial position lies in the inner
    windows of exactly one tile of the sequence: none is missed and none is
    written twice.  For the shape (9,9), tile (4,4) and halo (1,1) there are
    9 tiles, their inner windows hold 81 positions in total, and each of the
    81 positions lies in exactly one of them. *)
Theorem tile_plan_partition :
  (∀ shp tile_shape halo input_axes,
     tiling_ok shp tile_shape halo input_axes →
     Forall (λ n, 0 ≤ n) shp →
     ∃ tiles,
       _get_tiling shp tile_shape halo input_axes = Ok tiles ∧
       (∀ p : string → Z,
          (∀ k ax sh, input_axes !! k = Some ax → spatial ax = true →
                      shp !! k = Some sh → 0 ≤ p ax < sh) →
          length (filter (covers p input_axes) tiles) = 1%nat) ∧
       Z.of_nat (length tiles) = foldr Z.mul 1 (counts_ shp tile_shape input_axes) ∧
       (∀ k ax sh tsh,
          input_axes !! k = Some ax → spatial ax = true → shp !! k = Some sh →
          tile_shape !! ax = Some tsh →
          ∃ j n, spatial_axes_ shp input_axes !! j = Some ax ∧
                 counts_ shp tile_shape input_axes !! j = Some n ∧
                 (n - 1) * tsh < sh ≤ n * tsh)) ∧
  (∃ tiles,
     _get_tiling [9; 9] (dict_of [("y", 4); ("x", 4)]) (dict_of [("y", 1); ("x", 1)])
                 ["y"; "x"] = Ok tiles ∧
     length tiles = 9%nat ∧
     foldr Z.add 0 (inner_area ["y"; "x"] <$> tiles) = 81 ∧
     Forall (λ yx : list Z,
               length (filter (covers (at_yx (yx !!! 0%nat) (yx !!! 1%nat)) ["y"; "x"])
                              tiles) = 1%nat)
            (indices [9; 9]) ∧
     length (indices [9; 9]) = 81%nat).
Proof.
  split.
  - intros shp tile_shape halo input_axes Hok Hnn.
    destruct (get_tiling_spec shp tile_shape halo input_axes Hok) as (tiles & Hget & HF).
    exists tiles. split; [done|]. split; [|split].
    + intros p Hp. by eapply covered_once.
    + rewrite <- (Forall2_length _ _ _ HF). unfold start_points.
      apply product_of_counts. apply Forall_lookup. intros j n Hn.
      destruct (lookup_lt_is_Some_2 (spatial_axes_ shp input_axes) j) as [ax Hax].
      { rewrite <- (proj2 (proj2 (proj2 (plan_lengths shp tile_shape halo input_axes)))).
        by eapply lookup_lt_Some. }
      destruct (plan_axis_inv shp tile_shape halo input_axes Hok j ax Hax)
        as (k & sh & tsh & ha & Hk & Hs & Hsh & Ht & Hpos & Hh & _ & _ & _ & Hc).
      rewrite Hc in Hn. injection Hn as <-. apply n_tiles_nonneg; [done|].
      by eapply (proj1 (Forall_lookup _ _) Hnn).
    + intros k ax sh tsh Hax Hs Hsh Ht.
      destruct Hok as (Hlen & Hnd & Hkeys).
      destruct (Hkeys ax) as [(tsh' & Ht' & Hpos) [ha Hh]];
        [by eapply list_elem_of_lookup_2|done|]. simplify_eq.
      destruct (plan_axis shp tile_shape halo input_axes k ax sh tsh ha Hax Hs Hsh Ht Hh)
        as (j & H1 & _ & _ & _ & Hc).
      exists j, (n_tiles sh tsh). split; [done|]. split; [done|]. by apply n_tiles_ceil.
  - eexists. split; [vm_compute; reflexivity|].
    split; [reflexivity|]. split; [vm_compute; reflexivity|].
    split; [|reflexivity].
    apply (bool_decide_unpack _). vm_compute. reflexivity.
Qed.

Lemma tiling_yx_ok (n t h : Z) :
  0 < t →
  tiling_ok [n; n] (dict_of [("y", t); ("x", t)]) (dict_of [("y", h); ("x", h)]) ["y"; "x"].
Proof.
  intros Ht. split; [done|]. split; [apply (bool_decide_unpack _); by vm_compute|].
  intros ax Ha Hs. each_axis Ha; (split; [exists t; split; [reflexivity|lia]|by eexists]).
Qed.

Lemma tile_plan_partition_witness :
  ∃ tiles,
    _get_tiling [9; 9] (dict_of [("y", 4); ("x", 4)]) (dict_of [("y", 1); ("x", 1)])
                ["y"; "x"] = Ok tiles ∧
    (∀ p : string → Z,
       (∀ k ax sh, ["y"; "x"] !! k = Some ax → spatial ax = true →
                   [9; 9] !! k = Some sh → 0 ≤ p ax < sh) →
       length (filter (covers p ["y"; "x"]) tiles) = 1%nat) ∧
    Z.of_nat (length tiles)
    = foldr Z.mul 1 (counts_ [9; 9] (dict_of [("y", 4); ("x", 4)]) ["y"; "x"]) ∧
    (∀ k ax sh tsh,
       ["y"; "x"] !! k = Some ax → spatial ax = true → [9; 9] !! k = Some sh →
       (dict_of [("y", 4); ("x", 4)] : gmap string Z) !! ax = Some tsh →
       ∃ j n, spatial_axes_ [9; 9] ["y"; "x"] !! j = Some ax ∧
              counts_ [9; 9] (dict_of [("y", 4); ("x", 4)]) ["y"; "x"] !! j = Some n ∧
              (n - 1) * tsh < sh ≤ n * tsh).
Proof.
  apply (proj1 tile_plan_partition).
  - apply tiling_yx_ok. lia.
  - repeat constructor; lia.
Defined.

(** ** The tiled path *)

Lemma tile_padding_spec (tile_shape halo : gmap string Z) (input_axes : list string) :
  NoDup input_axes →
  (∀ ax, ax ∈ input_axes → spatial ax = true →
         is_Some (tile_shape !! ax) ∧ is_Some (halo !! ax)) →
  ∃ padding,
    tile_padding tile_shape halo input_axes = Ok padding ∧
    pad_mode padding = Some "fixed" ∧
    (∀ ax tsh ha, ax ∈ input_axes → spatial ax = true →
       tile_shape !! ax = Some tsh → halo !! ax = Some ha →
       pad_targets padding !! ax = Some (tsh + 2 * ha)) ∧
    (∀ ax, pad_targets padding !! ax ≠ None → ax ∈ input_axes ∧ spatial ax = true).
Proof.
  intros Hnd Hkeys. unfold tile_padding.
  set (g := λ ax : string,
         (ax, default 0 (tile_shape !! ax) + 2 * default 0 (halo !! ax))).
  rewrite (for_each_total _ g).
  2:{ intros ax Hin. apply list_elem_of_filter in Hin as [Hs Hin].
      destruct (Hkeys ax Hin) as [[t Ht] [h Hh]]; [by apply Is_true_eq_true|].
      unfold getitem, g. by rewrite Ht, Hh. }
  cbn [mbind result_bind]. eexists. split; [done|]. split; [done|].
  assert ((g <$> filter (λ ax, spatial ax) input_axes).*1
          = filter (λ ax, spatial ax) input_axes) as Hk.
  { rewrite <- list_fmap_compose. by rewrite list_fmap_id. }
  cbn [pad_targets]. split.
  - intros ax tsh ha Hin Hs Ht Hh.
    rewrite (dict_of_lookup_Some _ ax (tsh + 2 * ha)); [done| |].
    + rewrite Hk. by apply NoDup_filter.
    + apply list_elem_of_fmap. exists ax. split.
      * unfold g. by rewrite Ht, Hh.
      * apply list_elem_of_filter. split; [by apply Is_true_eq_left|done].
  - intros ax Hne.
    destruct (decide (ax ∈ filter (λ ax, spatial ax) input_axes)) as [Hin|Hin].
    + apply list_elem_of_filter in Hin as [Hs Hin]. split; [done|by apply Is_true_eq_true].
    + exfalso. apply Hne. apply dict_of_lookup_None. by rewrite Hk.
Qed.

(** What [load_tile] returns, when it returns *)
Lemma load_tile_sides (input_ : DataArray) (tile : gmap string slice)
    (inp : DataArray) (pr : list (option bool)) (k : nat) (ax : string) :
  load_tile input_ (dims input_) tile = Ok (inp, pr) →
  dims input_ !! k = Some ax →
  if spatial ax
  then ∃ o, tile !! ax = Some o ∧ pr !! k = Some (Some (bool_decide (start o = Some 0)))
  else pr !! k = Some None.
Proof.
  unfold load_tile. intros H Hax.
  apply bind_Ok in H as (inp' & _ & H). apply bind_Ok in H as (pr' & Hpr & [= _ <-]).
  destruct (for_each_lookup _ _ _ _ _ Hpr Hax) as (y & Hy & Hf).
  destruct (spatial ax).
  - apply bind_Ok in Hf as (o & Ho & [= <-]). exists o. split; [|done].
    unfold getitem in Ho. destruct (tile !! ax); by simplify_eq.
  - by injection Hf as <-.
Qed.

Lemma load_tile_returns (input_ : DataArray) (tile : gmap string slice) :
  dom tile ⊆ list_to_set (dims input_) →
  (∀ ax, ax ∈ dims input_ → spatial ax = true → is_Some (tile !! ax)) →
  ∃ pr, load_tile input_ (dims input_) tile
        = Ok (MkDataArray (dims input_)
                (slice_values (values input_)
                   ((λ d, default slice_all (tile !! d)) <$> dims input_)), pr).
Proof.
  intros Hdom Hsp. unfold load_tile, getitem_dict, dict_key.
  rewrite bool_decide_eq_true_2 by done. cbn [mbind result_bind].
  destruct (for_each_related
              (λ ax, if spatial ax
                     then s ← getitem tile ax; Ok (Some (bool_decide (start s = Some 0)))
                     else Ok None)
              (λ _ _, True) (dims input_)) as (pr & -> & _); [|by eexists].
  intros ax Hin. destruct (spatial ax) eqn:Hs; [|by eexists].
  destruct (Hsp ax Hin Hs) as [o Ho]. unfold getitem. rewrite Ho. by eexists.
Qed.

Lemma outer_tile_dom shp tile_shape halo (input_axes : list string) t sp :
  tile_windows (spatial_axes_ shp input_axes) (tile_shape_ shp tile_shape input_axes)
               (shape_ shp input_axes) (halo_ shp halo input_axes) t sp →
  "b" ∈ input_axes → "c" ∈ input_axes →
  dom (outer_tile t) ⊆ list_to_set input_axes ∧
  dom (inner_tile t) ⊆ list_to_set input_axes ∧
  dom (local_tile t) ⊆ list_to_set input_axes.
Proof.
  intros [_ Hother] Hb Hc.
  assert (∀ ax, ax ∉ input_axes →
            outer_tile t !! ax = None ∧ inner_tile t !! ax = None ∧
            local_tile t !! ax = None) as Hno.
  { intros ax Hax.
    assert (ax ∉ spatial_axes_ shp input_axes) as Hns.
    { intros Hin. apply Hax. by apply (spatial_axes_spec shp input_axes). }
    specialize (Hother ax Hns). cbn zeta in Hother.
    rewrite decide_False in Hother; [done|]. intros [-> | ->]; done. }
  repeat split; apply elem_of_subseteq; intros ax Hin; apply elem_of_dom in Hin;
    apply elem_of_list_to_set; destruct (decide (ax ∈ input_axes)) as [|Hn]; try done;
    destruct (Hno ax Hn) as (H1 & H2 & H3); rewrite ?H1, ?H2, ?H3 in Hin;
    by destruct Hin.
Qed.


Lemma tiling_bcyx_ok (sh : list Z) (t h : Z) :
  length sh = 4%nat → 0 < t →
  tiling_ok sh (dict_of [("y", t); ("x", t)]) (dict_of [("y", h); ("x", h)]) bcyx.
Proof.
  intros Hl Ht. split; [done|]. split; [apply (bool_decide_unpack _); by vm_compute|].
  intros ax Ha Hs. each_axis Ha; try (by vm_compute in Hs);
    (split; [exists t; split; [reflexivity|lia]|by eexists]).
Qed.


Lemma load_tile_input (input_ : DataArray) (tile : gmap string slice)
    (inp : DataArray) (pr : list (option bool)) :
  load_tile input_ (dims input_) tile = Ok (inp, pr) →
  inp = MkDataArray (dims input_)
          (slice_values (values input_)
             ((λ d, default slice_all (tile !! d)) <$> dims input_)).
Proof.
  unfold load_tile. intros H.
  apply bind_Ok in H as (inp' & Hi & H). apply bind_Ok in H as (pr' & _ & [= <- _]).
  unfold getitem_dict, dict_key in Hi. destruct (bool_decide _); [|done].
  cbn [mbind result_bind] in Hi. by injection Hi as <-.
Qed.

(** The extent of an axis of a slice of an array *)
Lemma slice_values_shape (a : ndarray) (key : list slice) k n s :
  shape a !! k = Some n → key !! k = Some s →
  shape (slice_values a key) !! k = Some (slice_len s n).
Proof. intros Hn Hs. cbn [slice_values shape]. by rewrite lookup_zip_with, Hn, Hs. Qed.

(** ** Interior tiles *)

(** C8.  On the tiled path, for a tile and a spatial axis on which the outer
    window is clipped at neither end ([pos - ha >= 0] and
    [pos + tsh + ha <= sh] for the position [pos = i * tsh] of the tile):
    the loaded tile has length [tsh + 2 * ha] on that axis, the target of
    the fixed padding, so the loop body of [_pad] computes the widths (0, 0)
    whichever side is selected, and the crop it records selects the whole
    axis either way. *)
Theorem interior_tiles_need_no_padding (input_ : DataArray)
    (tile_shape halo : gmap string Z) (padding : padding_dict) (tiles : list tile)
    (n : nat) (t : tile) (sp : list Z) (inp : DataArray) (pr : list (option bool))
    (k j : nat) (ax : string) (sh tsh ha i : Z) :
  tiling_ok (shape (values input_)) tile_shape halo (dims input_) →
  tile_padding tile_shape halo (dims input_) = Ok padding →
  _get_tiling (shape (values input_)) tile_shape halo (dims input_) = Ok tiles →
  tiles !! n = Some t →
  start_points (shape (values input_)) tile_shape (dims input_) !! n = Some sp →
  load_tile input_ (dims input_) (outer_tile t) = Ok (inp, pr) →
  dims input_ !! k = Some ax → spatial ax = true →
  shape (values input_) !! k = Some sh →
  tile_shape !! ax = Some tsh → halo !! ax = Some ha → 0 ≤ ha →
  spatial_axes_ (shape (values input_)) (dims input_) !! j = Some ax →
  sp !! j = Some i →
  0 ≤ i * tsh - ha → i * tsh + tsh + ha ≤ sh →
  shape (values inp) !! k = Some (tsh + 2 * ha) ∧
  ∀ side : option bool,
    ∃ c, pad_axis "fixed" (pad_targets padding) (ax, (tsh + 2 * ha, side))
         = Ok ((0, 0), (ax, c)) ∧
         slice_indices c (tsh + 2 * ha) = (0, tsh + 2 * ha).
Proof.
  intros Hok Hpad Hget Ht Hsp Hload Hax Hs Hsh Htsh Hha Hha0 Hj Hi Hlo Hhi.
  pose proof Hok as (Hlen & Hnd & Hkeys).
  destruct (Hkeys ax) as [(tsh' & Htsh' & Hpos) _]; [by eapply list_elem_of_lookup_2|done|].
  simplify_eq.
  destruct (get_tiling_tile _ _ _ _ _ _ _ Hok Hget Ht) as (sp' & Hsp' & Hin & Hw).
  simplify_eq.
  destruct (tile_axis_windows _ _ _ _ t sp k ax sh tsh ha Hw Hin Hax Hs Hsh Htsh Hha)
    as (j' & i' & Hj' & Hi' & _ & Ho & _).
  assert (j' = j) as ->.
  { eapply NoDup_lookup; [|exact Hj'|exact Hj]. by apply (spatial_axes_distinct _ tile_shape halo). }
  simplify_eq. split.
  - rewrite (load_tile_input _ _ _ _ Hload). cbn [values].
    rewrite (slice_values_shape _ _ k sh (outer_slice (i * tsh) tsh sh ha)); [|done|].
    2:{ by rewrite list_lookup_fmap, Hax; simpl; rewrite Ho. }
    f_equal. unfold slice_len, slice_indices, outer_slice, clip_bound.
    cbn [start stop from_option fst snd].
    destruct (Z.ltb_spec (Z.max (i * tsh - ha) 0) 0);
      destruct (Z.ltb_spec (Z.min (i * tsh + tsh + ha) sh) 0); lia.
  - intros side.
    destruct (tile_padding_spec tile_shape halo (dims input_) Hnd) as (padding' & Hp & _ & Htg & _).
    { intros a Hina Hsa. destruct (Hkeys a Hina Hsa) as [(u & Hu & _) Hh].
      split; [by eexists|done]. }
    rewrite Hpad in Hp. injection Hp as <-.
    pose proof (Htg ax tsh ha ltac:(by eapply list_elem_of_lookup_2) Hs Htsh Hha) as Htarget.
    unfold pad_axis. cbn [fst snd]. destruct (str_in ax "zyx").
    + unfold getitem. rewrite Htarget. cbn [mbind result_bind].
      rewrite decide_False by done.
      destruct (Z.ltb_spec (tsh + 2 * ha) (tsh + 2 * ha)); [lia|].
      cbn [mbind result_bind]. rewrite Z.sub_diag.
      destruct (default false side); eexists; (split; [done|]);
        unfold slice_indices, clip_bound; cbn [start stop from_option].
      * destruct (Z.ltb_spec 0 0); [lia|].
        destruct (Z.ltb_spec (tsh + 2 * ha) 0); [lia|]. f_equal; lia.
      * destruct (Z.ltb_spec 0 0); [lia|]. f_equal; lia.
    + eexists. split; [done|]. done.
Qed.

Lemma interior_tiles_need_no_padding_witness :
  ∃ (inp : DataArray) (padding : padding_dict),
    shape (values inp) !! 2%nat = Some (4 + 2 * 1) ∧
    ∀ side : option bool,
      ∃ c, pad_axis "fixed" (pad_targets padding) ("y", (4 + 2 * 1, side))
           = Ok ((0, 0), ("y", c)) ∧
           slice_indices c (4 + 2 * 1) = (0, 4 + 2 * 1).
Proof.
  set (input_ := MkDataArray bcyx (ramp [1; 1; 12; 12])).
  set (ts := dict_of [("y", 4); ("x", 4)] : gmap string Z).
  set (hl := dict_of [("y", 1); ("x", 1)] : gmap string Z).
  assert (tiling_ok (shape (values input_)) ts hl (dims input_)) as Hok.
  { apply tiling_bcyx_ok; [done|lia]. }
  pose proof Hok as (_ & Hnd & Hkeys).
  destruct (tile_padding_spec ts hl (dims input_) Hnd) as (padding & Hp & _).
  { intros ax Hin Hs. destruct (Hkeys ax Hin Hs) as [(u & Hu & _) Hh].
    split; [by eexists|done]. }
  destruct (get_tiling_spec _ _ _ _ Hok) as (tiles & Hg & HF).
  destruct (lookup_lt_is_Some_2 tiles 4) as [t Ht].
  { rewrite <- (Forall2_length _ _ _ HF). vm_compute. lia. }
  destruct (get_tiling_tile _ _ _ _ _ _ _ Hok Hg Ht) as (sp & Hsp & Hin & Hw).
  destruct (outer_tile_dom _ ts hl (dims input_) t sp Hw) as (Hdom & _ & _).
  { apply (bool_decide_unpack _). by vm_compute. }
  { apply (bool_decide_unpack _). by vm_compute. }
  destruct (load_tile_returns input_ (outer_tile t) Hdom) as [pr Hl].
  { intros ax Hax Hs. apply list_elem_of_lookup in Hax as [k Hk].
    destruct (lookup_lt_is_Some_2 (shape (values input_)) k) as [sh Hsh].
    { apply lookup_lt_Some in Hk. exact Hk. }
    destruct (Hkeys ax) as [(tsh & Htsh & _) [ha Hha]]; [by eapply list_elem_of_lookup_2|done|].
    destruct (tile_axis_windows _ _ _ _ t sp k ax sh tsh ha Hw Hin Hk Hs Hsh Htsh Hha)
      as (j & i & _ & _ & _ & Ho & _). by rewrite Ho. }
  eexists _, padding.
  apply (interior_tiles_need_no_padding input_ ts hl padding tiles 4 t [1; 1] _ pr
           2 0 "y" 12 4 1 1 Hok Hp Hg Ht); try reflexivity; try exact Hl; try done; lia.
Defined.

(** ** Buffers of the tiled prediction *)

(** The index vector is written when the tile is stitched into the buffer:
    it lies in the window that the inner windows of the tile select. *)
Definition written (output : DataArray) (t : tile) (idx : list Z) : bool :=
  match dict_key (dims output) (inner_tile t) with
  | Ok k => in_window (shape (values output)) k idx
  | Raise _ => false
  end.

Lemma setitem_dict_frame (data : DataArray) (key : gmap string slice) (value out : DataArray) :
  setitem_dict data key value = Ok out →
  dims out = dims data ∧ shape (values out) = shape (values data) ∧
  dtype (values out) = dtype (values data) ∧
  ∀ idx k, dict_key (dims data) key = Ok k →
           in_window (shape (values data)) k idx = false →
           item (values out) idx = item (values data) idx.
Proof.
  unfold setitem_dict. intros H.
  apply bind_Ok in H as (k & Hk & H). apply bind_Ok in H as (a & Ha & [= <-]).
  unfold setitem_values in Ha.
  destruct (decide _); [|done]. destruct (broadcastable _ _); [|done].
  injection Ha as <-. cbn [dims values shape dtype item]. repeat split.
  intros idx k' Hk' Hw. rewrite Hk in Hk'. injection Hk' as <-. by rewrite Hw.
Qed.

Lemma process_tile_frame pp input_ padding (output : DataArray) (t : tile) (out : DataArray) :
  process_tile pp input_ padding output t = Ok out →
  dims out = dims output ∧ shape (values out) = shape (values output) ∧
  dtype (values out) = dtype (values output) ∧
  ∀ idx, written output t idx = false → item (values out) idx = item (values output) idx.
Proof.
  unfold process_tile, stitch_tile. intros H.
  apply bind_Ok in H as (ip & _ & H). apply bind_Ok in H as (o & _ & H).
  apply bind_Ok in H as (? & _ & H). apply bind_Ok in H as (o0 & _ & H).
  apply bind_Ok in H as (v & _ & H).
  destruct (setitem_dict_frame _ _ _ _ H) as (H1 & H2 & H3 & H4).
  repeat (split; [done|]). intros idx Hw. unfold written in Hw.
  unfold setitem_dict in H. apply bind_Ok in H as (k & Hk & _). rewrite Hk in Hw.
  by apply (H4 idx k).
Qed.

Lemma for_tiles_frame pp input_ padding (tiles : list tile) (output out : DataArray) :
  for_tiles (process_tile pp input_ padding) output tiles = Ok out →
  dims out = dims output ∧ shape (values out) = shape (values output) ∧
  dtype (values out) = dtype (values output) ∧
  ∀ idx, (∀ t, t ∈ tiles → written output t idx = false) →
         item (values out) idx = item (values output) idx.
Proof.
  revert output. induction tiles as [|t tiles IH]; intros output H; simpl in H.
  - injection H as <-. done.
  - apply bind_Ok in H as (output' & Ht & H).
    destruct (process_tile_frame _ _ _ _ _ _ Ht) as (H1 & H2 & H3 & H4).
    destruct (IH output' H) as (H1' & H2' & H3' & H4').
    split; [congruence|]. split; [congruence|]. split; [congruence|].
    intros idx Hw. rewrite H4'.
    + apply H4. apply Hw. left.
    + intros t' Ht'. unfold written. rewrite H1, H2. apply Hw. by right.
Qed.

(** The shape that the output description asks of a buffer *)
Definition shape_from_spec (named_inputs : list (string * DataArray)) (spec : tensor_spec)
    (sh : list Z) : Prop :=
  match spec_shape spec with
  | ExplicitShape sh' => sh = sh'
  | ImplicitOutputShape reference_tensor scale_ offset_ =>
    ∃ ref_input,
      dict_of named_inputs !! reference_tensor = Some ref_input ∧
      length sh = length (axes spec) ∧
      ∀ k ax, axes spec !! k = Some ax →
        ∃ sc n off,
          dict_of (zip (axes spec) scale_) !! ax = Some sc ∧
          dict_of (zip (dims ref_input) (shape (values ref_input))) !! ax = Some n ∧
          dict_of (zip (axes spec) offset_) !! ax = Some off ∧
          sh !! k = Some (py_int (Qplus (Qmult sc (inject_Z n)) (Qmult 2 off)))
  | ParametrizedInputShape _ _ => False
  end.

Lemma output_shape_of_spec named_inputs spec sh :
  output_shape_of named_inputs spec = Ok sh → shape_from_spec named_inputs spec sh.
Proof.
  unfold output_shape_of, shape_from_spec.
  destruct (spec_shape spec) as [sh'|?|reference_tensor scale_ offset_]; [|done|].
  - by intros [= ->].
  - destruct (_ || _); [done|]. intros H.
    apply bind_Ok in H as (ref_input & Href & H).
    exists ref_input. split.
    { unfold getitem in Href. destruct (dict_of named_inputs !! _); by simplify_eq. }
    split; [by apply for_each_length in H|].
    intros k ax Hax. destruct (for_each_lookup _ _ _ _ _ H Hax) as (y & Hy & Hf).
    apply bind_Ok in Hf as (sc & Hsc & Hf). apply bind_Ok in Hf as (n & Hn & Hf).
    apply bind_Ok in Hf as (off & Hoff & [= <-]).
    exists sc, n, off. unfold getitem in Hsc, Hn, Hoff.
    destruct (dict_of (zip (axes spec) scale_) !! ax); [|done].
    destruct (dict_of (zip (dims ref_input) _) !! ax); [|done].
    destruct (dict_of (zip (axes spec) offset_) !! ax); [|done].
    by simplify_eq.
Qed.

(** A buffer as [predict_with_tiling] allocates it for an output
    description: all zero, with the labels and the element type of the
    description and the shape that the description gives. *)
Definition fresh_buffer (named_inputs : list (string * DataArray)) (spec : tensor_spec)
    (buffer : DataArray) : Prop :=
  dims buffer = axes spec ∧
  dtype (values buffer) = data_type spec ∧
  shape_from_spec named_inputs spec (shape (values buffer)) ∧
  ∀ idx, item (values buffer) idx = 0.

Lemma allocate_outputs_spec named_inputs specs buffers :
  allocate_outputs named_inputs specs = Ok buffers →
  Forall2 (fresh_buffer named_inputs) specs buffers.
Proof.
  unfold allocate_outputs. intros H. apply for_each_Forall2 in H.
  eapply Forall2_impl; [exact H|]. intros spec buffer Hb. cbn beta in Hb.
  apply bind_Ok in Hb as (sh & Hsh & Hb). apply bind_Ok in Hb as (zeros & Hz & Hb).
  unfold np_zeros in Hz. destruct (forallb _ sh); [|done]. injection Hz as <-.
  unfold xr_DataArray in Hb. destruct (decide _); [|done]. injection Hb as <-.
  repeat split. by apply output_shape_of_spec.
Qed.


(** ** Concrete runs of the tiled prediction *)

(** The identity predictor on one input with axes bcyx *)
Definition identity_pipeline (out_shape : list Z) : PredictionPipeline :=
  Pipeline [TensorSpec "input" bcyx (ExplicitShape [1; 1; 4; 4]) None "float32"]
           [TensorSpec "output" bcyx (ExplicitShape out_shape) (Some [0; 0; 1; 1]) "float32"]
           (λ tensors, Ok tensors).

Definition yx_dict (v : Z) : gmap string Z := dict_of [("y", v); ("x", v)].

Definition yx_tiling (t h : Z) : gmap string (gmap string Z) :=
  <["tile" := yx_dict t]> (<["halo" := yx_dict h]> ∅).

(** [_predict_with_tiling_impl] with the identity predictor on the array
    [ramp sh], into a buffer of zeros of the same shape *)
Definition tiled_identity (sh : list Z) (t h : Z) : result DataArray :=
  buffer ← np_zeros sh "float32";
  _predict_with_tiling_impl (identity_pipeline sh) [MkDataArray bcyx (ramp sh)]
                            [MkDataArray bcyx buffer] [yx_dict t] [yx_dict h].

Definition reproduces_input (sh : list Z) (r : result DataArray) : bool :=
  match r with
  | Ok out => array_eqb (values out) (ramp sh)
  | Raise _ => false
  end.

(** C1 (defect of the code).  With the identity predictor, the tiled
    prediction reproduces an input whose first axis has length 1, for tile
    extents that divide the extents and that do not, with halo 0 and with a
    positive halo; but for an input with a batch of two images it fills
    nothing: the padded prediction of the first tile asserts
    [len(inputs) == len(input_specs)] on the tile itself, whose [len] is the
    length of its first axis, and AssertionError is raised. *)
Theorem tiled_identity_needs_leading_extent_one :
  reproduces_input [1; 1; 8; 8] (tiled_identity [1; 1; 8; 8] 4 0) = true ∧
  reproduces_input [1; 1; 9; 9] (tiled_identity [1; 1; 9; 9] 4 0) = true ∧
  reproduces_input [1; 1; 8; 8] (tiled_identity [1; 1; 8; 8] 4 2) = true ∧
  reproduces_input [1; 1; 9; 7] (tiled_identity [1; 1; 9; 7] 4 1) = true ∧
  tiled_identity [2; 1; 4; 4] 4 0 = Raise AssertionError ∧
  tiled_identity [2; 1; 9; 9] 4 1 = Raise AssertionError.
Proof. repeat split; vm_compute; reflexivity. Qed.

Lemma config_conflict_fails_fast_witness :
  _predict_sample (IoEnv (λ _ _, Raise RuntimeError) (λ _ _, Ok ()))
                  (identity_pipeline [1; 1; 4; 4]) ["in.npy"] ["out.npy"]
                  (PaddingBool true) (TilingOf (yx_tiling 2 1))
  = ([], Raise ValueError).
Proof. apply config_conflict_fails_fast; reflexivity. Defined.


(** ** Windows, resolved against their axis *)

Lemma dict_of_size {V : Type} (l : list (string * V)) :
  NoDup l.*1 → size (dict_of l) = length l.
Proof.
  intros Hnd. rewrite dict_of_list_to_map, map_size_list_to_map.
  - apply length_reverse.
  - rewrite fmap_reverse. by rewrite reverse_Permutation.
Qed.

Lemma slice_indices_inside (a b n : Z) :
  0 ≤ a ≤ n → 0 ≤ b ≤ n → slice_indices (Slice (Some a) (Some b)) n = (a, b).
Proof.
  intros Ha Hb. unfold slice_indices, clip_bound. cbn [start stop from_option].
  destruct (Z.ltb_spec a 0); [lia|]. destruct (Z.ltb_spec b 0); [lia|]. f_equal; lia.
Qed.

Lemma slice_indices_all (n : Z) : slice_indices slice_all n = (0, n).
Proof. done. Qed.

(** The three windows of a tile on one axis of length [sh], resolved against
    the axis: the outer window [os, oe) and the inner window [is_, ie) in the
    coordinates of the array, the local window in those of the outer
    window. *)
Definition axis_plan (sh : Z) (o i l : slice) (os is_ ie oe : Z) : Prop :=
  slice_indices o sh = (os, oe) ∧ slice_indices i sh = (is_, ie) ∧
  slice_indices l (oe - os) = (is_ - os, ie - os) ∧
  0 ≤ os ∧ os ≤ is_ ∧ is_ ≤ ie ∧ ie ≤ oe ∧ oe ≤ sh.

Lemma spatial_axis_plan (i tsh sh ha : Z) :
  0 < tsh → 0 ≤ ha → 0 ≤ i < n_tiles sh tsh →
  axis_plan sh (outer_slice (i * tsh) tsh sh ha) (inner_slice (i * tsh) tsh sh)
            (local_window (i * tsh) tsh sh ha)
            (Z.max (i * tsh - ha) 0) (i * tsh) (Z.min (i * tsh + tsh) sh)
            (Z.min (i * tsh + tsh + ha) sh) ∧
  Z.max (i * tsh - ha) 0 < Z.min (i * tsh + tsh + ha) sh ∧
  Z.min (i * tsh + tsh + ha) sh - Z.max (i * tsh - ha) 0 ≤ tsh + 2 * ha ∧
  i * tsh < Z.min (i * tsh + tsh) sh.
Proof.
  intros Ht Hh Hi. pose proof (n_tiles_ceil sh tsh Ht) as Hc.
  assert (0 ≤ i * tsh < sh) as Hpos by nia.
  split; [|lia]. unfold axis_plan, outer_slice, inner_slice, local_window.
  rewrite !slice_indices_inside by lia.
  split; [done|]. split; [done|]. split; [|lia].
  destruct (decide _) as [He|He].
  - unfold slice_indices, clip_bound. cbn [start stop from_option].
    destruct (Z.ltb_spec (i * tsh - Z.max (i * tsh - ha) 0) 0); [lia|]. f_equal; lia.
  - unfold slice_indices, clip_bound. cbn [start stop from_option].
    destruct (Z.ltb_spec (i * tsh - Z.max (i * tsh - ha) 0) 0); [lia|].
    destruct (Z.ltb_spec (- (Z.min (i * tsh + tsh + ha) sh - Z.min (i * tsh + tsh) sh)) 0);
      [|lia].
    f_equal; lia.
Qed.

Lemma whole_axis_plan (sh : Z) : 0 ≤ sh → axis_plan sh slice_all slice_all slice_all 0 0 sh sh.
Proof.
  intros Hs. unfold axis_plan. rewrite !slice_indices_all.
  repeat split; lia.
Qed.

Lemma in_window_lookup (sh : list Z) (key : list slice) (idx : list Z) k x n s :
  in_window sh key idx = true →
  idx !! k = Some x → sh !! k = Some n → key !! k = Some s →
  (slice_indices s n).1 ≤ x < (slice_indices s n).2.
Proof.
  unfold in_window. intros H Hx Hn Hs.
  apply Is_true_eq_left, forallb_True in H.
  assert (zip idx (zip sh key) !! k = Some (x, (n, s))) as Hz by (by apply lookup_zip3).
  pose proof (proj1 (Forall_lookup _ _) H k _ Hz) as Hk. cbn [fst snd] in Hk.
  apply andb_True in Hk as [H1 H2].
  apply Is_true_eq_true in H1, H2. apply Z.leb_le in H1. apply Z.ltb_lt in H2. lia.
Qed.

Lemma in_window_intro (sh : list Z) (key : list slice) (idx : list Z) :
  (∀ k x n s, idx !! k = Some x → sh !! k = Some n → key !! k = Some s →
     (slice_indices s n).1 ≤ x < (slice_indices s n).2) →
  in_window sh key idx = true.
Proof.
  intros H. unfold in_window. apply Is_true_eq_true, forallb_True, Forall_lookup.
  intros k [x [n s]] Hz. apply lookup_zip3 in Hz as (Hx & Hn & Hs).
  specialize (H k x n s Hx Hn Hs). cbn [fst snd].
  apply andb_True. split; apply Is_true_eq_left; [apply Z.leb_le|apply Z.ltb_lt]; lia.
Qed.

(** Writing, into the inner windows of a buffer, the local windows of an
    array that equals the outer windows of an image: the buffer receives the
    image on the inner windows and keeps its elements elsewhere. *)
Lemma stitch_values (im a c : ndarray) (ko ki kl : list slice) :
  shape a = shape im →
  array_eq c (slice_values im ko) →
  length ko = length (shape im) → length ki = length (shape im) →
  length kl = length (shape im) →
  (∀ k n o i l, shape im !! k = Some n → ko !! k = Some o → ki !! k = Some i →
     kl !! k = Some l → ∃ os is_ ie oe, axis_plan n o i l os is_ ie oe) →
  ∃ a', setitem_values a ki (slice_values c kl) = Ok a' ∧
        shape a' = shape im ∧ dtype a' = dtype a ∧
        ∀ idx, in_bounds (shape im) idx →
          item a' idx = if in_window (shape im) ki idx then item im idx else item a idx.
Proof.
  intros Hsa [Hsc Hc] Hlo Hli Hll Hat.
  set (sh := shape im) in *.
  assert (∀ k n, sh !! k = Some n →
            ∃ o i l os is_ ie oe,
              ko !! k = Some o ∧ ki !! k = Some i ∧ kl !! k = Some l ∧
              axis_plan n o i l os is_ ie oe ∧
              shape c !! k = Some (oe - os) ∧
              shape (slice_values c kl) !! k = Some (ie - is_) ∧
              shape (slice_values a ki) !! k = Some (ie - is_)) as Hk.
  { intros k n Hn. pose proof (lookup_lt_Some _ _ _ Hn) as Hlt.
    destruct (lookup_lt_is_Some_2 ko k) as [o Ho]; [lia|].
    destruct (lookup_lt_is_Some_2 ki k) as [i Hi]; [lia|].
    destruct (lookup_lt_is_Some_2 kl k) as [l Hl]; [lia|].
    destruct (Hat k n o i l Hn Ho Hi Hl) as (os & is_ & ie & oe & Hp).
    exists o, i, l, os, is_, ie, oe. repeat (split; [done|]).
    destruct Hp as (H1 & H2 & H3 & ?).
    assert (shape c !! k = Some (oe - os)) as Hck.
    { rewrite Hsc. rewrite (slice_values_shape _ _ k n o) by done.
      unfold slice_len. rewrite H1. cbn [fst snd]. f_equal. lia. }
    split; [done|]. split.
    - rewrite (slice_values_shape _ _ k (oe - os) l) by done.
      unfold slice_len. rewrite H3. cbn [fst snd]. f_equal. lia.
    - rewrite (slice_values_shape _ _ k n i); [|by rewrite Hsa|done].
      unfold slice_len. rewrite H2. cbn [fst snd]. f_equal. lia. }
  assert (length (shape c) = length sh) as Hlc.
  { rewrite Hsc. cbn [slice_values shape]. rewrite length_zip_with. fold sh. lia. }
  assert (ndim (slice_values c kl) = length sh) as Hnv.
  { unfold ndim. cbn [slice_values shape]. rewrite length_zip_with. lia. }
  assert (ndim a = length sh) as Hna by (unfold ndim; by rewrite Hsa).
  unfold setitem_values. rewrite decide_True by lia.
  replace (ndim a - ndim (slice_values c kl))%nat with 0%nat by lia.
  cbn [replicate app drop].
  assert (broadcastable (shape (slice_values c kl)) (shape (slice_values a ki)) = true) as ->.
  { unfold broadcastable. apply Is_true_eq_true, forallb_True, Forall_lookup.
    intros k [x y] Hz. apply lookup_zip_with_Some in Hz as (x' & y' & [= <- <-] & Hx & Hy).
    destruct (lookup_lt_is_Some_2 sh k) as [n Hn].
    { rewrite <- Hnv. by eapply lookup_lt_Some. }
    destruct (Hk k n Hn) as (o & i & l & os & is_ & ie & oe & _ & _ & _ & _ & _ & Hv & Hw).
    rewrite Hv in Hx. rewrite Hw in Hy. simplify_eq. cbn [fst snd].
    apply orb_True. left. apply Is_true_eq_left, Z.eqb_eq. done. }
  eexists. split; [reflexivity|]. cbn [shape dtype item]. split; [done|]. split; [done|].
  intros idx Hin. rewrite Hsa. fold sh.
  destruct (in_window sh ki idx) eqn:Hw; [|done].
  pose proof (Forall2_length _ _ _ Hin) as Hli'.
  set (J := zip_with _ idx _).
  assert (∀ k x n, idx !! k = Some x → sh !! k = Some n →
            ∃ o i l os is_ ie oe,
              ko !! k = Some o ∧ kl !! k = Some l ∧ axis_plan n o i l os is_ ie oe ∧
              shape c !! k = Some (oe - os) ∧ is_ ≤ x < ie ∧
              J !! k = Some (x - is_)) as HJ.
  { intros k x n Hx Hn.
    destruct (Hk k n Hn) as (o & i & l & os & is_ & ie & oe & Ho & Hi & Hl & Hp & Hck & Hv & _).
    exists o, i, l, os, is_, ie, oe. repeat (split; [done|]).
    pose proof (in_window_lookup sh ki idx k x n i Hw Hx Hn Hi) as Hb.
    destruct Hp as (H1 & H2 & H3 & ?). rewrite H2 in Hb. cbn [fst snd] in Hb.
    split; [done|].
    unfold J. rewrite lookup_zip_with, Hx. cbn [mbind option_bind].
    rewrite (proj2 (lookup_zip3 _ _ _ k (ie - is_) n i)).
    2:{ done. }
    cbn [mbind option_bind fst snd]. rewrite H2. cbn [fst].
    f_equal. destruct (Z.eqb_spec (ie - is_) 1); lia. }
  change (drop 0 J) with J. cbn [slice_values item]. rewrite Hc.
  - cbn [slice_values item]. f_equal. apply list_eq. intros k.
    destruct (idx !! k) as [x|] eqn:Hx.
    + destruct (lookup_lt_is_Some_2 sh k) as [n Hn].
      { rewrite <- Hli'. by eapply lookup_lt_Some. }
      destruct (HJ k x n Hx Hn)
        as (o & i & l & os & is_ & ie & oe & Ho & Hl & Hp & Hck & Hb & HJk).
      destruct Hp as (H1 & H2 & H3 & ?).
      rewrite !lookup_zip_with, HJk. fold sh. rewrite Hck, Hl, Hn, Ho.
      cbn [mbind option_bind fst snd]. rewrite H1, H3. cbn [fst]. f_equal. lia.
    + rewrite !lookup_zip_with.
      assert (J !! k = None) as ->.
      { unfold J. by rewrite lookup_zip_with, Hx. }
      done.
  - apply Forall2_same_length_lookup_2.
    { rewrite length_zip_with, length_zip_with. unfold J.
      rewrite !length_zip_with. cbn [slice_values shape]. rewrite !length_zip_with.
      lia. }
    intros k y m Hy Hm.
    apply lookup_zip_with_Some in Hy as (j & [n' l'] & -> & Hj & Hz).
    apply lookup_zip_with_Some in Hz as (? & ? & [= <- <-] & Hck' & Hl').
    destruct (lookup_lt_is_Some_2 idx k) as [x Hx].
    { apply lookup_lt_Some in Hj. unfold J in Hj. rewrite length_zip_with in Hj. lia. }
    destruct (lookup_lt_is_Some_2 sh k) as [n Hn].
    { rewrite <- Hli'. by eapply lookup_lt_Some. }
    destruct (HJ k x n Hx Hn)
      as (o & i & l & os & is_ & ie & oe & Ho & Hl & Hp & Hck & Hb & HJk).
    destruct Hp as (H1 & H2 & H3 & ?). simplify_eq.
    cbn [fst snd]. rewrite H3. cbn [fst]. lia.
Qed.

Lemma load_tile_sides_length (input_ : DataArray) (tile : gmap string slice)
    (inp : DataArray) (pr : list (option bool)) :
  load_tile input_ (dims input_) tile = Ok (inp, pr) → length pr = length (dims input_).
Proof.
  unfold load_tile. intros H.
  apply bind_Ok in H as (inp' & _ & H). apply bind_Ok in H as (pr' & Hpr & [= _ <-]).
  by apply for_each_length in Hpr.
Qed.

(** The padded prediction of one array by a pipeline that returns its
    input: the array comes back.  The array is passed on its own, and then
    its first axis has length 1, or as a list of one array. *)
Lemma padded_identity (pp : PredictionPipeline) (spec : tensor_spec) (inputs : inputs_arg)
    (inp : DataArray) (padding : padding_dict) (pad_right : pad_right_arg) :
  input_specs pp = [spec] → (∀ l, forward pp l = Ok l) →
  (inputs = OneInput inp ∧ head (shape (values inp)) = Some 1) ∨ inputs = ManyInputs [inp] →
  padding_truthy (PaddingOf padding) = true →
  dom (pad_targets padding) ⊆ list_to_set (axes spec ++ ["mode"]) →
  pad_call_ok (values inp) (axes spec) padding pad_right →
  axes spec ≠ [] → NoDup (axes spec) →
  Forall (λ n, 0 ≤ n) (shape (values inp)) →
  targets_allow (values inp) (axes spec) padding →
  ∃ cropped,
    predict_with_padding pp inputs (PaddingOf padding) pad_right = Ok [cropped] ∧
    dims cropped = axes spec ∧ array_eq (values cropped) (values inp).
Proof.
  intros Hspecs Hfwd Hinputs Htruthy Hdom Hok Hne Hnd Hnn Hall.
  destruct (pad_then_crop _ _ _ _ Hok Hne Hnd Hnn Hall)
    as (padded & crop & data & cropped & Hpad & Hdata & Hcrop & Hdims & Heq).
  exists cropped. split; [|done].
  unfold predict_with_padding. rewrite Htruthy. cbn [negb].
  assert (inputs_len inputs = Ok 1 ∧
          match inputs with OneInput a => [a] | ManyInputs l => l end = [inp]) as [-> ->].
  { destruct Hinputs as [[-> Hhead]| ->]; [|done]. split; [|done].
    unfold inputs_len, array_len.
    destruct (shape (values inp)) as [|n sh]; [done|]. by injection Hhead as ->. }
  rewrite Hspecs. cbn [mbind result_bind length Z.of_nat Z.eqb Pos.of_succ_nat Pos.eqb py_assert].
  unfold _parse_padding. rewrite decide_False by (simpl; lia).
  cbn [head_item mbind result_bind]. unfold check_padding.
  rewrite bool_decide_eq_true_2 by done.
  cbn [py_assert mbind result_bind]. rewrite bool_decide_eq_true_2 by done.
  cbn [py_assert mbind result_bind zip zip_with for_each fst snd]. rewrite Hpad.
  cbn [mbind result_bind fmap list_fmap fst snd]. unfold predict. rewrite Hspecs.
  rewrite bool_decide_eq_true_2 by done.
  cbn [py_assert mbind result_bind zip zip_with for_each fst snd]. rewrite Hdata.
  cbn [mbind result_bind]. rewrite Hfwd.
  cbn [mbind result_bind zip zip_with for_each fst snd]. rewrite Hcrop. done.
Qed.

Lemma tile_padding_size (tile_shape halo : gmap string Z) (input_axes : list string)
    (padding : padding_dict) :
  NoDup input_axes →
  tile_padding tile_shape halo input_axes = Ok padding →
  size (pad_targets padding) = length (filter (λ ax, spatial ax) input_axes).
Proof.
  intros Hnd H. unfold tile_padding in H.
  apply bind_Ok in H as (targets & Ht & [= <-]). cbn [pad_targets].
  pose proof (for_each_length _ _ _ Ht) as Hl.
  assert (targets.*1 = filter (λ ax, spatial ax) input_axes) as Hk.
  { clear Hl. apply for_each_Forall2 in Ht. revert Ht.
    generalize (filter (λ ax, spatial ax) input_axes). intros l HF.
    induction HF as [|ax y l ys Hy HF IH]; [done|]. rewrite fmap_cons, IH. f_equal.
    apply bind_Ok in Hy as (tsh & _ & Hy). apply bind_Ok in Hy as (ha & _ & [= <-]). done. }
  rewrite dict_of_size; [done|]. rewrite Hk. by apply NoDup_filter.
Qed.

(** ** The tiled prediction, tile by tile *)

Section tile_axes.
Context (input_ : DataArray) (tile_shape halo : gmap string Z).

(** An input that the tile plan is made for: one label per axis, the labels
    distinct, a positive tile extent and a non-negative halo for every
    spatial axis, and no negative extent. *)
Definition plan_input_ok : Prop :=
  tiling_ok (shape (values input_)) tile_shape halo (dims input_) ∧
  (∀ ax ha, ax ∈ dims input_ → spatial ax = true → halo !! ax = Some ha → 0 ≤ ha) ∧
  Forall (λ n, 0 ≤ n) (shape (values input_)).

(** A tile of the plan of the input *)
Definition plan_tile (t : tile) : Prop :=
  ∃ sp, sp ∈ start_points (shape (values input_)) tile_shape (dims input_) ∧
        tile_windows (spatial_axes_ (shape (values input_)) (dims input_))
                     (tile_shape_ (shape (values input_)) tile_shape (dims input_))
                     (shape_ (shape (values input_)) (dims input_))
                     (halo_ (shape (values input_)) halo (dims input_)) t sp.

Lemma plan_tiles (tiles : list tile) (t : tile) :
  tiling_ok (shape (values input_)) tile_shape halo (dims input_) →
  _get_tiling (shape (values input_)) tile_shape halo (dims input_) = Ok tiles →
  t ∈ tiles → plan_tile t.
Proof.
  intros Htok Hget Ht. apply list_elem_of_lookup in Ht as [n Hn].
  destruct (get_tiling_tile _ _ _ _ _ _ _ Htok Hget Hn) as (sp & _ & Hsp & Hw).
  by exists sp.
Qed.

Lemma tile_axis_plan (t : tile) (k : nat) (ax : string) (n : Z) :
  plan_input_ok → plan_tile t →
  dims input_ !! k = Some ax → shape (values input_) !! k = Some n →
  ∃ os is_ ie oe,
    axis_plan n (default slice_all (outer_tile t !! ax))
              (default slice_all (inner_tile t !! ax))
              (default slice_all (local_tile t !! ax)) os is_ ie oe ∧
    (n = 1 → oe - os = 1) ∧
    (spatial ax = false → os = 0 ∧ is_ = 0 ∧ ie = n ∧ oe = n) ∧
    (spatial ax = true →
       os < oe ∧ is_ < ie ∧ is_Some (outer_tile t !! ax) ∧
       inner_tile t !! ax = Some (Slice (Some is_) (Some ie)) ∧
       ∃ tsh ha, tile_shape !! ax = Some tsh ∧ halo !! ax = Some ha ∧
                 oe - os ≤ tsh + 2 * ha).
Proof.
  intros (Htok & Hhalo & Hnn) (sp & Hsp & Hw) Hax Hn.
  pose proof Htok as (Hlen & Hnd & Hkeys).
  assert (ax ∈ dims input_) as Hin by (by eapply list_elem_of_lookup_2).
  assert (0 ≤ n) as Hn0 by (by eapply (proj1 (Forall_lookup _ _) Hnn)).
  destruct (spatial ax) eqn:Hs.
  - destruct (Hkeys ax Hin Hs) as [(tsh & Htsh & Hpos) [ha Hha]].
    pose proof (Hhalo ax ha Hin Hs Hha) as Hha0.
    destruct (tile_axis_windows _ _ _ _ t sp k ax n tsh ha Hw Hsp Hax Hs Hn Htsh Hha)
      as (j & i & _ & _ & Hi & Ho & Hi' & Hl).
    destruct (spatial_axis_plan i tsh n ha Hpos Hha0 Hi) as (Hp & H1 & H2 & H3).
    rewrite Ho, Hi', Hl. cbn [default].
    eexists _, _, _, _. split; [exact Hp|].
    destruct Hp as (_ & _ & _ & ? & ? & ? & ? & ?).
    split; [lia|]. split; [done|]. intros _. split; [lia|]. split; [lia|].
    split; [done|]. split; [done|]. exists tsh, ha. done.
  - destruct Hw as [_ Hother].
    assert (ax ∉ spatial_axes_ (shape (values input_)) (dims input_)) as Hns.
    { intros Hin'. apply spatial_axes_spec in Hin' as [_ Hs']. congruence. }
    destruct (Hother ax Hns) as (Ho & Hi & Hl). rewrite Ho, Hi, Hl.
    assert (default slice_all (if decide (ax = "b" ∨ ax = "c") then Some slice_all else None)
            = slice_all) as -> by (by destruct (decide _)).
    exists 0, 0, n, n. split; [by apply whole_axis_plan|]. split; [lia|]. done.
Qed.

(** An input that the tiled prediction handles: an input of the tile plan
    - with a batch and a channel axis (every window names them);
    - whose labels the padder ([ax in "zyx"]) and the tiler ([ax in "xyz"])
      read alike, 2 of them spatial, or 3 when there is a z axis (the padder
      asserts the number of targets). *)
Definition tiled_input_ok : Prop :=
  plan_input_ok ∧
  "b" ∈ dims input_ ∧ "c" ∈ dims input_ ∧
  Forall (λ ax, str_in ax "zyx" = spatial ax) (dims input_) ∧
  length (filter (λ ax, spatial ax) (dims input_))
  = (if bool_decide ("z" ∈ dims input_) then 3 else 2)%nat.

(** The outer window of a tile, cut out of the input *)
Definition outer_window (t : tile) : DataArray :=
  MkDataArray (dims input_)
    (slice_values (values input_)
       ((λ d, default slice_all (outer_tile t !! d)) <$> dims input_)).

(** The call of the padder on a tile of the plan: the tile is loaded, the
    call passes the assertions of [_pad], and every spatial axis of the tile
    is non-empty and not longer than its target. *)
Lemma tile_pad_call (padding : padding_dict) (t : tile) :
  tiled_input_ok →
  tile_padding tile_shape halo (dims input_) = Ok padding →
  plan_tile t →
  ∃ pr,
    load_tile input_ (dims input_) (outer_tile t) = Ok (outer_window t, pr) ∧
    pad_call_ok (values (outer_window t)) (dims input_) padding (PadRightList pr) ∧
    Forall (λ n, 0 ≤ n) (shape (values (outer_window t))) ∧
    targets_allow (values (outer_window t)) (dims input_) padding ∧
    pad_mode padding = Some "fixed" ∧
    dom (pad_targets padding) ⊆ list_to_set (dims input_) ∧
    ∀ k ax n, dims input_ !! k = Some ax → shape (values input_) !! k = Some n →
      ∃ m, shape (values (outer_window t)) !! k = Some m ∧ (n = 1 → m = 1) ∧
           if spatial ax
           then ∃ tsh ha, tile_shape !! ax = Some tsh ∧ halo !! ax = Some ha ∧
                          pad_targets padding !! ax = Some (tsh + 2 * ha) ∧
                          0 < m ≤ tsh + 2 * ha
           else m = n.
Proof.
  intros (Hpi & Hb & Hc & Hlabels & Hcount) Hpad Hplan.
  pose proof Hpi as (Htok & Hhalo & Hnn).
  pose proof Htok as (Hlen & Hnd & Hkeys).
  pose proof Hplan as (sp & Hsp & Hw).
  destruct (outer_tile_dom _ _ _ _ _ _ Hw Hb Hc) as (Hdomo & _ & _).
  destruct (load_tile_returns input_ (outer_tile t) Hdomo) as [pr Hload].
  { intros ax Hin Hs. apply list_elem_of_lookup in Hin as [k Hk].
    destruct (lookup_lt_is_Some_2 (shape (values input_)) k) as [n Hn].
    { rewrite Hlen. by eapply lookup_lt_Some. }
    destruct (tile_axis_plan t k ax n Hpi Hplan Hk Hn)
      as (os & is_ & ie & oe & _ & _ & _ & Hsp').
    by destruct (Hsp' Hs) as (_ & _ & ? & _). }
  fold (outer_window t) in Hload.
  destruct (tile_padding_spec tile_shape halo (dims input_) Hnd)
    as (padding' & Hpad' & Hmode & Htargets & Hpkeys).
  { intros ax Hin Hs. destruct (Hkeys ax Hin Hs) as [(tsh & Htsh & _) Hh].
    split; [by eexists|done]. }
  rewrite Hpad in Hpad'. injection Hpad' as <-.
  (* the extents of the loaded tile *)
  assert (∀ k ax n, dims input_ !! k = Some ax → shape (values input_) !! k = Some n →
            ∃ m, shape (values (outer_window t)) !! k = Some m ∧ (n = 1 → m = 1) ∧
                 if spatial ax
                 then ∃ tsh ha, tile_shape !! ax = Some tsh ∧ halo !! ax = Some ha ∧
                                pad_targets padding !! ax = Some (tsh + 2 * ha) ∧
                                0 < m ≤ tsh + 2 * ha
                 else m = n) as Hext.
  { intros k ax n Hax Hn.
    destruct (tile_axis_plan t k ax n Hpi Hplan Hax Hn)
      as (os & is_ & ie & oe & Hp & H1 & Hns & Hs).
    exists (oe - os). split.
    { unfold outer_window. cbn [values].
      rewrite (slice_values_shape _ _ k n (default slice_all (outer_tile t !! ax)));
        [|done|by rewrite list_lookup_fmap, Hax].
      destruct Hp as (Hio & _ & _ & ?). unfold slice_len. rewrite Hio.
      cbn [fst snd]. f_equal. lia. }
    split; [done|]. destruct (spatial ax) eqn:Hspat.
    - destruct (Hs eq_refl) as (? & _ & _ & _ & tsh & ha & Htsh & Hha & ?).
      exists tsh, ha. repeat (split; [done|]). split; [|lia].
      apply Htargets; [by eapply list_elem_of_lookup_2|done..].
    - destruct (Hns eq_refl) as (-> & _ & _ & ->). lia. }
  assert (length (shape (values (outer_window t))) = length (dims input_)) as Hlw.
  { unfold outer_window. cbn [values slice_values shape].
    rewrite length_zip_with, length_fmap. lia. }
  assert (∀ k m, shape (values (outer_window t)) !! k = Some m →
            ∃ ax n, dims input_ !! k = Some ax ∧ shape (values input_) !! k = Some n) as Hback.
  { intros k m Hm. apply lookup_lt_Some in Hm. rewrite Hlw in Hm.
    destruct (lookup_lt_is_Some_2 (dims input_) k) as [ax Hax]; [done|].
    destruct (lookup_lt_is_Some_2 (shape (values input_)) k) as [n Hn]; [lia|].
    by exists ax, n. }
  exists pr. split; [done|]. split; [|split; [|split; [|split; [done|split; [|done]]]]].
  - split; [|split; [|split]].
    + done.
    + right. by rewrite Hmode.
    + rewrite <- Hcount. by apply (tile_padding_size tile_shape halo).
    + cbn. by eapply load_tile_sides_length.
  - apply Forall_lookup. intros k m Hm.
    destruct (Hback k m Hm) as (ax & n & Hax & Hn).
    destruct (Hext k ax n Hax Hn) as (m' & Hm' & _ & Hcase).
    rewrite Hm in Hm'. injection Hm' as <-.
    destruct (spatial ax).
    + destruct Hcase as (tsh & ha & _ & _ & _ & ?). lia.
    + subst m. by eapply (proj1 (Forall_lookup _ _) Hnn).
  - intros k ax m Hax Hzyx Hm.
    destruct (Hback k m Hm) as (ax' & n & Hax' & Hn). simplify_eq.
    destruct (Hext k ax n Hax Hn) as (m' & Hm' & _ & Hcase).
    rewrite Hm in Hm'. injection Hm' as <-.
    assert (spatial ax = true) as Hspat.
    { rewrite <- Hzyx. symmetry. by eapply (proj1 (Forall_lookup _ _) Hlabels). }
    rewrite Hspat in Hcase. destruct Hcase as (tsh & ha & _ & _ & Htg & ?).
    exists (tsh + 2 * ha). split; [done|].
    rewrite Hmode. cbn [default]. split; [done|]. intros _. lia.
  - apply elem_of_subseteq. intros ax Hin. apply elem_of_dom in Hin.
    apply elem_of_list_to_set. apply Hpkeys. by destruct Hin as [? ->].
Qed.
End tile_axes.

Section tiled_identity.
Context (pp : PredictionPipeline) (spec : tensor_spec) (input_ : DataArray)
        (tile_shape halo : gmap string Z).

(** A call of the tiled prediction with the identity predictor: one input
    description with the labels of the input, a pipeline that returns its
    input, and an input that the tiled prediction handles and whose first
    axis has length 1 (the padded prediction of a tile asserts that the
    length of the tile is the number of input descriptions). *)
Definition tiled_call_ok : Prop :=
  input_specs pp = [spec] ∧ axes spec = dims input_ ∧ (∀ l, forward pp l = Ok l) ∧
  head (shape (values input_)) = Some 1 ∧
  tiled_input_ok input_ tile_shape halo.

Hypothesis call_ok : tiled_call_ok.

(** One turn of the loop: the tile is loaded, padded, predicted by the
    identity, cropped and stitched; the buffer receives the input on the
    inner windows of the tile and keeps its elements elsewhere. *)
Lemma process_tile_identity (padding : padding_dict) (output : DataArray) (t : tile) :
  tile_padding tile_shape halo (dims input_) = Ok padding →
  plan_tile input_ tile_shape halo t →
  dims output = dims input_ → shape (values output) = shape (values input_) →
  ∃ output',
    process_tile pp input_ padding output t = Ok output' ∧
    dims output' = dims input_ ∧ shape (values output') = shape (values input_) ∧
    ∀ idx, in_bounds (shape (values input_)) idx →
      item (values output') idx
      = if written output t idx then item (values input_) idx else item (values output) idx.
Proof.
  intros Hpad Hplan Hdo Hso.
  pose proof call_ok as (Hspecs & Haxes & Hfwd & Hhead & Hti).
  pose proof Hti as (Hpi & Hb & Hc & _).
  pose proof Hpi as (Htok & _). pose proof Htok as (Hlen & Hnd & _).
  pose proof Hplan as (sp & Hsp & Hw).
  destruct (outer_tile_dom _ _ _ _ _ _ Hw Hb Hc) as (_ & Hdomi & Hdoml).
  destruct (tile_pad_call input_ tile_shape halo padding t Hti Hpad Hplan)
    as (pr & Hload & Hcall & Hnn & Hall & Hmode & Hdom & Hext).
  set (ko := (λ d, default slice_all (outer_tile t !! d)) <$> dims input_).
  set (ki := (λ d, default slice_all (inner_tile t !! d)) <$> dims input_).
  set (kl := (λ d, default slice_all (local_tile t !! d)) <$> dims input_).
  destruct (padded_identity pp spec (OneInput (outer_window input_ t)) (outer_window input_ t)
              padding (PadRightList pr))
    as (cropped & Hpred & Hdc & Heq); try done; try (by rewrite Haxes).
  - (* the length of the tile *)
    left. split; [done|]. rewrite head_lookup in Hhead |- *.
    destruct (lookup_lt_is_Some_2 (dims input_) 0) as [ax Hax].
    { rewrite <- Hlen. by eapply lookup_lt_Some. }
    destruct (Hext 0%nat ax 1 Hax Hhead) as (m & Hm & H1 & _).
    rewrite Hm. f_equal. by apply H1.
  - unfold padding_truthy. by rewrite Hmode.
  - rewrite Haxes. apply elem_of_subseteq. intros ax Hin.
    apply elem_of_list_to_set, elem_of_app. left.
    apply (proj1 (elem_of_subseteq _ _) Hdom) in Hin. by apply elem_of_list_to_set in Hin.
  - rewrite Haxes. intros Hnil. rewrite Hnil in Hb. by apply elem_of_nil in Hb.
  - (* stitching *)
    unfold process_tile. rewrite Hload. cbn [mbind result_bind fst snd]. rewrite Hpred.
    cbn [mbind result_bind]. unfold stitch_tile.
    rewrite bool_decide_eq_true_2 by done.
    cbn [py_assert head_item mbind result_bind].
    unfold getitem_dict, dict_key. rewrite Hdc, Haxes.
    rewrite bool_decide_eq_true_2 by done. cbn [mbind result_bind]. fold kl.
    unfold setitem_dict, dict_key. rewrite Hdo.
    rewrite bool_decide_eq_true_2 by done. cbn [mbind result_bind values dims]. fold ki.
    destruct (stitch_values (values input_) (values output) (values cropped) ko ki kl)
      as (a' & Hset & Hsa' & _ & Hitem); try done;
      try (unfold ko, ki, kl; rewrite length_fmap; lia).
    { intros k n o i l Hn Ho Hi Hl. unfold ko, ki, kl in Ho, Hi, Hl.
      rewrite list_lookup_fmap in Ho, Hi, Hl.
      destruct (dims input_ !! k) as [ax|] eqn:Hax; [|done].
      cbn in Ho, Hi, Hl. simplify_eq.
      destruct (tile_axis_plan input_ tile_shape halo t k ax n Hpi Hplan Hax Hn)
        as (os & is_ & ie & oe & Hp & _).
      by exists os, is_, ie, oe. }
    rewrite Hset. cbn [mbind result_bind]. eexists. split; [reflexivity|].
    cbn [dims values]. split; [done|]. split; [done|].
    intros idx Hin. rewrite (Hitem idx Hin). unfold written, dict_key. rewrite Hdo.
    rewrite bool_decide_eq_true_2 by done. fold ki. by rewrite Hso.
Qed.
Lemma written_same_frame (output output' : DataArray) (t : tile) (idx : list Z) :
  dims output' = dims output → shape (values output') = shape (values output) →
  written output' t idx = written output t idx.
Proof. intros Hd Hs. unfold written. by rewrite Hd, Hs. Qed.

(** The loop over the tiles: an element that holds the input already, or
    that some tile writes, holds the input in the end. *)
Lemma for_tiles_identity (padding : padding_dict) (tiles : list tile) (output : DataArray) :
  tile_padding tile_shape halo (dims input_) = Ok padding →
  (∀ t, t ∈ tiles → plan_tile input_ tile_shape halo t) →
  dims output = dims input_ → shape (values output) = shape (values input_) →
  ∃ out,
    for_tiles (process_tile pp input_ padding) output tiles = Ok out ∧
    dims out = dims input_ ∧ shape (values out) = shape (values input_) ∧
    ∀ idx, in_bounds (shape (values input_)) idx →
      item (values output) idx = item (values input_) idx
      ∨ (∃ t, t ∈ tiles ∧ written output t idx = true) →
      item (values out) idx = item (values input_) idx.
Proof.
  intros Hpad. revert output.
  induction tiles as [|t tiles IH]; intros output Hplan Hd Hs; cbn [for_tiles].
  - exists output. repeat (split; [done|]). intros idx _ [H|(t & Ht & _)]; [done|].
    by apply elem_of_nil in Ht.
  - destruct (process_tile_identity padding output t Hpad) as (o1 & Hrun & Hd1 & Hs1 & Hi1);
      [apply Hplan; left|done..|].
    rewrite Hrun. cbn [mbind result_bind].
    destruct (IH o1) as (out & Hout & Hdo & Hso & Hio); [|done..|].
    { intros t' Ht'. apply Hplan. by right. }
    exists out. repeat (split; [done|]). intros idx Hin Hor.
    apply Hio; [done|]. rewrite (Hi1 idx Hin).
    destruct (written output t idx) eqn:Hw; [by left|].
    destruct Hor as [H|(t' & Ht' & Hw')]; [by left|]. right.
    apply elem_of_cons in Ht' as [->|Ht']; [congruence|].
    exists t'. split; [done|]. rewrite (written_same_frame output o1); [done|congruence..].
Qed.

(** The coordinate of an index vector on a labelled axis *)
Definition coordinate (ds : list string) (idx : list Z) (ax : string) : Z :=
  default 0 (dict_of (zip ds idx) !! ax).

Lemma coordinate_lookup (ds : list string) (idx : list Z) k ax x :
  NoDup ds → ds !! k = Some ax → idx !! k = Some x → coordinate ds idx ax = x.
Proof.
  intros Hnd Hax Hx. unfold coordinate.
  by rewrite (dict_of_zip_lookup pair ds idx k ax x).
Qed.

(** Every element of the buffer is written by a tile of the plan. *)
Lemma tiles_write_everywhere (tiles : list tile) (output : DataArray) (idx : list Z) :
  _get_tiling (shape (values input_)) tile_shape halo (dims input_) = Ok tiles →
  dims output = dims input_ → shape (values output) = shape (values input_) →
  in_bounds (shape (values input_)) idx →
  ∃ t, t ∈ tiles ∧ written output t idx = true.
Proof.
  intros Hget Hd Hs Hin.
  pose proof call_ok as (_ & _ & _ & _ & Hpi & Hb & Hc & _).
  pose proof Hpi as (Htok & _). pose proof Htok as (Hlen & Hnd & Hkeys).
  pose proof (Forall2_length _ _ _ Hin) as Hli.
  set (p := coordinate (dims input_) idx).
  assert (length (filter (covers p (dims input_)) tiles) = 1%nat) as Hone.
  { apply (covered_once _ tile_shape halo _ Htok tiles p Hget).
    intros k ax sh Hax _ Hsh.
    destruct (lookup_lt_is_Some_2 idx k) as [x Hx].
    { rewrite Hli. by eapply lookup_lt_Some. }
    unfold p. rewrite (coordinate_lookup _ _ k ax x) by done.
    apply (Forall2_lookup_lr _ _ _ _ _ _ Hin Hx Hsh). }
  destruct (filter (covers p (dims input_)) tiles) as [|t l] eqn:Hf; [done|].
  assert (t ∈ filter (covers p (dims input_)) tiles) as Ht by (rewrite Hf; left).
  apply list_elem_of_filter in Ht as [Hcov Ht].
  exists t. split; [done|].
  apply list_elem_of_lookup in Ht as [n Hn].
  destruct (get_tiling_tile _ _ _ _ _ _ _ Htok Hget Hn) as (sp & _ & Hsp & Hw).
  assert (plan_tile input_ tile_shape halo t) as Hplan by (by exists sp).
  destruct (outer_tile_dom _ _ _ _ _ _ Hw Hb Hc) as (_ & Hdomi & _).
  unfold written, dict_key. rewrite Hd, Hs. rewrite bool_decide_eq_true_2 by done.
  apply in_window_intro. intros k x m s Hx Hm Hk.
  rewrite list_lookup_fmap in Hk.
  destruct (dims input_ !! k) as [ax|] eqn:Hax; [|done]. cbn in Hk. injection Hk as <-.
  destruct (tile_axis_plan input_ tile_shape halo t k ax m Hpi Hplan Hax Hm)
    as (os & is_ & ie & oe & Hp & _ & Hns & Hsp').
  destruct Hp as (_ & -> & _). cbn [fst snd].
  pose proof (Forall2_lookup_lr _ _ _ _ _ _ Hin Hx Hm) as Hb'. cbn beta in Hb'.
  destruct (spatial ax) eqn:Hspat.
  - destruct (Hsp' eq_refl) as (_ & _ & _ & Hi & _).
    assert (in_inner p t ax) as Hii.
    { eapply (proj1 (Forall_forall _ _) Hcov). apply list_elem_of_filter.
      split; [by rewrite Hspat|by eapply list_elem_of_lookup_2]. }
    unfold in_inner in Hii. rewrite Hi in Hii.
    unfold p in Hii. by rewrite (coordinate_lookup _ _ k ax x) in Hii.
  - destruct (Hns eq_refl) as (_ & -> & -> & _). done.
Qed.

End tiled_identity.

(** ** Properties of the tiled and the padded prediction *)


Lemma tiled_bcyx_ok (n m t h : Z) :
  0 ≤ n → 0 ≤ m → 0 < t → 0 ≤ h →
  tiled_input_ok (MkDataArray bcyx (ramp [1; 1; n; m])) (yx_dict t) (yx_dict h).
Proof.
  intros Hn Hm Ht Hh. split; [split; [|split]|split; [|split; [|split]]].
  - apply tiling_bcyx_ok; [done|lia].
  - intros ax ha Hin Hs Hha. cbn [dims] in Hin.
    each_axis Hin; try (by vm_compute in Hs); vm_compute in Hha; by simplify_eq.
  - cbn. repeat constructor; lia.
  - apply (bool_decide_unpack _). by vm_compute.
  - apply (bool_decide_unpack _). by vm_compute.
  - cbn [dims]. repeat constructor.
  - by vm_compute.
Qed.






(** X4.  The windows of a tile fit together: on every axis the inner window lies
    within the outer window, and the local window, resolved against the
    extent of the outer window, is the inner window in the coordinates of
    the outer one; so [out[local_tile]] has the shape of
    [output[inner_tile]]. *)
Theorem tile_windows_nest (input_ : DataArray) (tile_shape halo : gmap string Z) :
  plan_input_ok input_ tile_shape halo →
  ∃ tiles,
    _get_tiling (shape (values input_)) tile_shape halo (dims input_) = Ok tiles ∧
    ∀ t k ax n, t ∈ tiles →
      dims input_ !! k = Some ax → shape (values input_) !! k = Some n →
      ∃ os is_ ie oe,
        slice_indices (default slice_all (outer_tile t !! ax)) n = (os, oe) ∧
        slice_indices (default slice_all (inner_tile t !! ax)) n = (is_, ie) ∧
        slice_indices (default slice_all (local_tile t !! ax)) (oe - os)
        = (is_ - os, ie - os) ∧
        0 ≤ os ∧ os ≤ is_ ∧ is_ ≤ ie ∧ ie ≤ oe ∧ oe ≤ n.
Proof.
  intros Hpi. pose proof Hpi as (Htok & _).
  destruct (get_tiling_spec _ _ _ _ Htok) as (tiles & Hget & _).
  exists tiles. split; [done|]. intros t k ax n Ht Hax Hn.
  pose proof (plan_tiles input_ tile_shape halo tiles t Htok Hget Ht) as Hplan.
  destruct (tile_axis_plan input_ tile_shape halo t k ax n Hpi Hplan Hax Hn)
    as (os & is_ & ie & oe & Hp & _).
  by exists os, is_, ie, oe.
Qed.

Lemma tile_windows_nest_witness :
  ∃ tiles,
    _get_tiling [1; 1; 9; 7] (yx_dict 4) (yx_dict 1) bcyx = Ok tiles ∧
    ∀ t k ax n, t ∈ tiles → bcyx !! k = Some ax → [1; 1; 9; 7] !! k = Some n →
      ∃ os is_ ie oe,
        slice_indices (default slice_all (outer_tile t !! ax)) n = (os, oe) ∧
        slice_indices (default slice_all (inner_tile t !! ax)) n = (is_, ie) ∧
        slice_indices (default slice_all (local_tile t !! ax)) (oe - os)
        = (is_ - os, ie - os) ∧
        0 ≤ os ∧ os ≤ is_ ∧ is_ ≤ ie ∧ ie ≤ oe ∧ oe ≤ n.
Proof.
  apply (tile_windows_nest (MkDataArray bcyx (ramp [1; 1; 9; 7])) (yx_dict 4) (yx_dict 1)).
  apply (tiled_bcyx_ok 9 7 4 1); lia.
Defined.

(** X5.  With the identity predictor the padded prediction of a list of one
    array returns the array: it is padded, labelled, predicted and cropped back,
    in dynamic and in fixed mode, whatever the side selection. *)
Theorem padded_identity_reproduces_input (pp : PredictionPipeline) (spec : tensor_spec)
    (inp : DataArray) (padding : padding_dict) (pad_right : pad_right_arg) :
  input_specs pp = [spec] → (∀ l, forward pp l = Ok l) →
  padding_truthy (PaddingOf padding) = true →
  dom (pad_targets padding) ⊆ list_to_set (axes spec ++ ["mode"]) →
  pad_call_ok (values inp) (axes spec) padding pad_right →
  axes spec ≠ [] → NoDup (axes spec) →
  Forall (λ n, 0 ≤ n) (shape (values inp)) →
  targets_allow (values inp) (axes spec) padding →
  ∃ cropped,
    predict_with_padding pp (ManyInputs [inp]) (PaddingOf padding) pad_right = Ok [cropped] ∧
    dims cropped = axes spec ∧ array_eq (values cropped) (values inp).
Proof.
  intros Hspecs Hfwd. apply (padded_identity pp spec); [done|done|by right].
Qed.

Lemma padded_identity_reproduces_input_witness :
  ∃ cropped,
    predict_with_padding (identity_pipeline [1; 1; 5; 7])
      (ManyInputs [MkDataArray bcyx (ramp [2; 1; 5; 7])])
      (PaddingOf (yx_setting "dynamic" 4 4)) (PadRightBool true) = Ok [cropped] ∧
    dims cropped = bcyx ∧ array_eq (values cropped) (ramp [2; 1; 5; 7]).
Proof.
  apply (padded_identity_reproduces_input (identity_pipeline [1; 1; 5; 7])
           (TensorSpec "input" bcyx (ExplicitShape [1; 1; 4; 4]) None "float32")
           (MkDataArray bcyx (ramp [2; 1; 5; 7]))).
  - reflexivity.
  - reflexivity.
  - reflexivity.
  - apply (bool_decide_unpack _). by vm_compute.
  - repeat split. by left.
  - done.
  - apply (bool_decide_unpack _). by vm_compute.
  - repeat constructor; lia.
  - intros k ax n Hax Hs Hsh.
    destruct k as [|[|[|[|k]]]]; simpl in Hax, Hsh; simplify_eq; try (by vm_compute in Hs);
      exists 4; (split; [reflexivity|]); (split; [lia|]); intros [=].
Defined.

(** ** Settings *)

(** A tiling setting that [check_tiling] accepts for the axes of the input:
    a halo and a tile entry, with a positive halo and a positive tile extent
    for every spatial axis. *)
Definition tiling_dict_ok (axes : list string) (d : gmap string (gmap string Z)) : Prop :=
  ∃ halo tile, d !! "halo" = Some halo ∧ d !! "tile" = Some tile ∧
    ∀ ax, ax ∈ axes → spatial ax = true →
      (∃ h, halo !! ax = Some h ∧ 0 < h) ∧ (∃ t, tile !! ax = Some t ∧ 0 < t).

Lemma positive_entries (m : gmap string Z) (axes : list string) :
  forallb (λ ax, 0 <? default 0 (m !! ax)) (filter (λ ax, spatial ax) axes) = true ↔
  ∀ ax, ax ∈ axes → spatial ax = true → ∃ v, m !! ax = Some v ∧ 0 < v.
Proof.
  rewrite <- Is_true_true, forallb_True, Forall_forall. split.
  - intros H ax Hin Hs.
    assert (ax ∈ filter (λ ax, spatial ax) axes) as Hf.
    { apply list_elem_of_filter. split; [by rewrite Hs|done]. }
    specialize (H ax Hf). apply Is_true_true, Z.ltb_lt in H.
    destruct (m !! ax) as [v|]; simpl in H; [|lia]. by exists v.
  - intros H ax Hf. apply list_elem_of_filter in Hf as [Hs Hin].
    destruct (H ax Hin) as (v & Hv & Hpos); [by apply Is_true_true|].
    rewrite Hv. simpl. by apply Is_true_true, Z.ltb_lt.
Qed.

Lemma check_tiling_spec (axes : list string) (d : gmap string (gmap string Z)) :
  (check_tiling axes d = Ok () ∧ tiling_dict_ok axes d) ∨
  (check_tiling axes d = Raise AssertionError ∧ ¬ tiling_dict_ok axes d).
Proof.
  unfold check_tiling, tiling_dict_ok, getitem.
  destruct (d !! "halo") as [halo|] eqn:Hh; destruct (d !! "tile") as [tile|] eqn:Ht;
    cbn [bool_decide andb py_assert mbind result_bind].
  2,3,4: (right; split; [done|intros (? & ? & ? & ? & _); done]).
  rewrite (bool_decide_eq_true_2 (is_Some (Some halo))) by done.
  rewrite (bool_decide_eq_true_2 (is_Some (Some tile))) by done.
  cbn [andb py_assert mbind result_bind].
  destruct (forallb (λ ax, 0 <? default 0 (halo !! ax)) _) eqn:Hfh;
    cbn [py_assert mbind result_bind].
  - destruct (forallb (λ ax, 0 <? default 0 (tile !! ax)) _) eqn:Hft;
      cbn [py_assert mbind result_bind].
    + left. split; [done|]. exists halo, tile.
      split; [done|]. split; [done|]. intros ax Hin Hs. split.
      * by apply (proj1 (positive_entries halo axes) Hfh).
      * by apply (proj1 (positive_entries tile axes) Hft).
    + right. split; [done|]. intros (halo' & tile' & [= <-] & [= <-] & H).
      apply not_true_iff_false in Hft. apply Hft. apply positive_entries.
      intros ax Hin Hs. by destruct (H ax Hin Hs).
  - right. split; [done|]. intros (halo' & tile' & [= <-] & [= <-] & H).
    apply not_true_iff_false in Hfh. apply Hfh. apply positive_entries.
    intros ax Hin Hs. by destruct (H ax Hin Hs).
Qed.

(** X6.  [_parse_tiling] takes a tiling dictionary as it is, and exactly when
    it has a halo and a tile entry that give every spatial axis of the input
    description a positive halo and a positive tile extent; any other
    dictionary (a missing entry, a missing axis, an extent or a halo of 0)
    raises AssertionError.  More than one input or output description is
    refused with NotImplementedError before the dictionary is looked at. *)
Theorem parse_tiling_accepts_positive_settings (d : gmap string (gmap string Z))
    (input_specs output_specs : list tensor_spec) (ispec ospec : tensor_spec) :
  ((1 < length input_specs)%nat →
   _parse_tiling (TilingOf d) input_specs output_specs = Raise NotImplementedError) ∧
  ((1 < length output_specs)%nat →
   _parse_tiling (TilingOf d) [ispec] output_specs = Raise NotImplementedError) ∧
  (_parse_tiling (TilingOf d) [ispec] [ospec] = Ok (Some d) ↔ tiling_dict_ok (axes ispec) d) ∧
  (_parse_tiling (TilingOf d) [ispec] [ospec] = Raise AssertionError
   ↔ ¬ tiling_dict_ok (axes ispec) d).
Proof.
  split; [|split].
  - intros H. unfold _parse_tiling. by rewrite decide_True.
  - intros H. unfold _parse_tiling. rewrite decide_False by (simpl; lia).
    by rewrite decide_True.
  - unfold _parse_tiling. rewrite !decide_False by (simpl; lia).
    cbn [head_item mbind result_bind].
    destruct (check_tiling_spec (axes ispec) d) as [[-> Hok]|[-> Hno]];
      cbn [mbind result_bind]; split; split; done.
Qed.

(** The entries that a setting derived from a description has: the spatial
    axes of the description, each with the number at its position. *)
Lemma spatial_zip_keys (axes : list string) (l : list Z) :
  (filter (λ kv : string * Z, spatial kv.1) (zip axes l)).*1 `sublist_of` axes.
Proof.
  transitivity (zip axes l).*1.
  - apply fmap_sublist, sublist_filter.
  - assert ((zip axes l).*1 = take (length l) axes) as Hk
      by (by apply (zip_with_keys pair)).
    rewrite Hk. apply sublist_take.
Qed.

Lemma dict_of_spatial_zip (axes : list string) (l : list Z) (k : nat) (ax : string) (n : Z) :
  NoDup axes → axes !! k = Some ax → spatial ax = true → l !! k = Some n →
  dict_of (filter (λ kv : string * Z, spatial kv.1) (zip axes l)) !! ax = Some n.
Proof.
  intros Hnd Hax Hs Hn. apply dict_of_lookup_Some.
  - eapply sublist_NoDup; [exact Hnd|apply spatial_zip_keys].
  - apply list_elem_of_filter. split; [by apply Is_true_true|].
    apply list_elem_of_lookup. exists k. by apply lookup_zip_pair.
Qed.

Lemma dict_of_spatial_zip_key (axes : list string) (l : list Z) (ax : string) :
  is_Some (dict_of (filter (λ kv : string * Z, spatial kv.1) (zip axes l)) !! ax) →
  ax ∈ axes ∧ spatial ax = true.
Proof.
  intros H. apply dict_of_lookup_is_Some in H.
  apply list_elem_of_fmap in H as ([ax' n] & -> & Hin).
  apply list_elem_of_filter in Hin as [Hs Hin]. split; [|by apply Is_true_true].
  apply list_elem_of_lookup in Hin as [k Hk].
  apply lookup_zip_with_Some in Hk as (x & y & [= <- <-] & Hx & _).
  by eapply list_elem_of_lookup_2.
Qed.

(** X7.  [_parse_padding] with [padding=True] derives the setting from the
    one input description and never fails on its own key check: an explicit
    shape gives mode fixed with the extent of the shape as target of every
    spatial axis, a parametrized shape gives mode dynamic with the step of
    every spatial axis as divisor; only spatial axes of the description get
    an entry.  A dictionary is returned as it is, exactly when its keys are
    axes of the description; [None] and [False] give no padding. *)
Theorem parse_padding_derives_setting (spec : tensor_spec) :
  (∀ nums mode,
     (spec_shape spec = ExplicitShape nums ∧ mode = "fixed") ∨
     (∃ min, spec_shape spec = ParametrizedInputShape min nums ∧ mode = "dynamic") →
     ∃ p, _parse_padding (PaddingBool true) [spec] = Ok (Some p) ∧
          pad_mode p = Some mode ∧
          (∀ ax, is_Some (pad_targets p !! ax) → ax ∈ axes spec ∧ spatial ax = true) ∧
          (NoDup (axes spec) →
           ∀ k ax n, axes spec !! k = Some ax → spatial ax = true → nums !! k = Some n →
                     pad_targets p !! ax = Some n)) ∧
  (∀ d, _parse_padding (PaddingOf d) [spec] = Ok (Some d)
        ↔ dom (pad_targets d) ⊆ list_to_set (axes spec ++ ["mode"])) ∧
  (∀ d, _parse_padding (PaddingOf d) [spec] = Raise AssertionError
        ↔ ¬ dom (pad_targets d) ⊆ list_to_set (axes spec ++ ["mode"])) ∧
  _parse_padding PaddingNone [spec] = Ok None ∧
  _parse_padding (PaddingBool false) [spec] = Ok None.
Proof.
  assert (∀ nums mode,
            check_padding (axes spec ++ ["mode"])
              (PaddingDict (Some mode)
                 (dict_of (filter (λ kv : string * Z, spatial kv.1) (zip (axes spec) nums))))
            = Ok ()) as Hcheck.
  { intros nums mode. unfold check_padding. cbn [pad_targets].
    rewrite bool_decide_eq_true_2; [done|].
    apply elem_of_subseteq. intros ax Hin. apply elem_of_dom in Hin.
    apply dict_of_spatial_zip_key in Hin as [Hin _].
    apply elem_of_list_to_set, elem_of_app. by left. }
  split; [|split; [|split; [|split]]].
  - intros nums mode Hshape. eexists. split.
    { unfold _parse_padding. rewrite decide_False by (simpl; lia).
      cbn [head_item mbind result_bind].
      destruct Hshape as [[-> ->]|(min & -> & ->)]; cbn [mbind result_bind];
        rewrite Hcheck; reflexivity. }
    cbn [pad_mode pad_targets]. split; [done|]. split.
    + apply dict_of_spatial_zip_key.
    + intros Hnd k ax n. by apply dict_of_spatial_zip.
  - intros d. unfold _parse_padding. rewrite decide_False by (simpl; lia).
    cbn [head_item mbind result_bind]. unfold check_padding.
    destruct (decide (dom (pad_targets d) ⊆ list_to_set (axes spec ++ ["mode"]))) as [H|H].
    + rewrite bool_decide_eq_true_2 by done. done.
    + rewrite bool_decide_eq_false_2 by done. done.
  - intros d. unfold _parse_padding. rewrite decide_False by (simpl; lia).
    cbn [head_item mbind result_bind]. unfold check_padding.
    destruct (decide (dom (pad_targets d) ⊆ list_to_set (axes spec ++ ["mode"]))) as [H|H].
    + rewrite bool_decide_eq_true_2 by done. done.
    + rewrite bool_decide_eq_false_2 by done. done.
  - done.
  - unfold _parse_padding. rewrite decide_False by (simpl; lia). done.
Qed.

(** ** _determine_shape *)

Lemma grow_to_spec (fuel : nat) (min_len step_ax len_ax : Z) :
  0 < step_ax → min_len - len_ax ≤ Z.of_nat fuel →
  ∃ j, 0 ≤ j ∧ grow_to fuel min_len step_ax len_ax = len_ax + j * step_ax ∧
       min_len ≤ len_ax + j * step_ax ∧
       (j = 0 ∨ len_ax + (j - 1) * step_ax < min_len).
Proof.
  intros Hstep. revert len_ax.
  induction fuel as [|fuel IH]; intros len_ax Hfuel.
  - cbn [grow_to]. destruct (Z.ltb_spec len_ax min_len); [lia|].
    exists 0. repeat split; lia.
  - cbn [grow_to]. destruct (Z.ltb_spec len_ax min_len) as [Hlt|Hge].
    + destruct (IH (len_ax + step_ax)) as (j & Hj & Hg & Hmin & Hleast); [lia|].
      exists (j + 1). rewrite Hg. split; [lia|]. split; [lia|]. split; [lia|].
      right. destruct Hleast as [->|Hl]; [lia|]. lia.
    + exists 0. repeat split; lia.
Qed.

(** X8.  [_determine_shape] gives one extent per axis (as many as the
    shortest of the three lists).  On an axis that the test [ax in "zyx"]
    takes as spatial and whose step is positive, the extent is the minimal
    extent plus the least number of steps that reaches the minimal length
    (64 when the axes have a z, 256 otherwise); on any other axis it is the
    minimal extent itself. *)
Theorem determine_shape_reaches_minimal_length (min_shape step : list Z)
    (axes : list string) :
  length (_determine_shape min_shape step axes)
  = (length axes `min` (length min_shape `min` length step))%nat ∧
  ∀ k ax m s, axes !! k = Some ax → min_shape !! k = Some m → step !! k = Some s →
    ∃ r, _determine_shape min_shape step axes !! k = Some r ∧
         if str_in ax "zyx" && (0 <? s)
         then ∃ j, 0 ≤ j ∧ r = m + j * s ∧
                   (if bool_decide ("z" ∈ axes) then 64 else 256) ≤ r ∧
                   (j = 0 ∨ r - s < (if bool_decide ("z" ∈ axes) then 64 else 256))
         else r = m.
Proof.
  split.
  - unfold _determine_shape. by rewrite length_fmap, !length_zip_with.
  - intros k ax m s Hax Hm Hs. unfold _determine_shape.
    rewrite list_lookup_fmap, (proj2 (lookup_zip3 _ _ _ k ax m s)) by done.
    cbn [fmap option_fmap option_map fst snd]. eexists. split; [reflexivity|].
    destruct (str_in ax "zyx" && (0 <? s)) eqn:Hc; [|done].
    apply andb_true_iff in Hc as [_ Hpos]. apply Z.ltb_lt in Hpos.
    destruct (grow_to_spec (Z.to_nat ((if bool_decide ("z" ∈ axes) then 64 else 256) - m))
                (if bool_decide ("z" ∈ axes) then 64 else 256) s m Hpos)
      as (j & Hj & Hg & Hmin & Hleast); [lia|].
    exists j. rewrite Hg. split; [done|]. split; [done|]. split; [done|].
    destruct Hleast as [->|Hl]; [by left|right; lia].
Qed.

(** ** Failures of the tile plan *)

Lemma for_each_getitem {V : Type} (d : gmap string V) (l : list string) :
  (∃ vs, for_each (getitem d) l = Ok vs ∧ Forall2 (λ k v, d !! k = Some v) l vs) ∨
  (for_each (getitem d) l = Raise KeyError ∧ ∃ k, k ∈ l ∧ d !! k = None).
Proof.
  induction l as [|k l IH]; cbn [for_each].
  - left. exists []. split; [done|constructor].
  - destruct (d !! k) as [v|] eqn:Hk.
    + assert (getitem d k = Ok v) as -> by (unfold getitem; by rewrite Hk).
      cbn [mbind result_bind].
      destruct IH as [(vs & -> & HF)|(-> & k' & Hin & Hno)]; cbn [mbind result_bind].
      * left. exists (v :: vs). split; [done|]. by constructor.
      * right. split; [done|]. exists k'. split; [by right|done].
    + assert (getitem d k = Raise KeyError) as -> by (unfold getitem; by rewrite Hk).
      right. split; [done|]. exists k. split; [left|done].
Qed.

Lemma for_each_n_tiles_along (l : list (Z * Z)) :
  (Forall (λ st : Z * Z, st.2 ≠ 0) l ∧
   for_each (λ st : Z * Z, n_tiles_along st.1 st.2) l
   = Ok ((λ st : Z * Z, n_tiles st.1 st.2) <$> l)) ∨
  (Exists (λ st : Z * Z, st.2 = 0) l ∧
   for_each (λ st : Z * Z, n_tiles_along st.1 st.2) l = Raise ZeroDivisionError).
Proof.
  induction l as [|[sh tsh] l IH]; cbn [for_each].
  - left. split; [constructor|done].
  - cbn [fst snd]. destruct (decide (tsh = 0)) as [->|Hne].
    + right. split; [by left|]. unfold n_tiles_along, py_mod. done.
    + rewrite n_tiles_along_Ok by done. cbn [mbind result_bind].
      destruct IH as [[HF ->]|[HE ->]]; cbn [mbind result_bind].
      * left. split; [by constructor|done].
      * right. split; [by right|done].
Qed.

Lemma spatial_filter_lengths (shp : list Z) (input_axes : list string) :
  length shp = length input_axes →
  length (filter (λ sa : Z * string, spatial sa.2) (zip shp input_axes)).*1
  = length (filter (λ ax, spatial ax) input_axes).
Proof.
  intros Hl. rewrite <- (spatial_part_axes shp input_axes) by done.
  unfold spatial_part. by rewrite !length_fmap.
Qed.

(** X9.  What makes [_get_tiling] fail, and that nothing else does:
    AssertionError when the shape and the labels differ in length; KeyError
    when a spatial axis has no tile extent or no halo; ZeroDivisionError
    when all are there and a spatial axis has the tile extent 0; and with
    distinct labels, a tile extent other than 0 and a halo for every spatial
    axis it returns the tile sequence. *)
Theorem get_tiling_failures (shp : list Z) (tile_shape halo : gmap string Z)
    (input_axes : list string) :
  (length shp ≠ length input_axes →
   _get_tiling shp tile_shape halo input_axes = Raise AssertionError) ∧
  (length shp = length input_axes →
   (∃ ax, ax ∈ input_axes ∧ spatial ax = true ∧
          (tile_shape !! ax = None ∨ halo !! ax = None)) →
   _get_tiling shp tile_shape halo input_axes = Raise KeyError) ∧
  (length shp = length input_axes →
   (∀ ax, ax ∈ input_axes → spatial ax = true →
          is_Some (tile_shape !! ax) ∧ is_Some (halo !! ax)) →
   (∃ ax, ax ∈ input_axes ∧ spatial ax = true ∧ tile_shape !! ax = Some 0) →
   _get_tiling shp tile_shape halo input_axes = Raise ZeroDivisionError) ∧
  (length shp = length input_axes → NoDup input_axes →
   (∀ ax, ax ∈ input_axes → spatial ax = true →
          (∃ tsh, tile_shape !! ax = Some tsh ∧ tsh ≠ 0) ∧ is_Some (halo !! ax)) →
   ∃ tiles, _get_tiling shp tile_shape halo input_axes = Ok tiles).
Proof.
  assert (∀ ax, ax ∈ filter (λ ax, spatial ax) input_axes ↔
                ax ∈ input_axes ∧ spatial ax = true) as Hsp.
  { intros ax. rewrite list_elem_of_filter, Is_true_true. tauto. }
  unfold _get_tiling. split; [|split; [|split]].
  - intros Hl. by rewrite bool_decide_eq_false_2.
  - intros Hl (ax & Hin & Hs & Hmiss). rewrite bool_decide_eq_true_2 by done.
    cbn [py_assert mbind result_bind].
    destruct (for_each_getitem tile_shape (filter (λ ax, spatial ax) input_axes))
      as [(ts & -> & HFt)|(-> & _)]; cbn [mbind result_bind]; [|done].
    destruct (for_each_getitem halo (filter (λ ax, spatial ax) input_axes))
      as [(hs & -> & HFh)|(-> & _)]; cbn [mbind result_bind]; [|done].
    exfalso. assert (ax ∈ filter (λ ax, spatial ax) input_axes) as Hf by (by apply Hsp).
    apply list_elem_of_lookup in Hf as [j Hj].
    destruct (Forall2_lookup_l _ _ _ _ _ HFt Hj) as (t & _ & Ht).
    destruct (Forall2_lookup_l _ _ _ _ _ HFh Hj) as (h & _ & Hh).
    destruct Hmiss; congruence.
  - intros Hl Hall (ax & Hin & Hs & Hzero). rewrite bool_decide_eq_true_2 by done.
    cbn [py_assert mbind result_bind].
    destruct (for_each_getitem tile_shape (filter (λ ax, spatial ax) input_axes))
      as [(ts & -> & HFt)|(_ & k & Hk & Hno)]; cbn [mbind result_bind].
    2:{ exfalso. apply Hsp in Hk as [Hk Hks]. destruct (Hall k Hk Hks) as [[? ?] _].
        congruence. }
    destruct (for_each_getitem halo (filter (λ ax, spatial ax) input_axes))
      as [(hs & -> & HFh)|(_ & k & Hk & Hno)]; cbn [mbind result_bind].
    2:{ exfalso. apply Hsp in Hk as [Hk Hks]. destruct (Hall k Hk Hks) as [_ [? ?]].
        congruence. }
    pose proof (Forall2_length _ _ _ HFt) as Hlt.
    pose proof (Forall2_length _ _ _ HFh) as Hlh.
    pose proof (spatial_filter_lengths shp input_axes Hl) as Hls.
    rewrite bool_decide_eq_true_2 by (split; [|split]; congruence).
    cbn [py_assert mbind result_bind]. unfold tile_counts.
    destruct (for_each_n_tiles_along
                (zip (filter (λ sa : Z * string, spatial sa.2) (zip shp input_axes)).*1 ts))
      as [[HF _]|[_ ->]]; [|done].
    exfalso. assert (ax ∈ filter (λ ax, spatial ax) input_axes) as Hf by (by apply Hsp).
    apply list_elem_of_lookup in Hf as [j Hj].
    destruct (Forall2_lookup_l _ _ _ _ _ HFt Hj) as (t & Htj & Ht).
    rewrite Hzero in Ht. injection Ht as <-.
    destruct (lookup_lt_is_Some_2
                (filter (λ sa : Z * string, spatial sa.2) (zip shp input_axes)).*1 j)
      as [sh Hsh].
    { rewrite Hls. by eapply lookup_lt_Some. }
    pose proof (lookup_zip_pair _ _ j sh 0 Hsh Htj) as Hz.
    by apply (proj1 (Forall_lookup _ _) HF j _ Hz).
  - intros Hl Hnd Hall. rewrite bool_decide_eq_true_2 by done.
    cbn [py_assert mbind result_bind].
    destruct (for_each_getitem tile_shape (filter (λ ax, spatial ax) input_axes))
      as [(ts & -> & HFt)|(_ & k & Hk & Hno)]; cbn [mbind result_bind].
    2:{ exfalso. apply Hsp in Hk as [Hk Hks].
        destruct (Hall k Hk Hks) as [(? & ? & _) _]. congruence. }
    destruct (for_each_getitem halo (filter (λ ax, spatial ax) input_axes))
      as [(hs & -> & HFh)|(_ & k & Hk & Hno)]; cbn [mbind result_bind].
    2:{ exfalso. apply Hsp in Hk as [Hk Hks]. destruct (Hall k Hk Hks) as [_ [? ?]].
        congruence. }
    pose proof (Forall2_length _ _ _ HFt) as Hlt.
    pose proof (Forall2_length _ _ _ HFh) as Hlh.
    pose proof (spatial_filter_lengths shp input_axes Hl) as Hls.
    rewrite bool_decide_eq_true_2 by (split; [|split]; congruence).
    cbn [py_assert mbind result_bind]. unfold tile_counts.
    destruct (for_each_n_tiles_along
                (zip (filter (λ sa : Z * string, spatial sa.2) (zip shp input_axes)).*1 ts))
      as [[_ ->]|[HE _]]; cbn [mbind result_bind].
    + destruct (for_each_related
                  (make_tile (filter (λ ax, spatial ax) input_axes) ts
                     (filter (λ sa : Z * string, spatial sa.2) (zip shp input_axes)).*1 hs)
                  (λ _ _, True)
                  (product (py_range <$> ((λ st : Z * Z, n_tiles st.1 st.2) <$>
                     zip (filter (λ sa : Z * string, spatial sa.2) (zip shp input_axes)).*1
                         ts))))
        as (tiles & -> & _); [|by eexists].
      intros sp Hin. apply elem_of_product in Hin.
      apply Forall2_length in Hin. rewrite !length_fmap, length_zip_with in Hin.
      destruct (make_tile_spec (filter (λ ax, spatial ax) input_axes) ts
                  (filter (λ sa : Z * string, spatial sa.2) (zip shp input_axes)).*1 hs)
        with (sp := sp) as (t & Ht & _); [| |lia|lia|lia|lia|by exists t].
      * by apply NoDup_filter.
      * apply Forall_forall. intros a Ha. by apply Hsp in Ha as [_ ?].
    + exfalso. apply Exists_exists in HE as ([sh t] & Hin & Hz). cbn in Hz. subst t.
      apply list_elem_of_lookup in Hin as [j Hj].
      apply lookup_zip_with_Some in Hj as (? & ? & [= <- <-] & _ & Htj).
      destruct (Forall2_lookup_r _ _ _ _ _ HFt Htj) as (a & Ha & Hta).
      assert (a ∈ filter (λ ax, spatial ax) input_axes) as Hf
        by (by eapply list_elem_of_lookup_2).
      apply Hsp in Hf as [Hin Hs]. destruct (Hall a Hin Hs) as [(t & Ht & Hne) _].
      congruence.
Qed.

(** ** Loading and saving around a prediction *)

(** X10.  [_load_tensors] reads the sources in order, pairing each with the
    description at its position and stopping at the shorter of the two
    lists, and stops at the first source that cannot be read: the images
    read are those of a prefix of the sources; on success the prefix is all
    the pairs, on failure it ends with the source whose reading raised. *)
Theorem load_tensors_trace (env : io_env) (sources : list string)
    (tensor_specs : list tensor_spec) :
  ∃ n, (n ≤ length sources `min` length tensor_specs)%nat ∧
    (_load_tensors env sources tensor_specs).1 = LoadImage <$> take n sources ∧
    match (_load_tensors env sources tensor_specs).2 with
    | Ok ims =>
      n = (length sources `min` length tensor_specs)%nat ∧ length ims = n ∧
      ∀ k s sspec, sources !! k = Some s → tensor_specs !! k = Some sspec →
        ∃ im, ims !! k = Some im ∧ read_image env s (axes sspec) = Ok im
    | Raise e =>
      ∃ k s sspec, n = S k ∧ sources !! k = Some s ∧ tensor_specs !! k = Some sspec ∧
        read_image env s (axes sspec) = Raise e ∧
        ∀ j s' sspec', (j < k)%nat → sources !! j = Some s' →
          tensor_specs !! j = Some sspec' →
          ∃ im, read_image env s' (axes sspec') = Ok im
    end.
Proof.
  revert tensor_specs. induction sources as [|s sources IH]; intros tensor_specs.
  - exists 0%nat. cbn. split; [lia|]. split; [done|]. split; [done|]. split; [done|].
    intros k s sspec Hk. done.
  - destruct tensor_specs as [|sspec tensor_specs].
    { exists 0%nat. cbn. split; [lia|]. split; [done|]. split; [done|]. split; [done|].
      intros k s' sspec' _ Hk. done. }
    cbn [_load_tensors]. destruct (read_image env s (axes sspec)) as [im|e] eqn:Hr.
    + destruct (IH tensor_specs) as (n & Hn & Hev & Hres).
      exists (S n). cbn [length fst snd]. split; [lia|]. split.
      { rewrite Hev. done. }
      destruct (_load_tensors env sources tensor_specs).2 as [ims|e];
        cbn [mbind result_bind].
      * destruct Hres as (-> & Hl & Hall). split; [lia|]. split; [cbn; lia|].
        intros [|k] s' sspec' Hs' Hsp'; cbn in Hs', Hsp'.
        -- simplify_eq. by exists im.
        -- by apply Hall.
      * destruct Hres as (k & s' & sspec' & -> & Hs' & Hsp' & Hre & Hbefore).
        exists (S k), s', sspec'. repeat (split; [done|]).
        intros [|j] s'' sspec'' Hj Hs'' Hsp''; cbn in Hs'', Hsp''.
        -- simplify_eq. by exists im.
        -- apply (Hbefore j); [lia|done..].
    + exists 1%nat. cbn [length fst snd]. split; [lia|]. split; [done|].
      exists 0%nat, s, sspec. repeat (split; [done|]). intros; lia.
Qed.

Lemma save_images_trace (env : io_env) (l : list (DataArray * string)) :
  ∃ n, (n ≤ length l)%nat ∧
    (save_images env l).1 = (λ ro : DataArray * string, SaveImage ro.2 ro.1) <$> take n l ∧
    ((save_images env l).2 = Ok () → n = length l).
Proof.
  induction l as [|[res out] l IH].
  - exists 0%nat. done.
  - cbn [save_images]. destruct (write_image env out res) as [[]|e].
    + destruct IH as (n & Hn & Hev & Hok). exists (S n). cbn [fst snd length].
      split; [lia|]. split; [by rewrite Hev|]. intros H. by rewrite Hok.
    + exists 1%nat. cbn [fst snd length]. split; [lia|]. done.
Qed.


(** ** The public tiled prediction *)

(** X12.  The tiled prediction that callers use never runs with a halo of 0:
    for a model with one input and one output description and a list of
    inputs, a tiling dictionary that does not give every spatial axis a
    positive halo and a positive tile extent makes [predict_with_tiling]
    raise AssertionError (ValueError for the empty dictionary), whatever the
    inputs and the buffers are; no buffer is allocated and no tile is
    predicted. *)
Theorem tiled_prediction_refuses_zero_halo (pp : PredictionPipeline)
    (ispec ospec : tensor_spec) (inputs : list DataArray)
    (d : gmap string (gmap string Z)) (outputs : option (list DataArray)) :
  input_specs pp = [ispec] → output_specs pp = [ospec] →
  ¬ tiling_dict_ok (axes ispec) d →
  predict_with_tiling pp (ManyInputs inputs) (TilingOf d) outputs
  = Raise (if decide (d = ∅) then ValueError else AssertionError).
Proof.
  intros Hi Ho Hbad. unfold predict_with_tiling, tiling_truthy.
  destruct (decide (d = ∅)) as [->|Hne].
  - by rewrite bool_decide_eq_true_2.
  - rewrite bool_decide_eq_false_2 by done. cbn [negb inputs_len mbind result_bind].
    rewrite Hi, Ho. destruct (Z.of_nat (length inputs) =? Z.of_nat (length [ispec])); [|done].
    cbn [py_assert mbind result_bind].
    unfold _parse_tiling. rewrite !decide_False by (simpl; lia).
    cbn [head_item mbind result_bind].
    by destruct (check_tiling_spec (axes ispec) d) as [[_ Hok]|[-> _]].
Qed.

(** ** Image files

    Labels and positions: [index_of] and the permutation of [np_transpose]. *)

Lemma index_of_Some {A : Type} `{EqDecision A} (x : A) (l : list A) (i : nat) :
  index_of x l = Some i → l !! i = Some x.
Proof.
  revert i. induction l as [|y l IH]; intros i; simpl; [done|].
  destruct (decide (y = x)) as [->|Hne].
  - by intros [= <-].
  - destruct (index_of x l) as [j|]; simpl; [|done]. intros [= <-]. simpl. by apply IH.
Qed.

Lemma index_of_None {A : Type} `{EqDecision A} (x : A) (l : list A) :
  index_of x l = None ↔ x ∉ l.
Proof.
  induction l as [|y l IH]; simpl.
  - split; [intros _; apply not_elem_of_nil|done].
  - rewrite not_elem_of_cons. destruct (decide (y = x)) as [->|Hne].
    + split; [done|]. intros [? _]. done.
    + destruct (index_of x l) as [j|]; simpl.
      * split; [done|]. intros [_ Hn]. by apply IH in Hn.
      * split; [|done]. intros _. split; [done|]. by apply IH.
Qed.

Lemma index_of_NoDup {A : Type} `{EqDecision A} (x : A) (l : list A) (i : nat) :
  NoDup l → l !! i = Some x → index_of x l = Some i.
Proof.
  intros Hnd Hi. destruct (index_of x l) as [j|] eqn:Hj.
  - apply index_of_Some in Hj. f_equal. by eapply NoDup_lookup.
  - apply index_of_None in Hj. exfalso. apply Hj. by eapply list_elem_of_lookup_2.
Qed.

Lemma index_of_elem {A : Type} `{EqDecision A} (x : A) (l : list A) :
  x ∈ l → ∃ i, index_of x l = Some i ∧ l !! i = Some x.
Proof.
  intros Hin. destruct (index_of x l) as [j|] eqn:Hj.
  - exists j. split; [done|]. by apply index_of_Some.
  - apply index_of_None in Hj. done.
Qed.

(** The positions of the labels [target] in the labels [src] *)
Definition positions (src target : list string) : list nat :=
  (λ ax, default 0%nat (index_of ax src)) <$> target.

Lemma for_each_py_index (src target : list string) :
  (∀ ax, ax ∈ target → ax ∈ src) →
  for_each (py_index src) target = Ok (positions src target).
Proof.
  intros Hsub. apply for_each_total. intros ax Hax. unfold py_index.
  destruct (index_of_elem ax src (Hsub ax Hax)) as (i & -> & _). done.
Qed.

Lemma positions_lookup (src target : list string) (k j : nat) (ax : string) :
  NoDup src → target !! k = Some ax → src !! j = Some ax →
  positions src target !! k = Some j.
Proof.
  intros Hnd Hk Hj. unfold positions. rewrite list_lookup_fmap, Hk. simpl.
  by rewrite (index_of_NoDup ax src j).
Qed.

Lemma positions_NoDup (src target : list string) :
  (∀ ax, ax ∈ target → ax ∈ src) → NoDup target → NoDup (positions src target).
Proof.
  intros Hsub Hnd. apply NoDup_fmap_2_strong; [|done].
  intros x y Hx Hy Heq.
  destruct (index_of_elem x src (Hsub x Hx)) as (i & Hi & Hxi).
  destruct (index_of_elem y src (Hsub y Hy)) as (j & Hj & Hyj).
  rewrite Hi, Hj in Heq. simpl in Heq. subst j. congruence.
Qed.

Lemma positions_bound (src target : list string) :
  (∀ ax, ax ∈ target → ax ∈ src) →
  Forall (λ p, (p < length src)%nat) (positions src target).
Proof.
  intros Hsub. apply Forall_fmap, Forall_forall. intros ax Hax. simpl.
  destruct (index_of_elem ax src (Hsub ax Hax)) as (i & -> & Hi). simpl.
  by eapply lookup_lt_Some.
Qed.

(** The index vector itself, read by label *)
Lemma coordinate_self (ds : list string) (idx : list Z) :
  NoDup ds → length idx = length ds → coordinate ds idx <$> ds = idx.
Proof.
  intros Hnd Hlen. apply list_eq. intros k. rewrite list_lookup_fmap.
  destruct (ds !! k) as [ax|] eqn:Hk; simpl.
  - destruct (lookup_lt_is_Some_2 idx k) as [x Hx].
    { rewrite Hlen. by eapply lookup_lt_Some. }
    by rewrite Hx, (coordinate_lookup ds idx k ax x).
  - symmetry. apply lookup_ge_None. rewrite Hlen. by apply lookup_ge_None.
Qed.

Lemma coordinate_missing (ds : list string) (idx : list Z) (ax : string) :
  ax ∉ ds → coordinate ds idx ax = 0.
Proof.
  intros Hn. unfold coordinate.
  by rewrite (dict_of_zip_lookup_None pair ds idx ax).
Qed.

(** A transposition by labels: a rearrangement [target] of the labels
    [src] of an array is accepted, and the result has, at every index
    vector, the element of the array at the same labelled position. *)
Lemma transpose_by_labels (a : ndarray) (src target : list string) :
  NoDup src → length src = ndim a → target ≡ₚ src →
  ∃ r, np_transpose a (positions src target) = Ok r ∧
    dtype r = dtype a ∧
    length (shape r) = length target ∧
    (∀ k j ax, target !! k = Some ax → src !! j = Some ax →
               shape r !! k = shape a !! j) ∧
    (∀ idx, length idx = length target →
            item r idx = item a (coordinate target idx <$> src)).
Proof.
  intros Hnd Hlen Hperm.
  assert (∀ ax, ax ∈ target → ax ∈ src) as Hsub by (intros ax; by rewrite Hperm).
  assert (NoDup target) as Hndt by (by rewrite Hperm).
  assert (length target = length src) as Hlt by (by rewrite Hperm).
  unfold np_transpose. rewrite bool_decide_eq_true_2.
  2:{ split; [|split].
      - unfold positions. rewrite length_fmap. congruence.
      - by apply positions_NoDup.
      - rewrite <- Hlen. by apply positions_bound. }
  eexists. split; [done|]. cbn [shape dtype item]. split; [done|]. split.
  { unfold positions. by rewrite !length_fmap. }
  split.
  - intros k j ax Hk Hj. rewrite list_lookup_fmap.
    rewrite (positions_lookup src target k j ax) by done. simpl.
    destruct (lookup_lt_is_Some_2 (shape a) j) as [n Hn].
    { fold (ndim a). rewrite <- Hlen. by eapply lookup_lt_Some. }
    by rewrite Hn.
  - intros idx Hidx. f_equal. apply list_eq. intros j.
    rewrite !list_lookup_fmap. rewrite <- Hlen.
    destruct (src !! j) as [ax|] eqn:Hj; simpl.
    + rewrite lookup_seq_lt by (by eapply lookup_lt_Some). simpl. f_equal.
      assert (ax ∈ target) as Hax.
      { rewrite Hperm. by eapply list_elem_of_lookup_2. }
      apply list_elem_of_lookup in Hax as [k Hk].
      rewrite (index_of_NoDup j (positions src target) k).
      2:{ by apply positions_NoDup. }
      2:{ by apply (positions_lookup src target k j ax). }
      simpl. destruct (lookup_lt_is_Some_2 idx k) as [x Hx].
      { rewrite Hidx. by eapply lookup_lt_Some. }
      by rewrite Hx, (coordinate_lookup target idx k ax x).
    + rewrite lookup_seq_ge; [done|]. by apply lookup_ge_None.
Qed.

(** A repeated label is a repeated axis, which numpy refuses. *)
Lemma transpose_repeated_label (a : ndarray) (src target : list string) :
  ¬ NoDup target → np_transpose a (positions src target) = Raise ValueError.
Proof.
  intros Hnd. unfold np_transpose. rewrite bool_decide_eq_false_2; [done|].
  intros (_ & Hp & _). apply Hnd. by eapply NoDup_fmap_1.
Qed.

Lemma same_labels_permutation (l k : list string) :
  NoDup k → (l ≡ₚ k ↔ list_to_set l =@{gset string} list_to_set k ∧ NoDup l).
Proof.
  intros Hk. split.
  - intros Hp. split; [by rewrite Hp|by rewrite Hp].
  - intros [Hs Hl]. apply NoDup_Permutation; [done..|].
    intros x. by rewrite <- !(elem_of_list_to_set (C := gset string)), Hs.
Qed.

(** *** _require_axes *)

(** The end of [_require_axes]: the requested axes are compared with the
    labels [src] of the image as a set, then the image is transposed. *)
Definition permute_to (a : ndarray) (src axes : list string) : result ndarray :=
  _ ← py_assert (bool_decide (list_to_set axes =@{gset string} list_to_set src));
  axes_permutation ← for_each (py_index src) axes;
  np_transpose a axes_permutation.

Lemma permute_to_outcomes (a : ndarray) (src axes : list string) :
  NoDup src → length src = ndim a →
  (axes ≡ₚ src → ∃ r, permute_to a src axes = Ok r ∧
     dtype r = dtype a ∧ length (shape r) = length axes ∧
     (∀ k j ax, axes !! k = Some ax → src !! j = Some ax → shape r !! k = shape a !! j) ∧
     (∀ idx, length idx = length axes →
             item r idx = item a (coordinate axes idx <$> src))) ∧
  (list_to_set axes ≠@{gset string} list_to_set src →
   permute_to a src axes = Raise AssertionError) ∧
  (list_to_set axes =@{gset string} list_to_set src → ¬ NoDup axes →
   permute_to a src axes = Raise ValueError).
Proof.
  intros Hnd Hlen. unfold permute_to. split; [|split].
  - intros Hperm.
    rewrite bool_decide_eq_true_2 by (by rewrite Hperm). cbn [py_assert mbind result_bind].
    rewrite for_each_py_index by (intros ax; by rewrite Hperm).
    cbn [mbind result_bind]. by apply transpose_by_labels.
  - intros Hne. by rewrite bool_decide_eq_false_2.
  - intros Hs Hdup. rewrite bool_decide_eq_true_2 by done.
    cbn [py_assert mbind result_bind]. rewrite for_each_py_index.
    + cbn [mbind result_bind]. by apply transpose_repeated_label.
    + intros ax. by rewrite <- !(elem_of_list_to_set (C := gset string)), Hs.
Qed.

(** The three results of [permute_to] exclude one another. *)
Lemma permute_to_cases (a : ndarray) (src axes : list string) :
  NoDup src → length src = ndim a →
  ((∃ r, permute_to a src axes = Ok r) ↔ axes ≡ₚ src) ∧
  (permute_to a src axes = Raise AssertionError ↔
   list_to_set axes ≠@{gset string} list_to_set src) ∧
  (permute_to a src axes = Raise ValueError ↔
   list_to_set axes =@{gset string} list_to_set src ∧ ¬ NoDup axes).
Proof.
  intros Hnd Hlen.
  destruct (permute_to_outcomes a src axes Hnd Hlen) as (Hok & Hset & Hdup).
  destruct (decide (list_to_set axes =@{gset string} list_to_set src)) as [Hs|Hs].
  - destruct (decide (NoDup axes)) as [Hn|Hn].
    + assert (axes ≡ₚ src) as Hp by (by apply same_labels_permutation).
      destruct (Hok Hp) as (r & Hr & _). rewrite Hr.
      split; [|split]; split; try done; eauto. intros [_ ?]. done.
    + rewrite (Hdup Hs Hn). split; [|split]; split; try done.
      * intros [r Hr]. done.
      * intros Hp. exfalso. apply Hn. by rewrite Hp.
  - rewrite (Hset Hs). split; [|split]; split; try done.
    + intros [r Hr]. done.
    + intros Hp. exfalso. apply Hs. by rewrite Hp.
    + intros [? _]. done.
Qed.

(** The labels that [_require_axes] takes the axes of an image file to
    have: a file of two axes is a [yx] plane, a file of three axes a [zyx]
    volume when a [z] axis is asked for and a [yxc] plane with channels when
    not. *)
Definition file_labels (im : ndarray) (axes : list string) : list string :=
  if decide (ndim im = 2%nat) then ["y"; "x"]
  else if decide ("z" ∈ axes) then ["z"; "y"; "x"] else ["y"; "x"; "c"].

(** The labels of the image once it has a batch and a channel axis *)
Definition expected_labels (im : ndarray) (axes : list string) : list string :=
  if decide (ndim im = 3%nat ∧ "z" ∈ axes)
  then ["b"; "z"; "y"; "x"; "c"] else ["b"; "y"; "x"; "c"].

(** The image with its batch axis and, where it has none, its channel
    axis *)
Definition with_batch_and_channel (im : ndarray) (axes : list string) : ndarray :=
  if decide (ndim im = 3%nat ∧ "z" ∉ axes)
  then expand_first im else expand_first (expand_last im).

Lemma require_axes_permutes (im : ndarray) (axes : list string) :
  (ndim im = 2 ∨ ndim im = 3)%nat →
  _require_axes im axes
  = permute_to (with_batch_and_channel im axes) (expected_labels im axes) axes ∧
  NoDup (expected_labels im axes) ∧
  length (expected_labels im axes) = ndim (with_batch_and_channel im axes).
Proof.
  unfold _require_axes, permute_to, with_batch_and_channel, expected_labels.
  intros [Hn|Hn]; rewrite Hn.
  - rewrite (decide_False (P := (2%nat = 3%nat ∧ "z" ∉ axes))) by (intros [? _]; done).
    rewrite (decide_False (P := (2%nat = 3%nat ∧ "z" ∈ axes))) by (intros [? _]; done).
    split; [reflexivity|]. split; [by compute_done|].
    unfold ndim in *. simpl. rewrite length_app. simpl. lia.
  - destruct (decide ("z" ∈ axes)) as [Hz|Hz].
    + rewrite (bool_decide_eq_true_2 _ Hz).
      rewrite (decide_False (P := (3%nat = 3%nat ∧ "z" ∉ axes))) by (intros [_ ?]; done).
      rewrite (decide_True (P := (3%nat = 3%nat ∧ "z" ∈ axes))) by done.
      split; [reflexivity|]. split; [by compute_done|].
      unfold ndim in *. simpl. rewrite length_app. simpl. lia.
    + rewrite (bool_decide_eq_false_2 _ Hz).
      rewrite (decide_True (P := (3%nat = 3%nat ∧ "z" ∉ axes))) by done.
      rewrite (decide_False (P := (3%nat = 3%nat ∧ "z" ∈ axes))) by (intros [_ ?]; done).
      split; [reflexivity|]. split; [by compute_done|].
      unfold ndim in *. simpl. lia.
Qed.

(** X13.  [_require_axes] accepts an image of two or three axes exactly when
    the requested axes are a rearrangement of [b, y, x, c], or of
    [b, z, y, x, c] for an image of three axes and a request with a [z]
    axis.  Another set of labels raises AssertionError, a repeated label
    ValueError; an image of four axes raises NotImplementedError and any
    other number of axes RuntimeError. *)
Theorem require_axes_outcomes (im : ndarray) (axes : list string) :
  (ndim im = 4%nat → _require_axes im axes = Raise NotImplementedError) ∧
  ((ndim im < 2 ∨ 4 < ndim im)%nat → _require_axes im axes = Raise RuntimeError) ∧
  ((ndim im = 2 ∨ ndim im = 3)%nat →
   ((∃ r, _require_axes im axes = Ok r) ↔ axes ≡ₚ expected_labels im axes) ∧
   (_require_axes im axes = Raise AssertionError ↔
    list_to_set axes ≠@{gset string} list_to_set (expected_labels im axes)) ∧
   (_require_axes im axes = Raise ValueError ↔
    list_to_set axes =@{gset string} list_to_set (expected_labels im axes) ∧
    ¬ NoDup axes)).
Proof.
  split; [|split].
  - intros Hn. unfold _require_axes. by rewrite Hn.
  - intros Hn. unfold _require_axes.
    destruct (ndim im) as [|[|[|[|[|n]]]]]; try done; lia.
  - intros Hn. destruct (require_axes_permutes im axes Hn) as (-> & Hnd & Hlen).
    by apply permute_to_cases.
Qed.

(** X14.  What [_require_axes] returns for an accepted request: an array
    with one axis per requested label, of extent 1 on the batch axis and on
    a channel axis that the file does not have and of the extent of the
    file on its own axes, which holds at every index vector the element of
    the file at the position that the index vector gives to the labels of
    the file. *)
Theorem require_axes_places_by_label (im : ndarray) (axes : list string) :
  (ndim im = 2 ∨ ndim im = 3)%nat → axes ≡ₚ expected_labels im axes →
  ∃ r, _require_axes im axes = Ok r ∧
    dtype r = dtype im ∧
    length (shape r) = length axes ∧
    (∀ k ax, axes !! k = Some ax →
       shape r !! k = Some (match index_of ax (file_labels im axes) with
                            | Some j => default 0 (shape im !! j)
                            | None => 1
                            end)) ∧
    (∀ idx, length idx = length axes →
       item r idx = item im (coordinate axes idx <$> file_labels im axes)).
Proof.
  intros Hn Hperm. destruct (require_axes_permutes im axes Hn) as (-> & Hnd & Hlen).
  destruct (permute_to_outcomes _ _ axes Hnd Hlen) as (Hok & _).
  destruct (Hok Hperm) as (r & -> & Hdt & Hlr & Hsh & Hit). clear Hok.
  exists r. split; [done|].
  assert (∀ k ax, axes !! k = Some ax →
            ∃ j, expected_labels im axes !! j = Some ax) as Hpos.
  { intros k ax Hk. apply list_elem_of_lookup. rewrite <- Hperm.
    by eapply list_elem_of_lookup_2. }
  unfold with_batch_and_channel, expected_labels, file_labels in *.
  destruct im as [sh dt it]. unfold ndim in *. cbn [shape dtype item] in *.
  destruct Hn as [Hn|Hn].
  - destruct sh as [|n0 [|n1 [|n2 sh]]]; try done.
    rewrite decide_False in * by (intros [? _]; done).
    rewrite decide_True by done.
    split; [done|]. split; [done|]. split.
    + intros k ax Hk. destruct (Hpos k ax Hk) as [j Hj].
      rewrite (Hsh k j ax Hk Hj).
      destruct j as [|[|[|[|j]]]]; simpl in Hj; try done;
        injection Hj as <-; reflexivity.
    + intros idx Hidx. by rewrite (Hit idx Hidx).
  - destruct sh as [|n0 [|n1 [|n2 [|n3 sh]]]]; try done.
    rewrite decide_False by done.
    destruct (decide ("z" ∈ axes)) as [Hz|Hz].
    + rewrite decide_True in * by done. rewrite decide_False in * by (intros [_ ?]; done).
      split; [done|]. split; [done|]. split.
      * intros k ax Hk. destruct (Hpos k ax Hk) as [j Hj].
        rewrite (Hsh k j ax Hk Hj).
        destruct j as [|[|[|[|[|j]]]]]; simpl in Hj; try done;
          injection Hj as <-; reflexivity.
      * intros idx Hidx. by rewrite (Hit idx Hidx).
    + rewrite decide_False in * by (intros [_ ?]; done). rewrite decide_True in * by done.
      split; [done|]. split; [done|]. split.
      * intros k ax Hk. destruct (Hpos k ax Hk) as [j Hj].
        rewrite (Hsh k j ax Hk Hj).
        destruct j as [|[|[|[|j]]]]; simpl in Hj; try done;
          injection Hj as <-; reflexivity.
      * intros idx Hidx. by rewrite (Hit idx Hidx).
Qed.

(** *** _load_image *)

(** X15.  [_load_image] returns a labelled array exactly when the file can
    be read and its array fits the request: the array of a [.npy] file is
    taken as it is, so it must have one axis per requested label; the image
    of any other file (read as a volume when a [z] axis is requested) must
    be accepted by [_require_axes], and then always fits.  The result
    carries the requested labels, in the requested order. *)
Theorem load_image_outcome (env : file_env) (in_path : string) (axes : list string)
    (d : DataArray) :
  _load_image env in_path axes = Ok d ↔
  dims d = axes ∧
  if decide ((splitext env in_path).2 = ".npy")
  then np_load env in_path = Ok (values d) ∧ ndim (values d) = length axes
  else ∃ im, (if bool_decide ("z" ∈ axes)
              then volread env in_path else imread env in_path) = Ok im ∧
             _require_axes im axes = Ok (values d).
Proof.
  unfold _load_image. destruct (decide ((splitext env in_path).2 = ".npy")) as [Hx|Hx].
  - rewrite bind_Ok. unfold xr_DataArray. split.
    + intros (im & Him & Hd). destruct (decide (length axes = ndim im)); [|done].
      injection Hd as <-. done.
    + intros (Hd & Him & Hn). exists (values d). split; [done|].
      rewrite decide_True by done. destruct d. simpl in *. by subst.
  - rewrite bind_Ok. unfold xr_DataArray. split.
    + intros (r & Hr & Hd). destruct (decide (length axes = ndim r)); [|done].
      injection Hd as <-. split; [done|]. simpl.
      apply bind_Ok in Hr as (im & Him & Hr). eauto.
    + intros (Hd & im & Him & Hr). exists (values d). split.
      * apply bind_Ok. eauto.
      * assert (length axes = ndim (values d)) as Hlen.
        { destruct (decide (ndim im = 2 ∨ ndim im = 3)%nat) as [Hn|Hn].
          - destruct (require_axes_permutes im axes Hn) as (Hp & Hnd & Hlen).
            rewrite Hp in Hr.
            destruct (permute_to_cases _ _ axes Hnd Hlen) as (Hok & _).
            pose proof (proj1 Hok (ex_intro _ _ Hr)) as Hperm.
            destruct (permute_to_outcomes _ _ axes Hnd Hlen) as (Hout & _).
            destruct (Hout Hperm) as (r & Hr' & _ & Hl & _).
            rewrite Hr in Hr'. injection Hr' as <-. by rewrite <- Hl.
          - exfalso. unfold _require_axes in Hr.
            destruct (ndim im) as [|[|[|[|[|n]]]]]; try done; lia. }
        rewrite decide_True by done. destruct d. simpl in *. by subst.
Qed.

(** *** _to_channel_last *)

Lemma filter_keeps {A : Type} (P : A → Prop) `{∀ x, Decision (P x)} (l : list A) :
  Forall P l → filter P l = l.
Proof.
  induction 1 as [|x l Hx Hl IH]; [done|].
  rewrite filter_cons_True by done. by rewrite IH.
Qed.

(** The labels with the channel label moved to the end *)
Definition channel_last (ds : list string) : list string :=
  filter (λ ax, ax ≠ "c") ds ++ ["c"].

Lemma channel_last_permutation (ds : list string) :
  NoDup ds → "c" ∈ ds → NoDup (channel_last ds) ∧ channel_last ds ≡ₚ ds.
Proof.
  intros Hnd Hc. assert (NoDup (channel_last ds)) as Hn.
  { apply NoDup_app. split; [by apply NoDup_filter|]. split.
    - intros x Hx Hx'. apply list_elem_of_filter in Hx as [Hne _].
      apply list_elem_of_singleton in Hx'. done.
    - apply NoDup_singleton. }
  split; [done|]. apply NoDup_Permutation; [done..|].
  intros x. unfold channel_last.
  rewrite elem_of_app, list_elem_of_filter, list_elem_of_singleton.
  destruct (decide (x = "c")) as [->|Hne].
  - split; [done|]. intros _. by right.
  - split; [intros [[_ ?]|?]; done|]. intros ?. by left.
Qed.

Lemma channel_last_fixed (ds : list string) (i : nat) :
  NoDup ds → ds !! i = Some "c" → S i = length ds → channel_last ds = ds.
Proof.
  intros Hnd Hi Hlen. unfold channel_last.
  rewrite <- (take_drop_middle ds i "c" Hi) in Hnd |- * at 1.
  rewrite (drop_ge ds (S i)) in * by lia.
  apply NoDup_app in Hnd as (_ & Hdis & _).
  rewrite filter_app, filter_cons_False, filter_nil by (intros ?; done).
  rewrite app_nil_r. rewrite filter_keeps.
  - rewrite <- (take_drop_middle ds i "c" Hi) at 2. by rewrite (drop_ge ds (S i)) by lia.
  - apply Forall_forall. intros x Hx ->. apply (Hdis "c" Hx). apply list_elem_of_singleton. done.
Qed.

Lemma channel_last_index (ds : list string) :
  NoDup (channel_last ds) →
  index_of "c" (channel_last ds) = Some (length (filter (λ ax, ax ≠ "c") ds)).
Proof.
  intros Hnd. apply index_of_NoDup; [done|]. unfold channel_last.
  rewrite lookup_app_r by lia. by rewrite Nat.sub_diag.
Qed.

Lemma to_channel_last_spec (image : DataArray) :
  NoDup (dims image) → length (dims image) = ndim (values image) → "c" ∈ dims image →
  ∃ r, _to_channel_last image = Ok r ∧
    dims r = channel_last (dims image) ∧
    dtype (values r) = dtype (values image) ∧
    length (shape (values r)) = length (dims r) ∧
    (∀ k j ax, dims r !! k = Some ax → dims image !! j = Some ax →
               shape (values r) !! k = shape (values image) !! j) ∧
    (∀ idx, length idx = length (dims r) →
            item (values r) idx
            = item (values image) (coordinate (dims r) idx <$> dims image)).
Proof.
  intros Hnd Hlen Hc.
  destruct (index_of_elem "c" (dims image) Hc) as (i & Hi & Hci).
  destruct (channel_last_permutation (dims image) Hnd Hc) as [Hndt Hperm].
  unfold _to_channel_last, py_index. rewrite Hi. cbn [mbind result_bind].
  destruct (decide (Z.of_nat i ≠ Z.of_nat (ndim (values image)) - 1)) as [Hne|Heq].
  - fold (channel_last (dims image)). unfold xr_transpose.
    rewrite bool_decide_eq_true_2 by (by rewrite Hperm).
    rewrite decide_False.
    2:{ rewrite Hperm. intros Hlt. apply Hne. apply lookup_lt_Some in Hci. lia. }
    rewrite for_each_py_index by (intros ax; by rewrite Hperm).
    cbn [mbind result_bind].
    destruct (transpose_by_labels (values image) (dims image)
                (channel_last (dims image)) Hnd Hlen Hperm)
      as (r & -> & Hdt & Hl & Hsh & Hit).
    cbn [mbind result_bind]. eexists. split; [done|]. cbn [dims values].
    repeat split; done.
  - assert (S i = length (dims image)) as Hlast.
    { apply lookup_lt_Some in Hci. lia. }
    rewrite (channel_last_fixed (dims image) i Hnd Hci Hlast).
    exists image. repeat split; try done.
    + intros k j ax Hk Hj. by rewrite (NoDup_lookup _ _ _ _ Hnd Hk Hj).
    + intros idx Hidx. by rewrite coordinate_self.
Qed.

(** X16.  [_to_channel_last] needs a channel axis (ValueError without one)
    and moves it to the end: the other labels keep their order, every label
    keeps its extent and every labelled position its element, and a second
    call changes nothing. *)
Theorem to_channel_last_moves_channel (image : DataArray) :
  NoDup (dims image) → length (dims image) = ndim (values image) →
  if decide ("c" ∈ dims image) then
    ∃ r, _to_channel_last image = Ok r ∧
      dims r = filter (λ ax, ax ≠ "c") (dims image) ++ ["c"] ∧
      dtype (values r) = dtype (values image) ∧
      length (shape (values r)) = length (dims r) ∧
      (∀ k j ax, dims r !! k = Some ax → dims image !! j = Some ax →
                 shape (values r) !! k = shape (values image) !! j) ∧
      (∀ idx, length idx = length (dims r) →
              item (values r) idx
              = item (values image) (coordinate (dims r) idx <$> dims image)) ∧
      _to_channel_last r = Ok r
  else _to_channel_last image = Raise ValueError.
Proof.
  intros Hnd Hlen. destruct (decide ("c" ∈ dims image)) as [Hc|Hc].
  2:{ unfold _to_channel_last, py_index.
      by rewrite (proj2 (index_of_None "c" (dims image)) Hc). }
  destruct (channel_last_permutation (dims image) Hnd Hc) as [Hndt Hperm].
  destruct (to_channel_last_spec image Hnd Hlen Hc) as (r & Hr & Hd & Hdt & Hl & Hsh & Hit).
  exists r. fold (channel_last (dims image)). repeat split; try done.
  unfold _to_channel_last, py_index.
  rewrite Hd, (channel_last_index _ Hndt). cbn [mbind result_bind].
  rewrite decide_False; [done|]. intros Hne. apply Hne.
  unfold ndim. rewrite Hl, Hd. unfold channel_last. rewrite length_app. simpl. lia.
Qed.

(** *** _save_image *)

Lemma foldl_insert_lookup {V : Type} (l : list (string * V)) (m m' : gmap string V)
    (k : string) :
  m !! k = m' !! k →
  foldl (λ d kv, <[kv.1 := kv.2]> d) m l !! k
  = foldl (λ d kv, <[kv.1 := kv.2]> d) m' l !! k.
Proof.
  revert m m'. induction l as [|[k' v] l IH]; intros m m' H; simpl; [done|].
  apply IH. destruct (decide (k' = k)) as [->|Hne].
  - by rewrite !lookup_insert_eq.
  - by rewrite !lookup_insert_ne.
Qed.

Lemma coordinate_cons_ne (ds : list string) (idx : list Z) (ax ax' : string) (i : Z) :
  ax ≠ ax' → coordinate (ax :: ds) (i :: idx) ax' = coordinate ds idx ax'.
Proof.
  intros Hne. unfold coordinate, dict_of. simpl. f_equal.
  apply foldl_insert_lookup. by rewrite lookup_insert_ne.
Qed.

(** Reading by label an index vector that was written by label *)
Lemma coordinate_fmap (ds : list string) (f : string → Z) (ax : string) :
  NoDup ds → ax ∈ ds → coordinate ds (f <$> ds) ax = f ax.
Proof.
  intros Hnd Hin. apply list_elem_of_lookup in Hin as [k Hk].
  apply (coordinate_lookup ds _ k); [done..|]. by rewrite list_lookup_fmap, Hk.
Qed.

Lemma coordinate_snoc (ds : list string) (idx : list Z) (ax ax' : string) (i : Z) :
  NoDup (ds ++ [ax]) → length idx = length ds →
  coordinate (ds ++ [ax]) (idx ++ [i]) ax'
  = if decide (ax' = ax) then i else coordinate ds idx ax'.
Proof.
  intros Hnd Hlen. destruct (decide (ax' = ax)) as [->|Hne].
  - apply (coordinate_lookup _ _ (length ds)); [done|..].
    + rewrite lookup_app_r by lia. by rewrite Nat.sub_diag.
    + rewrite lookup_app_r by lia. by rewrite Hlen, Nat.sub_diag.
  - destruct (decide (ax' ∈ ds)) as [Hin|Hin].
    + apply list_elem_of_lookup in Hin as [k Hk].
      destruct (lookup_lt_is_Some_2 idx k) as [x Hx].
      { rewrite Hlen. by eapply lookup_lt_Some. }
      rewrite (coordinate_lookup (ds ++ [ax]) (idx ++ [i]) k ax' x); try done.
      * symmetry. apply (coordinate_lookup ds idx k); [|done..].
        by apply NoDup_app in Hnd as (? & _).
      * by apply lookup_app_l_Some.
      * by apply lookup_app_l_Some.
    + rewrite !coordinate_missing; [done..|].
      rewrite elem_of_app, list_elem_of_singleton. intros [?|?]; done.
Qed.

(** An array that shows another one by label: every axis of [r] is an
    axis of [image], of the same extent, and an element of [r] is the
    element of [image] at the same labelled position, with position
    [fixed] on the axes that [r] does not have. *)
Definition shows (r image : DataArray) (fixed : string → Z) : Prop :=
  NoDup (dims r) ∧
  length (shape (values r)) = length (dims r) ∧
  (∀ ax, ax ∈ dims r → ax ∈ dims image) ∧
  (∀ k j ax, dims r !! k = Some ax → dims image !! j = Some ax →
             shape (values r) !! k = shape (values image) !! j) ∧
  (∀ idx, length idx = length (dims r) →
     item (values r) idx
     = item (values image)
         ((λ ax, if decide (ax ∈ dims r) then coordinate (dims r) idx ax else fixed ax)
            <$> dims image)).

Lemma shows_compose (r2 r1 image : DataArray) (f2 f1 : string → Z) :
  shows r2 r1 f2 → shows r1 image f1 →
  shows r2 image (λ ax, if decide (ax ∈ dims r1) then f2 ax else f1 ax).
Proof.
  intros (Hnd2 & Hl2 & Hsub2 & Hsh2 & Hit2) (Hnd1 & Hl1 & Hsub1 & Hsh1 & Hit1).
  split; [done|]. split; [done|]. split; [by auto|]. split.
  - intros k j ax Hk Hj.
    assert (ax ∈ dims r1) as Hin by (apply Hsub2; by eapply list_elem_of_lookup_2).
    apply list_elem_of_lookup in Hin as [i Hi].
    rewrite (Hsh2 k i ax Hk Hi). by apply (Hsh1 i j ax).
  - intros idx Hidx. rewrite (Hit2 idx Hidx). rewrite Hit1 by (by rewrite length_fmap).
    f_equal. apply list_fmap_ext. intros j ax Hj.
    destruct (decide (ax ∈ dims r1)) as [Hin|Hin].
    + by rewrite coordinate_fmap.
    + rewrite decide_False; [done|]. intros ?. apply Hin. by apply Hsub2.
Qed.

(** The condition on which [_save_image] takes position 0 of an axis *)
Definition squeezes (axn : string * Z) : bool :=
  str_in axn.1 "bc" && (axn.2 =? 1).

Definition squeeze_indexer (axn : string * Z) : string * indexer :=
  (axn.1, if squeezes axn then IdxInt 0 else IdxSlice slice_all).

Lemma squeeze_lookup (L : list (string * Z)) (axn : string * Z) :
  NoDup L.*1 → axn ∈ L →
  dict_of (squeeze_indexer <$> L) !! axn.1 = Some (squeeze_indexer axn).2.
Proof.
  intros Hnd Hin. apply dict_of_lookup_Some.
  - rewrite <- list_fmap_compose.
    by rewrite (list_fmap_ext (fst ∘ squeeze_indexer) fst L) by done.
  - apply list_elem_of_fmap. exists axn. split; [|done]. by destruct axn.
Qed.

Lemma filter_fmap_comm {A B : Type} (f : A → B) (P : B → Prop) `{∀ x, Decision (P x)}
    (l : list A) :
  filter P (f <$> l) = f <$> filter (λ x, P (f x)) l.
Proof.
  induction l as [|x l IH]; [done|]. rewrite fmap_cons, !filter_cons.
  destruct (decide (P (f x))); [rewrite fmap_cons|]; by rewrite IH.
Qed.

Lemma filter_fst {A B : Type} (P : A * B → Prop) (Q : A → Prop)
    `{∀ x, Decision (P x)} `{∀ x, Decision (Q x)} (l : list (A * B)) :
  (∀ x, x ∈ l → P x ↔ Q x.1) → (filter P l).*1 = filter Q l.*1.
Proof.
  induction l as [|x l IH]; intros Hpq; [done|].
  rewrite fmap_cons, !filter_cons.
  assert (P x ↔ Q x.1) as Hx by (apply Hpq; left).
  assert ((filter P l).*1 = filter Q l.*1) as IH'.
  { apply IH. intros y Hy. apply Hpq. by right. }
  destruct (decide (P x)) as [Hp|Hp]; destruct (decide (Q x.1)) as [Hq|Hq];
    rewrite ?fmap_cons, ?IH'; try done; tauto.
Qed.

Lemma filter_keys_NoDup {A B : Type} (P : A * B → Prop) `{∀ x, Decision (P x)}
    (l : list (A * B)) :
  NoDup l.*1 → NoDup (filter P l).*1.
Proof.
  intros Hnd. eapply sublist_NoDup; [done|]. apply fmap_sublist, sublist_filter.
Qed.

Lemma place_squeezed (L : list (string * Z)) (idx : list Z) :
  NoDup L.*1 →
  length idx = length (filter (λ axn, squeezes axn = false) L) →
  place ((λ axn, (axn.2, (squeeze_indexer axn).2)) <$> L) idx
  = coordinate (filter (λ axn, squeezes axn = false) L).*1 idx <$> L.*1.
Proof.
  revert idx. induction L as [|[ax n] L IH]; intros idx Hnd Hlen; [done|].
  rewrite fmap_cons in Hnd. apply NoDup_cons in Hnd as [Hax Hnd].
  rewrite !fmap_cons. rewrite filter_cons in *. cbn [fst snd] in *.
  assert (∀ K : list (string * Z), K = filter (λ axn, squeezes axn = false) L →
            ax ∉ K.*1) as Hout.
  { intros K -> Hin. apply Hax. apply list_elem_of_fmap in Hin as (y & -> & Hy).
    apply list_elem_of_filter in Hy as [_ Hy]. apply list_elem_of_fmap. eauto. }
  unfold squeeze_indexer at 1. cbn [fst snd].
  destruct (squeezes (ax, n)) eqn:Hs.
  - rewrite decide_False in * by done. cbn [place]. f_equal.
    + symmetry. by apply coordinate_missing, Hout.
    + by apply IH.
  - rewrite decide_True in * by done. rewrite fmap_cons. cbn [length fst] in *.
    destruct idx as [|i idx]; [done|]. cbn [place head tail default slice_indices
      slice_all start stop from_option fst snd]. f_equal.
    + rewrite Z.add_0_l. symmetry. apply (coordinate_lookup _ _ 0%nat); [|done..].
      apply NoDup_cons. split; [by apply Hout|]. by apply filter_keys_NoDup.
    + rewrite IH by (done || (simpl in Hlen; lia)). apply list_fmap_ext. intros j ax' Hj.
      symmetry. apply coordinate_cons_ne. intros ->. apply Hax.
      by eapply list_elem_of_lookup_2.
Qed.

(** The key of the selection in [_save_image] *)
Definition squeeze_key (image : DataArray) : gmap string indexer :=
  dict_of (squeeze_indexer <$> zip (dims image) (shape (values image))).

(** The axes that the selection keeps, with their extents *)
Definition kept_axes (image : DataArray) : list (string * Z) :=
  filter (λ axn, squeezes axn = false) (zip (dims image) (shape (values image))).

Lemma squeeze_returns (image : DataArray) :
  NoDup (dims image) → length (dims image) = ndim (values image) →
  ∃ r, getitem_indexers image (squeeze_key image) = Ok r ∧
    dims r = (kept_axes image).*1 ∧
    shape (values r) = (λ axn, Z.max axn.2 0) <$> kept_axes image ∧
    dtype (values r) = dtype (values image) ∧
    (∀ idx, length idx = length (dims r) →
       item (values r) idx
       = item (values image) (coordinate (dims r) idx <$> dims image)).
Proof.
  intros Hnd Hlen. unfold getitem_indexers, squeeze_key, kept_axes.
  set (L := zip (dims image) (shape (values image))).
  assert (L.*1 = dims image) as HL.
  { unfold L. apply fst_zip. unfold ndim in Hlen. lia. }
  assert (NoDup L.*1) as HndL by (by rewrite HL).
  rewrite bool_decide_eq_true_2.
  2:{ intros k Hk. apply elem_of_dom in Hk. apply dict_of_lookup_is_Some in Hk.
      apply elem_of_list_to_set.
      rewrite <- list_fmap_compose in Hk.
      rewrite (list_fmap_ext (fst ∘ squeeze_indexer) fst L) in Hk by done.
      by rewrite <- HL. }
  set (g := λ axn : string * Z, (axn.1, (axn.2, (squeeze_indexer axn).2))).
  assert ((λ dn : string * Z,
             (dn.1, (dn.2, default (IdxSlice slice_all)
                             (dict_of (squeeze_indexer <$> L) !! dn.1)))) <$> L
          = g <$> L) as ->.
  { apply list_fmap_ext. intros j axn Hj. unfold g.
    rewrite (squeeze_lookup L axn); [done..|]. by eapply list_elem_of_lookup_2. }
  assert (forallb (λ s : string * (Z * indexer),
                     match s.2.2 with
                     | IdxInt i => (- s.2.1 <=? i) && (i <? s.2.1)
                     | IdxSlice _ => true
                     end) (g <$> L) = true) as ->.
  { apply Is_true_true, forallb_True, Forall_fmap, Forall_forall.
    intros [ax n] _. unfold g, squeeze_indexer, squeezes, compose. cbn [fst snd].
    destruct (str_in ax "bc"); [|done]. destruct (n =? 1) eqn:Hn; [|done].
    apply Z.eqb_eq in Hn as ->. done. }
  assert (filter (λ s : string * (Z * indexer), is_slice s.2.2) (g <$> L)
          = g <$> filter (λ axn, squeezes axn = false) L) as ->.
  { rewrite filter_fmap_comm. f_equal. apply list_filter_iff.
    intros [ax n]. unfold g, squeeze_indexer. cbn [fst snd].
    destruct (squeezes (ax, n)); simpl; split; done. }
  eexists. split; [done|]. cbn [dims values shape dtype item].
  split; [|split; [|split; [done|]]].
  - rewrite <- list_fmap_compose. by apply list_fmap_ext.
  - rewrite <- list_fmap_compose. apply list_fmap_ext. intros j [ax n] Hj.
    apply list_elem_of_lookup_2, list_elem_of_filter in Hj as [Hs _].
    unfold g, squeeze_indexer. cbn [fst snd compose]. rewrite Hs.
    unfold slice_len, slice_indices, slice_all. simpl. f_equal. lia.
  - intros idx Hidx. f_equal.
    rewrite <- !list_fmap_compose in *.
    rewrite (list_fmap_ext (fst ∘ g) fst _) in * by done.
    rewrite (list_fmap_ext (snd ∘ g) (λ axn, (axn.2, (squeeze_indexer axn).2)) L) by done.
    rewrite place_squeezed; [by rewrite HL|done|].
    by rewrite length_fmap in Hidx.
Qed.

Lemma kept_axes_lookup (image : DataArray) (k : nat) (ax : string) :
  NoDup (dims image) → length (dims image) = ndim (values image) →
  (kept_axes image).*1 !! k = Some ax →
  ∃ j n, kept_axes image !! k = Some (ax, n) ∧ dims image !! j = Some ax ∧
         shape (values image) !! j = Some n ∧ squeezes (ax, n) = false.
Proof.
  intros Hnd Hlen Hk. rewrite list_lookup_fmap in Hk.
  destruct (kept_axes image !! k) as [[ax' n]|] eqn:Hkk; [|done].
  injection Hk as ->. pose proof (list_elem_of_lookup_2 _ _ _ Hkk) as Hin.
  apply list_elem_of_filter in Hin as [Hs Hin].
  apply list_elem_of_lookup in Hin as [j Hj].
  apply lookup_zip_with_Some in Hj as (a & b & [= <- <-] & Ha & Hb).
  exists j, n. done.
Qed.

Lemma squeeze_shows (image : DataArray) :
  NoDup (dims image) → length (dims image) = ndim (values image) →
  Forall (λ n, 0 ≤ n) (shape (values image)) →
  ∃ r, getitem_indexers image (squeeze_key image) = Ok r ∧
    dims r = (kept_axes image).*1 ∧
    dtype (values r) = dtype (values image) ∧
    shows r image (λ _, 0).
Proof.
  intros Hnd Hlen Hpos.
  destruct (squeeze_returns image Hnd Hlen) as (r & Hr & Hd & Hsh & Hdt & Hit).
  exists r. split; [done|]. split; [done|]. split; [done|].
  assert ((zip (dims image) (shape (values image))).*1 = dims image) as HL.
  { apply fst_zip. unfold ndim in Hlen. lia. }
  split; [|split; [|split; [|split]]].
  - rewrite Hd. apply filter_keys_NoDup. by rewrite HL.
  - by rewrite Hsh, Hd, !length_fmap.
  - intros ax Hax. rewrite Hd in Hax.
    apply list_elem_of_lookup in Hax as [k Hk].
    destruct (kept_axes_lookup image k ax Hnd Hlen Hk) as (j & n & _ & Hj & _).
    by eapply list_elem_of_lookup_2.
  - intros k j ax Hk Hj. rewrite Hd in Hk.
    destruct (kept_axes_lookup image k ax Hnd Hlen Hk) as (j' & n & Hkk & Hj' & Hn & _).
    rewrite (NoDup_lookup _ _ _ _ Hnd Hj Hj'), Hn, Hsh, list_lookup_fmap, Hkk. simpl.
    f_equal. rewrite Forall_forall in Hpos.
    pose proof (Hpos n (list_elem_of_lookup_2 _ _ _ Hn)). lia.
  - intros idx Hidx. rewrite (Hit idx Hidx). f_equal.
    apply list_fmap_ext. intros j ax Hj.
    destruct (decide (ax ∈ dims r)); [done|]. by apply coordinate_missing.
Qed.

Lemma to_channel_last_shows (image : DataArray) :
  NoDup (dims image) → length (dims image) = ndim (values image) → "c" ∈ dims image →
  ∃ r, _to_channel_last image = Ok r ∧
    dims r = channel_last (dims image) ∧
    dtype (values r) = dtype (values image) ∧
    shows r image (λ _, 0).
Proof.
  intros Hnd Hlen Hc.
  destruct (to_channel_last_spec image Hnd Hlen Hc) as (r & Hr & Hd & Hdt & Hl & Hsh & Hit).
  destruct (channel_last_permutation (dims image) Hnd Hc) as [Hndt Hperm].
  exists r. split; [done|]. split; [done|]. split; [done|].
  split; [by rewrite Hd|]. split; [done|]. split.
  { intros ax. by rewrite Hd, Hperm. }
  split; [done|]. intros idx Hidx. rewrite (Hit idx Hidx). f_equal.
  apply list_fmap_ext. intros j ax Hj. rewrite decide_True; [done|].
  rewrite Hd, Hperm. by eapply list_elem_of_lookup_2.
Qed.

Lemma select_last_shows (image : DataArray) (K : list string) (ax : string) (n c : Z) :
  dims image = K ++ [ax] → NoDup (dims image) →
  length (shape (values image)) = length (dims image) →
  last (shape (values image)) = Some n → 0 ≤ c < n →
  ∃ r, select_last image c = Ok r ∧ dims r = K ∧
    dtype (values r) = dtype (values image) ∧
    shows r image (λ _, c).
Proof.
  intros Hd Hnd Hlen Hlast Hc. unfold select_last, last_item. rewrite Hlast.
  cbn [mbind result_bind].
  assert ((- n <=? c) && (c <? n) = true) as ->.
  { apply andb_true_intro. split; [apply Z.leb_le|apply Z.ltb_lt]; lia. }
  eexists. split; [done|]. cbn [dims values shape dtype item].
  apply last_Some in Hlast as [S' HS]. rewrite Hd, HS in *.
  rewrite !removelast_last. rewrite !length_app in Hlen. simpl in Hlen.
  apply NoDup_app in Hnd as (HndK & Hdis & _).
  split; [done|]. split; [done|].
  unfold shows. cbn [dims values shape dtype item]. rewrite Hd, HS.
  split; [done|]. split; [lia|]. split.
  { intros ax' Hax'. apply elem_of_app. by left. }
  split.
  - intros k j ax' Hk Hj.
    assert ((K ++ [ax]) !! k = Some ax') as Hk' by (by apply lookup_app_l_Some).
    assert (NoDup (K ++ [ax])) as Hnd'.
    { apply NoDup_app. repeat split; [done..|apply NoDup_singleton]. }
    rewrite (NoDup_lookup _ _ _ _ Hnd' Hj Hk').
    rewrite lookup_app_l; [done|]. apply lookup_lt_Some in Hk. lia.
  - intros idx Hidx. f_equal. unfold ndim. rewrite HS, length_app. simpl.
    rewrite take_ge by lia. rewrite fmap_app. f_equal.
    + rewrite <- (coordinate_self K idx) at 1 by done.
      apply list_fmap_ext. intros j ax' Hj. rewrite decide_True; [done|].
      by eapply list_elem_of_lookup_2.
    + simpl. rewrite decide_False.
      * f_equal. destruct (c <? 0) eqn:Hneg; [lia|done].
      * intros Hin. apply (Hdis ax Hin). apply list_elem_of_singleton. done.
Qed.

Lemma save_channels_all (save_function : string → DataArray → result unit) (w : writer)
    (out_prefix ext : string) (image : DataArray) (cs : list Z) :
  (∀ p d, save_function p d = Ok ()) →
  (∀ c, c ∈ cs → ∃ chan, select_last image c = Ok chan) →
  ∃ files, save_channels save_function w out_prefix ext image cs = (files, Ok ()) ∧
    Forall2 (λ c f, ∃ chan, select_last image c = Ok chan ∧
                     f = Saved w (out_prefix +:+ "-c" +:+ pretty c +:+ ext) chan)
            cs files.
Proof.
  intros Hsave. induction cs as [|c cs IH]; intros Hsel.
  - exists []. split; [done|]. constructor.
  - destruct (Hsel c) as [chan Hchan]; [left|].
    destruct IH as (files & Hfiles & Hall).
    { intros c' Hc'. apply Hsel. by right. }
    simpl. rewrite Hchan, Hsave, Hfiles. eexists. split; [done|].
    constructor; [|done]. eauto.
Qed.

(** What [_save_image] does before it writes an image file: the selection,
    the refusal of a batch, the channel axis moved to the end, and the choice
    between one file and one file per channel. *)
Definition prepared (image : DataArray) : result (DataArray * bool) :=
  let is_volume := bool_decide ("z" ∈ dims image) in
  image ← getitem_indexers image (squeeze_key image);
  _ ← (if bool_decide ("b" ∈ dims image) then Raise RuntimeError else Ok ());
  image ← (if bool_decide ("c" ∈ dims image) then _to_channel_last image else Ok image);
  let ndim_ := if is_volume then 3%nat else 2%nat in
  save_as_single_image ←
    (if decide (ndim (values image) = ndim_) then Ok true
     else n ← last_item (shape (values image)); Ok (bool_decide (n = 3 ∨ n = 4)));
  Ok (image, save_as_single_image).

Lemma save_image_unfold (env : file_env) (out_path : string) (image : DataArray) :
  (splitext env out_path).2 ≠ ".npy" →
  _save_image env out_path image =
  match prepared image with
  | Raise e => ([], Raise e)
  | Ok (image', save_as_single_image) =>
    let is_volume := bool_decide ("z" ∈ dims image) in
    let save_function := if is_volume then volsave env else imsave env in
    let w := if is_volume then VolSave else ImSave in
    if save_as_single_image : bool
    then ([Saved w out_path image'], save_function out_path image')
    else
      match last_item (shape (values image')) with
      | Raise e => ([], Raise e)
      | Ok n => save_channels save_function w (splitext env out_path).1
                              (splitext env out_path).2 image' (py_range n)
      end
  end.
Proof.
  intros Hext. unfold _save_image. rewrite decide_False by done.
  change (dict_of _) with (squeeze_key image). fold (prepared image).
  destruct (prepared image) as [[image' single]|e]; [|done].
  destruct single; [done|]. by destruct (splitext env out_path).
Qed.

(** The labels of an image that is saved: a batch, a channel and two or
    three spatial axes, in any order. *)
Definition saved_labels (ds : list string) : Prop :=
  ds ≡ₚ ["b"; "c"; "y"; "x"] ∨ ds ≡ₚ ["b"; "c"; "z"; "y"; "x"].

(** The spatial labels, in the order of the image *)
Definition spatial_labels (ds : list string) : list string :=
  filter (λ ax, ax ≠ "b" ∧ ax ≠ "c") ds.

Lemma saved_labels_facts (ds : list string) :
  saved_labels ds →
  NoDup ds ∧ (∀ ax, ax ∈ ds → ax ∈ ["b"; "c"; "z"; "y"; "x"]) ∧
  length (spatial_labels ds) = (if bool_decide ("z" ∈ ds) then 3 else 2)%nat.
Proof.
  unfold spatial_labels. intros [H|H].
  - split; [rewrite H; by compute_done|]. split.
    + intros ax. rewrite H. intros Hx.
      repeat (apply elem_of_cons in Hx as [->|Hx]);
        [by compute_done..|by apply not_elem_of_nil in Hx].
    + rewrite bool_decide_eq_false_2 by (rewrite H; by compute_done).
      by rewrite H.
  - split; [rewrite H; by compute_done|]. split.
    + intros ax. by rewrite H.
    + rewrite bool_decide_eq_true_2 by (rewrite H; by compute_done).
      by rewrite H.
Qed.

Lemma kept_labels (image : DataArray) (kb kc : nat) (n : Z) :
  saved_labels (dims image) → length (dims image) = ndim (values image) →
  dims image !! kb = Some "b" → shape (values image) !! kb = Some 1 →
  dims image !! kc = Some "c" → shape (values image) !! kc = Some n →
  (kept_axes image).*1
  = filter (λ ax, ax ≠ "b" ∧ (ax ≠ "c" ∨ n ≠ 1)) (dims image).
Proof.
  intros Hlab Hlen Hb Hb1 Hc Hcn.
  destruct (saved_labels_facts _ Hlab) as (Hnd & Hin & _).
  unfold kept_axes.
  rewrite <- (fst_zip (dims image) (shape (values image))) at 2
    by (unfold ndim in Hlen; lia).
  apply filter_fst. intros [ax m] Hax.
  apply list_elem_of_lookup in Hax as [j Hj].
  apply lookup_zip_with_Some in Hj as (a & b & [= <- <-] & Ha & Hm).
  pose proof (Hin ax (list_elem_of_lookup_2 _ _ _ Ha)) as Hcase.
  unfold squeezes. cbn [fst snd].
  repeat (apply elem_of_cons in Hcase as [->|Hcase]).
  - rewrite (NoDup_lookup _ _ _ _ Hnd Ha Hb), Hb1 in Hm. injection Hm as <-.
    split; [done|]. intros [? _]. done.
  - rewrite (NoDup_lookup _ _ _ _ Hnd Ha Hc), Hcn in Hm. injection Hm as <-.
    change (str_in "c" "bc") with true. cbn [andb].
    destruct (Z.eqb_spec n 1) as [->|Hne]; split; try done.
    + intros [_ [?|?]]; done.
    + intros _. split; [done|]. by right.
  - change (str_in "z" "bc") with false. split; [|done]. intros _. split; [done|by left].
  - change (str_in "y" "bc") with false. split; [|done]. intros _. split; [done|by left].
  - change (str_in "x" "bc") with false. split; [|done]. intros _. split; [done|by left].
  - by apply not_elem_of_nil in Hcase.
Qed.

(** The preparation of an image with channels: the batch axis is
    dropped, the channel axis is the last one. *)
Lemma prepared_with_channels (image : DataArray) (kb kc : nat) (n : Z) :
  saved_labels (dims image) → length (dims image) = ndim (values image) →
  Forall (λ n, 0 ≤ n) (shape (values image)) →
  dims image !! kb = Some "b" → shape (values image) !! kb = Some 1 →
  dims image !! kc = Some "c" → shape (values image) !! kc = Some n →
  n ≠ 1 →
  ∃ r, prepared image = Ok (r, bool_decide (n = 3 ∨ n = 4)) ∧
    dims r = spatial_labels (dims image) ++ ["c"] ∧
    last (shape (values r)) = Some n ∧
    dtype (values r) = dtype (values image) ∧
    shows r image (λ _, 0).
Proof.
  intros Hlab Hlen Hpos Hb Hb1 Hc Hcn Hn1.
  destruct (saved_labels_facts _ Hlab) as (Hnd & Hin & Hsp).
  destruct (squeeze_shows image Hnd Hlen Hpos) as (r1 & Hr1 & Hd1 & Hdt1 & Hs1).
  rewrite (kept_labels image kb kc n) in Hd1 by done.
  rewrite (list_filter_iff _ (λ ax, ax ≠ "b")) in Hd1.
  2:{ intros ax. split; [by intros [? _]|]. intros ?. split; [done|by right]. }
  unfold prepared. rewrite Hr1. cbn [mbind result_bind].
  rewrite (bool_decide_eq_false_2 ("b" ∈ dims r1)).
  2:{ rewrite Hd1. intros Hx. by apply list_elem_of_filter in Hx as [? _]. }
  cbn [mbind result_bind].
  assert ("c" ∈ dims r1) as Hc1.
  { rewrite Hd1. apply list_elem_of_filter. split; [done|].
    by eapply list_elem_of_lookup_2. }
  rewrite (bool_decide_eq_true_2 _ Hc1).
  pose proof Hs1 as (Hnd1 & Hl1 & _).
  destruct (to_channel_last_shows r1 Hnd1 (eq_sym Hl1) Hc1) as (r2 & -> & Hd2 & Hdt2 & Hs2).
  cbn [mbind result_bind].
  assert (dims r2 = spatial_labels (dims image) ++ ["c"]) as Hd2'.
  { rewrite Hd2, Hd1. unfold channel_last, spatial_labels. f_equal.
    rewrite list_filter_filter. apply list_filter_iff. intros ax. tauto. }
  pose proof (shows_compose r2 r1 image _ _ Hs2 Hs1) as Hs.
  pose proof Hs as (Hnd2 & Hl2 & _ & Hsh2 & _).
  assert (last (shape (values r2)) = Some n) as Hlast.
  { rewrite last_lookup, Hl2, Hd2', length_app, Nat.add_1_r. simpl.
    rewrite (Hsh2 (length (spatial_labels (dims image))) kc "c"); [done| |done].
    rewrite Hd2'. rewrite lookup_app_r by lia. by rewrite Nat.sub_diag. }
  rewrite decide_False.
  2:{ unfold ndim. rewrite Hl2, Hd2', length_app, Hsp. simpl.
      destruct (bool_decide ("z" ∈ dims image)); lia. }
  unfold last_item. rewrite Hlast. cbn [mbind result_bind].
  exists r2. split; [done|]. split; [done|]. split; [done|]. split; [congruence|].
  destruct Hs as (? & ? & ? & ? & Hit). repeat split; try done.
  intros idx Hidx. rewrite (Hit idx Hidx). f_equal. apply list_fmap_ext.
  intros j ax Hj. destruct (decide (ax ∈ dims r2)); [done|]. by destruct (decide _).
Qed.

(** The preparation of an image with one channel: the batch and the
    channel axis are dropped. *)
Lemma prepared_one_channel (image : DataArray) (kb kc : nat) :
  saved_labels (dims image) → length (dims image) = ndim (values image) →
  Forall (λ n, 0 ≤ n) (shape (values image)) →
  dims image !! kb = Some "b" → shape (values image) !! kb = Some 1 →
  dims image !! kc = Some "c" → shape (values image) !! kc = Some 1 →
  ∃ r, prepared image = Ok (r, true) ∧
    dims r = spatial_labels (dims image) ∧
    dtype (values r) = dtype (values image) ∧
    shows r image (λ _, 0).
Proof.
  intros Hlab Hlen Hpos Hb Hb1 Hc Hcn.
  destruct (saved_labels_facts _ Hlab) as (Hnd & Hin & Hsp).
  destruct (squeeze_shows image Hnd Hlen Hpos) as (r1 & Hr1 & Hd1 & Hdt1 & Hs1).
  rewrite (kept_labels image kb kc 1) in Hd1 by done.
  rewrite (list_filter_iff _ (λ ax, ax ≠ "b" ∧ ax ≠ "c")) in Hd1.
  2:{ intros ax. split; [|intros [? ?]; split; [done|by left]].
      intros [? [?|?]]; done. }
  fold (spatial_labels (dims image)) in Hd1.
  unfold prepared. rewrite Hr1. cbn [mbind result_bind].
  rewrite (bool_decide_eq_false_2 ("b" ∈ dims r1)).
  2:{ rewrite Hd1. intros Hx. by apply list_elem_of_filter in Hx as [[? _] _]. }
  cbn [mbind result_bind].
  rewrite (bool_decide_eq_false_2 ("c" ∈ dims r1)).
  2:{ rewrite Hd1. intros Hx. by apply list_elem_of_filter in Hx as [[_ ?] _]. }
  cbn [mbind result_bind].
  pose proof Hs1 as (_ & Hl1 & _).
  rewrite decide_True by (unfold ndim; by rewrite Hl1, Hd1, Hsp).
  cbn [mbind result_bind]. by exists r1.
Qed.

(** X17.  [_save_image] does not write a batch to an image file: for any
    path that is no [.npy] path, an image whose batch axis has another
    extent than 1 raises RuntimeError, and no file is written. *)
Theorem save_image_refuses_batch (env : file_env) (out_path : string)
    (image : DataArray) (kb : nat) (n : Z) :
  (splitext env out_path).2 ≠ ".npy" →
  NoDup (dims image) → length (dims image) = ndim (values image) →
  dims image !! kb = Some "b" → shape (values image) !! kb = Some n → n ≠ 1 →
  _save_image env out_path image = ([], Raise RuntimeError).
Proof.
  intros Hext Hnd Hlen Hb Hbn Hn. rewrite save_image_unfold by done.
  destruct (squeeze_returns image Hnd Hlen) as (r1 & Hr1 & Hd1 & _).
  unfold prepared. rewrite Hr1. cbn [mbind result_bind].
  rewrite (bool_decide_eq_true_2 ("b" ∈ dims r1)); [done|].
  rewrite Hd1. apply list_elem_of_fmap. exists ("b", n). split; [done|].
  apply list_elem_of_filter. split.
  - unfold squeezes. cbn [fst snd]. apply andb_false_intro2. by apply Z.eqb_neq.
  - apply list_elem_of_lookup. exists kb. by apply lookup_zip_with_Some; eauto.
Qed.

(** X18.  An image with a batch of one and a number of channels other
    than 1, 3 and 4 is written as one file per channel, in the order of the
    channels: file [c] has the path [prefix-c<c>ext] made from the two
    parts of the path, is written by the volume writer exactly when the
    image has a [z] axis, and holds channel [c] of the image, on its
    spatial axes in their order. *)
Theorem save_image_writes_channels (env : file_env) (out_path : string)
    (image : DataArray) (kb kc : nat) (n : Z) :
  (splitext env out_path).2 ≠ ".npy" →
  (∀ p d, imsave env p d = Ok ()) → (∀ p d, volsave env p d = Ok ()) →
  saved_labels (dims image) → length (dims image) = ndim (values image) →
  Forall (λ n, 0 ≤ n) (shape (values image)) →
  dims image !! kb = Some "b" → shape (values image) !! kb = Some 1 →
  dims image !! kc = Some "c" → shape (values image) !! kc = Some n →
  n ≠ 1 → n ≠ 3 → n ≠ 4 →
  ∃ files, _save_image env out_path image = (files, Ok ()) ∧
    length files = Z.to_nat n ∧
    ∀ c, 0 ≤ c < n → ∃ chan,
      files !! Z.to_nat c
      = Some (Saved (if bool_decide ("z" ∈ dims image) then VolSave else ImSave)
                ((splitext env out_path).1 +:+ "-c" +:+ pretty c
                 +:+ (splitext env out_path).2) chan) ∧
      dims chan = filter (λ ax, ax ≠ "b" ∧ ax ≠ "c") (dims image) ∧
      (∀ k j ax, dims chan !! k = Some ax → dims image !! j = Some ax →
                 shape (values chan) !! k = shape (values image) !! j) ∧
      (∀ idx, length idx = length (dims chan) →
         item (values chan) idx
         = item (values image)
             ((λ ax, if decide (ax = "c") then c else coordinate (dims chan) idx ax)
                <$> dims image)).
Proof.
  intros Hext Him Hvol Hlab Hlen Hpos Hb Hb1 Hc Hcn Hn1 Hn3 Hn4.
  destruct (saved_labels_facts _ Hlab) as (Hnd & Hin & Hsp).
  destruct (prepared_with_channels image kb kc n) as (r & Hr & Hd & Hlast & _ & Hs);
    try done.
  rewrite save_image_unfold, Hr by done.
  rewrite (bool_decide_eq_false_2 (n = 3 ∨ n = 4)) by (intros [?|?]; done).
  unfold last_item. rewrite Hlast. cbv zeta.
  set (w := if bool_decide ("z" ∈ dims image) then VolSave else ImSave).
  set (save_function := if bool_decide ("z" ∈ dims image) then volsave env else imsave env).
  assert (∀ p d, save_function p d = Ok ()) as Hsave.
  { intros p d. unfold save_function. by destruct (bool_decide _). }
  pose proof Hs as (Hndr & Hlr & _).
  assert (∀ c, 0 ≤ c < n → ∃ chan, select_last r c = Ok chan ∧
            dims chan = spatial_labels (dims image) ∧ shows chan r (λ _, c)) as Hsel.
  { intros c Hcb.
    destruct (select_last_shows r (spatial_labels (dims image)) "c" n c)
      as (chan & Hchan & Hdc & _ & Hsc); try done.
    exists chan. done. }
  destruct (save_channels_all save_function w (splitext env out_path).1
              (splitext env out_path).2 r (py_range n) Hsave) as (files & -> & Hall).
  { intros c Hcb. apply elem_of_seqZ in Hcb.
    destruct (Hsel c) as (chan & Hchan & _); [lia|]. eauto. }
  exists files. split; [done|]. split.
  { rewrite <- (Forall2_length _ _ _ Hall). unfold py_range. by rewrite length_seqZ. }
  intros c Hcb.
  assert (py_range n !! Z.to_nat c = Some c) as Hlook.
  { unfold py_range. rewrite lookup_seqZ_lt by lia. f_equal. lia. }
  destruct (Forall2_lookup_l _ _ _ _ _ Hall Hlook) as (f & Hf & chan & Hchan & ->).
  destruct (Hsel c Hcb) as (chan' & Hchan' & Hdc & Hsc).
  rewrite Hchan in Hchan'. injection Hchan' as <-.
  exists chan. split; [done|]. split; [done|].
  destruct (shows_compose chan r image _ _ Hsc Hs) as (_ & _ & _ & Hsh & Hit).
  split; [done|]. intros idx Hidx. rewrite (Hit idx Hidx). f_equal.
  apply list_fmap_ext. intros j ax Hj.
  destruct (decide (ax ∈ dims chan)) as [Hax|Hax].
  - rewrite decide_False; [done|]. intros ->. rewrite Hdc in Hax.
    by apply list_elem_of_filter in Hax as [[_ ?] _].
  - destruct (decide (ax = "c")) as [->|Hne].
    + rewrite decide_True; [done|]. rewrite Hd. apply elem_of_app. right.
      by apply list_elem_of_singleton.
    + rewrite decide_False.
      * symmetry. by apply coordinate_missing.
      * rewrite Hd, elem_of_app, list_elem_of_singleton. rewrite Hdc in Hax. tauto.
Qed.

(** X19.  An image with a batch of one and 1, 3 or 4 channels is written
    as one file, at the path itself and by the volume writer exactly when
    the image has a [z] axis: the file has the spatial axes of the image in
    their order, followed by the channel axis when there are 3 or 4
    channels, and holds at every labelled position the element of the
    image, at position 0 of the axes that are dropped. *)
Theorem save_image_writes_one_file (env : file_env) (out_path : string)
    (image : DataArray) (kb kc : nat) (n : Z) :
  (splitext env out_path).2 ≠ ".npy" →
  (∀ p d, imsave env p d = Ok ()) → (∀ p d, volsave env p d = Ok ()) →
  saved_labels (dims image) → length (dims image) = ndim (values image) →
  Forall (λ n, 0 ≤ n) (shape (values image)) →
  dims image !! kb = Some "b" → shape (values image) !! kb = Some 1 →
  dims image !! kc = Some "c" → shape (values image) !! kc = Some n →
  n = 1 ∨ n = 3 ∨ n = 4 →
  ∃ img,
    _save_image env out_path image
    = ([Saved (if bool_decide ("z" ∈ dims image) then VolSave else ImSave)
          out_path img], Ok ()) ∧
    dims img = filter (λ ax, ax ≠ "b" ∧ ax ≠ "c") (dims image)
               ++ (if decide (n = 1) then [] else ["c"]) ∧
    (∀ k j ax, dims img !! k = Some ax → dims image !! j = Some ax →
               shape (values img) !! k = shape (values image) !! j) ∧
    (∀ idx, length idx = length (dims img) →
       item (values img) idx
       = item (values image) (coordinate (dims img) idx <$> dims image)).
Proof.
  intros Hext Him Hvol Hlab Hlen Hpos Hb Hb1 Hc Hcn Hn.
  assert (∀ p d, (if bool_decide ("z" ∈ dims image)
                  then volsave env else imsave env) p d = Ok ()) as Hsave.
  { intros p d. by destruct (bool_decide _). }
  assert (∀ r, shows r image (λ _, 0) →
            (∀ k j ax, dims r !! k = Some ax → dims image !! j = Some ax →
                       shape (values r) !! k = shape (values image) !! j) ∧
            (∀ idx, length idx = length (dims r) →
               item (values r) idx
               = item (values image) (coordinate (dims r) idx <$> dims image))) as Hview.
  { intros r (_ & _ & _ & Hsh & Hit). split; [done|]. intros idx Hidx.
    rewrite (Hit idx Hidx). f_equal. apply list_fmap_ext. intros j ax Hj.
    destruct (decide (ax ∈ dims r)); [done|]. symmetry. by apply coordinate_missing. }
  rewrite save_image_unfold by done. destruct (decide (n = 1)) as [->|Hn1].
  - destruct (prepared_one_channel image kb kc) as (r & -> & Hd & _ & Hs); try done.
    cbv zeta. rewrite Hsave. exists r. split; [done|]. rewrite app_nil_r.
    split; [done|]. by apply Hview.
  - destruct (prepared_with_channels image kb kc n) as (r & -> & Hd & _ & _ & Hs);
      try done.
    rewrite (bool_decide_eq_true_2 (n = 3 ∨ n = 4))
      by (destruct Hn as [?|[?|?]]; [done|by left|by right]).
    cbv zeta. rewrite Hsave. exists r. split; [done|]. split; [done|]. by apply Hview.
Qed.

(** ** Settings that count as false *)

(** X20.  A setting that is given but counts as false ([False], an empty
    dictionary) is not the same as no setting: [_predict_sample] reads the
    inputs and hands them to the padded prediction (or, without a padding
    argument, to the tiled one), which refuses the setting with ValueError.
    Nothing is predicted and nothing is written; in particular a padding
    of [False] keeps a tiling from being used. *)
Theorem falsy_setting_never_predicts (env : io_env) (pp : PredictionPipeline)
    (inputs outputs : list string) (padding : padding_arg) (tiling : tiling_arg) :
  (padding ≠ PaddingNone ∧ padding_truthy padding = false) ∨
  (padding = PaddingNone ∧ tiling ≠ TilingNone ∧ tiling_truthy tiling = false) →
  _predict_sample env pp inputs outputs padding tiling
  = ((_load_tensors env inputs (input_specs pp)).1,
     match (_load_tensors env inputs (input_specs pp)).2 with
     | Ok _ => Raise ValueError
     | Raise e => Raise e
     end).
Proof.
  intros H. unfold _predict_sample.
  assert (padding_truthy padding && tiling_truthy tiling = false) as ->.
  { destruct H as [[_ ->]|(-> & _)]; done. }
  destruct (_load_tensors env inputs (input_specs pp)) as [trace [input_data|e]];
    cbn [fst snd]; [|done].
  destruct H as [[Hp Hf]|(-> & Ht & Hf)].
  - assert (predict_with_padding pp (ManyInputs input_data) padding (PadRightBool true)
            = Raise ValueError) as Hr.
    { unfold predict_with_padding. by rewrite Hf. }
    destruct padding as [|b|d]; [done|..]; destruct tiling; by rewrite Hr.
  - assert (predict_with_tiling pp (ManyInputs input_data) tiling None
            = Raise ValueError) as Hr.
    { unfold predict_with_tiling. by rewrite Hf. }
    destruct tiling as [|b|d]; [done|..]; by rewrite Hr.
Qed.

(** ** Several samples *)

Lemma predict_samples_trace (env : io_env) (pp : PredictionPipeline)
    (prog : list (paths_arg * paths_arg)) (padding : padding_arg) (tiling : tiling_arg) :
  let run := λ io : paths_arg * paths_arg,
    _predict_sample env pp (path_list io.1) (path_list io.2) padding tiling in
  ∃ n, (n ≤ length prog)%nat ∧
    (predict_samples env pp prog padding tiling).1
    = concat ((λ io, (run io).1) <$> take n prog) ∧
    match (predict_samples env pp prog padding tiling).2 with
    | Ok _ => n = length prog ∧ ∀ io, io ∈ prog → (run io).2 = Ok ()
    | Raise e =>
      ∃ k io, n = S k ∧ prog !! k = Some io ∧ (run io).2 = Raise e ∧
        ∀ j io', (j < k)%nat → prog !! j = Some io' → (run io').2 = Ok ()
    end.
Proof.
  intros run. induction prog as [|[inp outp] prog IH].
  - exists 0%nat. cbn. split; [lia|]. split; [done|]. split; [done|].
    intros io Hio. by apply elem_of_nil in Hio.
  - cbn [predict_samples].
    change (_predict_sample env pp (path_list inp) (path_list outp) padding tiling)
      with (run (inp, outp)).
    destruct (run (inp, outp)) as [trace [[]|e]] eqn:Hrun; cbn [fst snd].
    + destruct IH as (n & Hn & Htr & Hres). exists (S n).
      split; [simpl; lia|]. split.
      { rewrite Htr. cbn [take fmap list_fmap concat]. by rewrite Hrun. }
      destruct (predict_samples env pp prog padding tiling).2 as [[]|e].
      * destruct Hres as [-> Hall]. split; [done|]. intros io Hio.
        apply elem_of_cons in Hio as [->|Hio]; [by rewrite Hrun|by apply Hall].
      * destruct Hres as (k & io & -> & Hk & Hio & Hbefore).
        exists (S k), io. repeat split; try done.
        intros [|j] io' Hj Hio'; simpl in Hio'.
        { injection Hio' as <-. by rewrite Hrun. }
        apply (Hbefore j); [lia|done].
    + exists 1%nat. split; [simpl; lia|]. split.
      { cbn [take fmap list_fmap concat]. rewrite Hrun. cbn [fst]. by rewrite app_nil_r. }
      exists 0%nat, (inp, outp). repeat split; try done.
      * by rewrite Hrun.
      * intros; lia.
Qed.

(** X21.  [predict_images] pairs the inputs with the outputs, stopping at
    the shorter of the two lists without complaint, and runs the samples in
    order until one fails: what is read and written is what the samples
    before the failure, and the failing sample up to its failure, read and
    write, one sample after the other; the outputs of the earlier samples
    stay written, the later samples are not touched. *)
Theorem predict_images_runs_samples_in_order {R : Type} (menv : model_env R)
    (env : io_env) (model_rdf : R) (inputs outputs : list paths_arg)
    (padding : padding_arg) (tiling : tiling_arg) (weight_format : option string)
    (devices : option (list string)) (model : Model) (pp : PredictionPipeline) :
  load_resource_description menv model_rdf = Ok (IsModel model) →
  create_prediction_pipeline menv model weight_format devices = Ok pp →
  let run := λ io : paths_arg * paths_arg,
    _predict_sample env pp (path_list io.1) (path_list io.2) padding tiling in
  let outcome :=
    predict_images menv env model_rdf inputs outputs padding tiling weight_format devices in
  ∃ n, (n ≤ length inputs `min` length outputs)%nat ∧
    outcome.1 = concat ((λ io, (run io).1) <$> take n (zip inputs outputs)) ∧
    match outcome.2 with
    | Ok _ =>
      n = (length inputs `min` length outputs)%nat ∧
      ∀ k inp outp, inputs !! k = Some inp → outputs !! k = Some outp →
                    (run (inp, outp)).2 = Ok ()
    | Raise e =>
      ∃ k inp outp, n = S k ∧ inputs !! k = Some inp ∧ outputs !! k = Some outp ∧
        (run (inp, outp)).2 = Raise e ∧
        ∀ j inp' outp', (j < k)%nat → inputs !! j = Some inp' → outputs !! j = Some outp' →
                        (run (inp', outp')).2 = Ok ()
    end.
Proof.
  intros Hload Hcreate run outcome. unfold outcome, predict_images.
  rewrite Hload, Hcreate.
  destruct (predict_samples_trace env pp (zip inputs outputs) padding tiling)
    as (n & Hn & Htr & Hres).
  exists n. rewrite length_zip in Hn. split; [done|]. split; [done|].
  destruct (predict_samples env pp (zip inputs outputs) padding tiling).2 as [[]|e].
  - destruct Hres as [-> Hall]. rewrite length_zip. split; [done|].
    intros k inp outp Hi Ho. apply Hall. apply list_elem_of_lookup. exists k.
    by apply lookup_zip_with_Some; eauto.
  - destruct Hres as (k & [inp outp] & -> & Hk & Hio & Hbefore).
    apply lookup_zip_with_Some in Hk as (a & b & [= <- <-] & Ha & Hb).
    exists k, inp, outp. repeat split; try done.
    intros j inp' outp' Hj Hi Ho. apply (Hbefore j); [done|].
    by apply lookup_zip_with_Some; eauto.
Qed.

(** X22.  [predict_image] is [predict_images] for one sample, behind a
    check: the numbers of input and of output paths, a bare path counting
    as one, must be those of the inputs and outputs of the model, or
    ValueError is raised before the pipeline is built or anything is
    read. *)
Theorem predict_image_is_one_checked_sample {R : Type} (menv : model_env R)
    (env : io_env) (model_rdf : R) (inputs outputs : paths_arg)
    (padding : padding_arg) (tiling : tiling_arg) (weight_format : option string)
    (devices : option (list string)) (model : Model) :
  load_resource_description menv model_rdf = Ok (IsModel model) →
  predict_image menv env model_rdf inputs outputs padding tiling weight_format devices
  = if decide (length (model_inputs model) = length (path_list inputs) ∧
               length (model_outputs model) = length (path_list outputs))
    then predict_images menv env model_rdf [inputs] [outputs] padding tiling
                        weight_format devices
    else ([], Raise ValueError).
Proof.
  intros Hload. unfold predict_image, predict_images. rewrite Hload.
  destruct (decide (length (model_inputs model) ≠ length (path_list inputs))) as [Hi|Hi].
  { rewrite decide_False; [done|]. intros [? _]. done. }
  destruct (decide (length (model_outputs model) ≠ length (path_list outputs))) as [Ho|Ho].
  { rewrite decide_False; [done|]. intros [_ ?]. done. }
  rewrite decide_True by (split; [by destruct (decide (length (model_inputs model)
    = length (path_list inputs)))|by destruct (decide (length (model_outputs model)
    = length (path_list outputs)))]).
  destruct (create_prediction_pipeline menv model weight_format devices) as [pp|e]; [|done].
  cbn [zip zip_with predict_samples fst snd].
  destruct (_predict_sample env pp (path_list inputs) (path_list outputs) padding tiling)
    as [trace [[]|e]]; cbn [fst snd]; [|done]. by rewrite app_nil_r.
Qed.

(** ** Concrete runs of the image files and of the entry points *)

(** An environment in which every path is an image path and every writer
    succeeds *)
Definition png_files : file_env :=
  FileEnv (λ _, ("out", ".png"))
          (λ _, Raise ValueError) (λ _, Raise ValueError) (λ _, Raise ValueError)
          (λ _ _, Ok ()) (λ _ _, Ok ()) (λ _ _, Ok ()).

(** An environment without readable images *)
Definition no_images : io_env := IoEnv (λ _ _, Raise RuntimeError) (λ _ _, Ok ()).

(** An environment with one model, the identity predictor *)
Definition one_model : model_env unit :=
  ModelEnv unit
    (λ _, Ok (IsModel (MkModel (input_specs (identity_pipeline [1; 1; 4; 4]))
                               (output_specs (identity_pipeline [1; 1; 4; 4])))))
    (λ _ _ _, Ok (identity_pipeline [1; 1; 4; 4])).

Lemma tiled_prediction_refuses_zero_halo_witness :
  predict_with_tiling (identity_pipeline [1; 1; 5; 7])
    (ManyInputs [MkDataArray bcyx (ramp [1; 1; 5; 7])]) (TilingOf (yx_tiling 4 0)) None
  = Raise (if decide (yx_tiling 4 0 = ∅) then ValueError else AssertionError).
Proof.
  apply (tiled_prediction_refuses_zero_halo (identity_pipeline [1; 1; 5; 7])
           (TensorSpec "input" bcyx (ExplicitShape [1; 1; 4; 4]) None "float32")
           (TensorSpec "output" bcyx (ExplicitShape [1; 1; 5; 7]) (Some [0; 0; 1; 1])
                       "float32")).
  - reflexivity.
  - reflexivity.
  - intros (halo & tile & Hh & _ & H). unfold yx_tiling in Hh.
    rewrite lookup_insert_ne, lookup_insert_eq in Hh by done. injection Hh as <-.
    destruct (H "y") as [(h & Hy & Hpos) _]; [by compute_done|reflexivity|].
    vm_compute in Hy. injection Hy as <-. lia.
Defined.

Lemma require_axes_places_by_label_witness :
  ∃ r, _require_axes (ramp [2; 3]) bcyx = Ok r ∧
    dtype r = dtype (ramp [2; 3]) ∧
    length (shape r) = length bcyx ∧
    (∀ k ax, bcyx !! k = Some ax →
       shape r !! k = Some (match index_of ax (file_labels (ramp [2; 3]) bcyx) with
                            | Some j => default 0 (shape (ramp [2; 3]) !! j)
                            | None => 1
                            end)) ∧
    (∀ idx, length idx = length bcyx →
       item r idx = item (ramp [2; 3])
                      (coordinate bcyx idx <$> file_labels (ramp [2; 3]) bcyx)).
Proof.
  apply (require_axes_places_by_label (ramp [2; 3]) bcyx).
  - left. reflexivity.
  - apply perm_skip. apply (Permutation_cons_append ["y"; "x"] "c").
Defined.

Lemma to_channel_last_moves_channel_witness :
  let image := MkDataArray bcyx (ramp [1; 2; 3; 4]) in
  if decide ("c" ∈ dims image) then
    ∃ r, _to_channel_last image = Ok r ∧
      dims r = filter (λ ax, ax ≠ "c") (dims image) ++ ["c"] ∧
      dtype (values r) = dtype (values image) ∧
      length (shape (values r)) = length (dims r) ∧
      (∀ k j ax, dims r !! k = Some ax → dims image !! j = Some ax →
                 shape (values r) !! k = shape (values image) !! j) ∧
      (∀ idx, length idx = length (dims r) →
              item (values r) idx
              = item (values image) (coordinate (dims r) idx <$> dims image)) ∧
      _to_channel_last r = Ok r
  else _to_channel_last image = Raise ValueError.
Proof.
  apply (to_channel_last_moves_channel (MkDataArray bcyx (ramp [1; 2; 3; 4]))).
  - apply (bool_decide_unpack _). by vm_compute.
  - reflexivity.
Defined.

Lemma save_image_refuses_batch_witness :
  _save_image png_files "out.png" (MkDataArray bcyx (ramp [2; 1; 3; 4]))
  = ([], Raise RuntimeError).
Proof.
  apply (save_image_refuses_batch png_files "out.png"
           (MkDataArray bcyx (ramp [2; 1; 3; 4])) 0 2).
  - intros [=].
  - apply (bool_decide_unpack _). by vm_compute.
  - reflexivity.
  - reflexivity.
  - reflexivity.
  - lia.
Defined.

Lemma save_image_writes_channels_witness :
  let image := MkDataArray bcyx (ramp [1; 2; 3; 4]) in
  ∃ files, _save_image png_files "out.png" image = (files, Ok ()) ∧
    length files = Z.to_nat 2 ∧
    ∀ c, 0 ≤ c < 2 → ∃ chan,
      files !! Z.to_nat c
      = Some (Saved (if bool_decide ("z" ∈ dims image) then VolSave else ImSave)
                ((splitext png_files "out.png").1 +:+ "-c" +:+ pretty c
                 +:+ (splitext png_files "out.png").2) chan) ∧
      dims chan = filter (λ ax, ax ≠ "b" ∧ ax ≠ "c") (dims image) ∧
      (∀ k j ax, dims chan !! k = Some ax → dims image !! j = Some ax →
                 shape (values chan) !! k = shape (values image) !! j) ∧
      (∀ idx, length idx = length (dims chan) →
         item (values chan) idx
         = item (values image)
             ((λ ax, if decide (ax = "c") then c else coordinate (dims chan) idx ax)
                <$> dims image)).
Proof.
  apply (save_image_writes_channels png_files "out.png"
           (MkDataArray bcyx (ramp [1; 2; 3; 4])) 0 1 2).
  - intros [=].
  - reflexivity.
  - reflexivity.
  - left. reflexivity.
  - reflexivity.
  - repeat constructor; lia.
  - reflexivity.
  - reflexivity.
  - reflexivity.
  - reflexivity.
  - lia.
  - lia.
  - lia.
Defined.

Lemma save_image_writes_one_file_witness :
  let image := MkDataArray bcyx (ramp [1; 3; 3; 4]) in
  ∃ img,
    _save_image png_files "out.png" image
    = ([Saved (if bool_decide ("z" ∈ dims image) then VolSave else ImSave)
          "out.png" img], Ok ()) ∧
    dims img = filter (λ ax, ax ≠ "b" ∧ ax ≠ "c") (dims image)
               ++ (if decide (3 = 1) then [] else ["c"]) ∧
    (∀ k j ax, dims img !! k = Some ax → dims image !! j = Some ax →
               shape (values img) !! k = shape (values image) !! j) ∧
    (∀ idx, length idx = length (dims img) →
       item (values img) idx
       = item (values image) (coordinate (dims img) idx <$> dims image)).
Proof.
  apply (save_image_writes_one_file png_files "out.png"
           (MkDataArray bcyx (ramp [1; 3; 3; 4])) 0 1 3).
  - intros [=].
  - reflexivity.
  - reflexivity.
  - left. reflexivity.
  - reflexivity.
  - repeat constructor; lia.
  - reflexivity.
  - reflexivity.
  - reflexivity.
  - reflexivity.
  - right. left. reflexivity.
Defined.

Lemma falsy_setting_never_predicts_witness :
  let pp := identity_pipeline [1; 1; 4; 4] in
  _predict_sample no_images pp ["in.png"] ["out.png"] (PaddingBool false) (TilingBool true)
  = ((_load_tensors no_images ["in.png"] (input_specs pp)).1,
     match (_load_tensors no_images ["in.png"] (input_specs pp)).2 with
     | Ok _ => Raise ValueError
     | Raise e => Raise e
     end).
Proof.
  apply (falsy_setting_never_predicts no_images (identity_pipeline [1; 1; 4; 4])
           ["in.png"] ["out.png"] (PaddingBool false) (TilingBool true)).
  left. split; [intros [=]|reflexivity].
Defined.

Lemma predict_images_runs_samples_in_order_witness :
  let inputs := [OnePath "a.png"; OnePath "b.png"] in
  let outputs := [OnePath "a-out.png"; OnePath "b-out.png"] in
  let run := λ io : paths_arg * paths_arg,
    _predict_sample no_images (identity_pipeline [1; 1; 4; 4])
                    (path_list io.1) (path_list io.2) PaddingNone TilingNone in
  let outcome :=
    predict_images one_model no_images () inputs outputs PaddingNone TilingNone None None in
  ∃ n, (n ≤ length inputs `min` length outputs)%nat ∧
    outcome.1 = concat ((λ io, (run io).1) <$> take n (zip inputs outputs)) ∧
    match outcome.2 with
    | Ok _ =>
      n = (length inputs `min` length outputs)%nat ∧
      ∀ k inp outp, inputs !! k = Some inp → outputs !! k = Some outp →
                    (run (inp, outp)).2 = Ok ()
    | Raise e =>
      ∃ k inp outp, n = S k ∧ inputs !! k = Some inp ∧ outputs !! k = Some outp ∧
        (run (inp, outp)).2 = Raise e ∧
        ∀ j inp' outp', (j < k)%nat → inputs !! j = Some inp' → outputs !! j = Some outp' →
                        (run (inp', outp')).2 = Ok ()
    end.
Proof.
  apply (predict_images_runs_samples_in_order one_model no_images ()
           [OnePath "a.png"; OnePath "b.png"] [OnePath "a-out.png"; OnePath "b-out.png"]
           PaddingNone TilingNone None None
           (MkModel (input_specs (identity_pipeline [1; 1; 4; 4]))
                    (output_specs (identity_pipeline [1; 1; 4; 4])))
           (identity_pipeline [1; 1; 4; 4])).
  - reflexivity.
  - reflexivity.
Defined.

Lemma predict_image_is_one_checked_sample_witness :
  let model := MkModel (input_specs (identity_pipeline [1; 1; 4; 4]))
                       (output_specs (identity_pipeline [1; 1; 4; 4])) in
  predict_image one_model no_images () (OnePath "a.png") (OnePath "a-out.png")
                PaddingNone TilingNone None None
  = if decide (length (model_inputs model) = length (path_list (OnePath "a.png")) ∧
               length (model_outputs model) = length (path_list (OnePath "a-out.png")))
    then predict_images one_model no_images () [OnePath "a.png"] [OnePath "a-out.png"]
                        PaddingNone TilingNone None None
    else ([], Raise ValueError).
Proof.
  apply (predict_image_is_one_checked_sample one_model no_images ()
           (OnePath "a.png") (OnePath "a-out.png") PaddingNone TilingNone None None).
  reflexivity.
Defined.
